(** * OpenSea floor monitor: floor tracking, alert decisions, notification dispatch

    A shallow embedding of [src/floorTracker.ts] (class [FloorTracker]), of the
    [Notifier] class and of [OpenSeaFloorMonitor.handleListingEvent]
    ([src/index.ts]), with the properties of the design document stated and
    settled against these definitions.

    Conventions of the embedding:
    - a JavaScript [number] is an IEEE 754 binary64 value, [spec_float] with
      precision 53 and maximal exponent 1024; arithmetic and comparisons are
      the bit-level operations of [SpecFloat];
    - the built-ins of the JavaScript runtime the code calls ([parseFloat],
      [parseInt], [Math.pow], [Number.prototype.toFixed], number-to-string
      conversion, [Date.prototype.toISOString]) are the fields of the class
      [Runtime]; every theorem holds for every runtime, and [ref_runtime] is an
      executable instance used to run the code on concrete inputs;
    - an object used as a dictionary is a [gmap] with string keys (property
      names inherited from [Object.prototype], such as [constructor], are not
      collection slugs and are outside the model);
    - an optional field ([x?: T]) is an [option]; truthiness tests are written
      out ([truthy], [truthy_str], [truthy_ostr]);
    - the effects of the handler (console lines, dashboard events, calls into
      the tracker and the notifier, outbound HTTPS posts) are recorded in a
      trace, and a rejected promise is the [Rejected] outcome of the
      computation. *)

From Stdlib Require Import ZArith Bool List Ascii String.
From Stdlib Require Import SpecFloat.
From stdpp Require Import base option gmap strings list fin_maps pretty.

Local Open Scope Z_scope.

(** ** JavaScript numbers *)

Module JS.

Definition number : Type := spec_float.

Definition prec : Z := 53.
Definition emax : Z := 1024.

Definition NaN : number := S754_nan.
Definition zero : number := S754_zero false.

(** The number denoted by an integer literal (round to nearest, ties to even). *)
Definition of_Z (z : Z) : number := binary_normalize prec emax z 0 false.

Definition add (a b : number) : number := SFadd prec emax a b.
Definition sub (a b : number) : number := SFsub prec emax a b.
Definition mul (a b : number) : number := SFmul prec emax a b.
Definition div (a b : number) : number := SFdiv prec emax a b.
Definition neg (a : number) : number := SFopp a.

(** [a < b], [a > b], [a >= b], [a <= b]: all false when an operand is NaN. *)
Definition lt (a b : number) : bool := SFltb a b.
Definition gt (a b : number) : bool := SFltb b a.
Definition le (a b : number) : bool := SFleb a b.
Definition ge (a b : number) : bool := SFleb b a.

Definition is_nan (a : number) : bool :=
  match a with S754_nan => true | _ => false end.

(** ToBoolean on a number: [+0], [-0] and [NaN] are falsy. *)
Definition truthy (a : number) : bool :=
  match a with
  | S754_zero _ | S754_nan => false
  | _ => true
  end.

(** ToBoolean on a string: only the empty string is falsy. *)
Definition truthy_str (s : string) : bool :=
  match s with
  | EmptyString => false
  | _ => true
  end.

(** ToBoolean on an optional string: [undefined] and [""] are falsy. *)
Definition truthy_ostr (o : option string) : bool :=
  match o with
  | Some s => truthy_str s
  | None => false
  end.

(** [a || b] on strings. *)
Definition or_str (a b : string) : string :=
  if truthy_str a then a else b.

(** [a || b] where [a] may be undefined. *)
Definition or_ostr (a : option string) (b : string) : string :=
  match a with
  | Some s => or_str s b
  | None => b
  end.

(** The comparison of two finite numbers of the same sign: exponents first,
    mantissas next. *)
Definition fcmp (e1 : Z) (m1 : positive) (e2 : Z) (m2 : positive) : comparison :=
  match Z.compare e1 e2 with
  | Lt => Lt
  | Gt => Gt
  | Eq => Pos.compare_cont Eq m1 m2
  end.

(** The integer a number denotes, when it denotes one. *)
Definition to_Z (a : number) : option Z :=
  match a with
  | S754_zero _ => Some 0
  | S754_finite s m e =>
      let v := if s then Z.neg m else Z.pos m in
      if 0 <=? e then Some (v * 2 ^ e)
      else if Z.pos m mod 2 ^ (- e) =? 0 then Some (v / 2 ^ (- e))
      else None
  | _ => None
  end.

End JS.

Export JS (number).

(** ** The runtime built-ins used by the code *)

(** The parts of a parsed [URL] the code reads. *)
Record URL : Type := {
  url_hostname : string;
  url_pathname : string;
  url_search : string
}.

Class Runtime : Type := {
  (** [parseFloat(s)] *)
  parseFloat : string → number;
  (** [parseInt(s, 10)] *)
  parseInt10 : string → number;
  (** [Math.pow(10, d)] *)
  pow10 : number → number;
  (** [x.toFixed(d)] *)
  toFixed : number → nat → string;
  (** the string a number becomes inside a template literal *)
  numToString : number → string;
  (** [new Date(ms).toISOString()]; [None] when it throws a RangeError *)
  toISOString : number → option string;
  (** [new URL(s)]; [None] when it throws a TypeError *)
  parseURL : string → option URL
}.

(** *** An executable runtime

    [ref_runtime] follows ECMAScript on the inputs the examples use: decimal
    literals of the form [-?digits(.digits)?] with at most 15 significant
    digits or no fractional part, integral exponents of [Math.pow] with an
    exactly representable result, [toFixed] of any number below 1e21, and
    numbers whose shortest decimal form has no exponent. *)

Module RefRuntime.

Definition digit_of (a : Ascii.ascii) : option Z :=
  let n := Z.of_N (Ascii.N_of_ascii a) in
  if (48 <=? n) && (n <=? 57) then Some (n - 48) else None.

(** Reads the longest prefix of decimal digits: its value continued from
    [acc], how many digits were read, and the rest of the string. *)
Fixpoint read_digits (s : string) (acc : Z) (cnt : nat) : Z * nat * string :=
  match s with
  | String a rest =>
      match digit_of a with
      | Some d => read_digits rest (10 * acc + d) (S cnt)
      | None => (acc, cnt, s)
      end
  | EmptyString => (acc, cnt, s)
  end.

Fixpoint skip_spaces (s : string) : string :=
  match s with
  | String " "%char rest => skip_spaces rest
  | _ => s
  end.

Definition read_sign (s : string) : bool * string :=
  match s with
  | String "-"%char rest => (true, rest)
  | String "+"%char rest => (false, rest)
  | _ => (false, s)
  end.

Definition signed (neg : bool) (x : number) : number :=
  if neg then JS.neg x else x.

Definition ref_parseFloat (s : string) : number :=
  let '(neg, s1) := read_sign (skip_spaces s) in
  let '(i, ni, s2) := read_digits s1 0 0 in
  match s2 with
  | String "."%char s3 =>
      let '(n, nf, _) := read_digits s3 i 0 in
      match ni, nf with
      | O, O => JS.NaN
      | _, O => signed neg (JS.of_Z i)
      | _, _ => signed neg (JS.div (JS.of_Z n) (JS.of_Z (10 ^ Z.of_nat nf)))
      end
  | _ =>
      match ni with
      | O => JS.NaN
      | _ => signed neg (JS.of_Z i)
      end
  end.

Definition ref_parseInt10 (s : string) : number :=
  let '(neg, s1) := read_sign (skip_spaces s) in
  let '(i, ni, _) := read_digits s1 0 0 in
  match ni with
  | O => JS.NaN
  | _ => signed neg (JS.of_Z i)
  end.

Definition ref_pow10 (d : number) : number :=
  match JS.to_Z d with
  | Some z =>
      if 0 <=? z then JS.of_Z (10 ^ z)
      else JS.div (JS.of_Z 1) (JS.of_Z (10 ^ (- z)))
  | None => JS.NaN
  end.

(** The integer [n] with [n / 10^d] closest to [m * 2^e], the larger one on
    a tie. *)
Definition scaled (m : positive) (e : Z) (d : nat) : Z :=
  let p := Z.pos m * 10 ^ Z.of_nat d in
  if 0 <=? e then p * 2 ^ e
  else (2 * p + 2 ^ (- e)) / 2 ^ (- e + 1).

Fixpoint zeros (k : nat) : string :=
  match k with
  | O => ""
  | S k' => String "0"%char (zeros k')
  end.

Definition fixed_digits (n : Z) (d : nat) : string :=
  let q := n / 10 ^ Z.of_nat d in
  let r := n mod 10 ^ Z.of_nat d in
  match d with
  | O => pretty q
  | _ =>
      let f := pretty r in
      pretty q +:+ "." +:+ zeros (d - String.length f) +:+ f
  end.

Definition ref_toFixed (x : number) (d : nat) : string :=
  match x with
  | S754_nan => "NaN"
  | S754_infinity s => if s then "-Infinity" else "Infinity"
  | S754_zero _ => fixed_digits 0 d
  | S754_finite s m e =>
      (if s then "-" else "") +:+ fixed_digits (scaled m e d) d
  end.

(** The shortest fixed notation that reads back as the same number. *)
Fixpoint shortest (x : number) (d : nat) (fuel : nat) : string :=
  match fuel with
  | O => ref_toFixed x d
  | S fuel' =>
      if SFeqb (ref_parseFloat (ref_toFixed x d)) x
      then ref_toFixed x d
      else shortest x (S d) fuel'
  end.

Definition ref_numToString (x : number) : string :=
  match x with
  | S754_zero _ => "0"
  | S754_finite _ _ _ => shortest x 0 20
  | _ => ref_toFixed x 0
  end.

(** A date is rendered as its millisecond count (no property below reads
    the text); NaN and the infinities are invalid dates. *)
Definition ref_toISOString (ms : number) : option string :=
  match ms with
  | S754_nan | S754_infinity _ => None
  | _ => Some (ref_toFixed ms 0)
  end.

(** Splits [s] before the first character satisfying [stop]. *)
Fixpoint split_at (stop : ascii → bool) (s : string) : string * string :=
  match s with
  | String a rest =>
      if stop a then ("", s)
      else let '(h, t) := split_at stop rest in (String a h, t)
  | EmptyString => ("", "")
  end.

Definition is_char (c a : ascii) : bool := (nat_of_ascii a =? nat_of_ascii c)%nat.

(** [https://host/path?query], without port, credentials or fragment. *)
Definition ref_parseURL (s : string) : option URL :=
  let '(scheme, r) := split_at (is_char ":") s in
  match r with
  | String ":" (String "/" (String "/" r1)) =>
      let '(host, r2) := split_at (λ a, is_char "/" a || is_char "?" a) r1 in
      let '(path, query) := split_at (is_char "?") r2 in
      match scheme, host with
      | EmptyString, _ | _, EmptyString => None
      | _, _ =>
          Some {| url_hostname := host;
                  url_pathname := match path with EmptyString => "/" | _ => path end;
                  url_search := query |}
      end
  | _ => None
  end.

End RefRuntime.

Definition ref_runtime : Runtime := {|
  parseFloat := RefRuntime.ref_parseFloat;
  parseInt10 := RefRuntime.ref_parseInt10;
  pow10 := RefRuntime.ref_pow10;
  toFixed := RefRuntime.ref_toFixed;
  numToString := RefRuntime.ref_numToString;
  toISOString := RefRuntime.ref_toISOString;
  parseURL := RefRuntime.ref_parseURL
|}.

(** ** Data model ([src/types.ts], [src/settingsManager.ts]) *)

Record Metadata : Type := {
  md_name : string;
  image_url : string
}.

Record Item : Type := {
  nft_id : string;
  metadata : Metadata;
  permalink : string
}.

Record PaymentToken : Type := {
  symbol : string;
  decimals : number;
  usd_price : string
}.

Record Maker : Type := {
  address : string
}.

Record Collection : Type := {
  slug : string;
  coll_name : option string
}.

(** The optional [protocol_data] of a payload is read nowhere and is left out. *)
Record Payload : Type := {
  item : Item;
  base_price : string;
  payment_token : PaymentToken;
  maker : Maker;
  event_timestamp : string;
  collection : Collection
}.

Record ListingEvent : Type := {
  event_type : string;
  payload : Payload
}.

Record FloorData : Type := {
  price : number;
  priceUSD : number;
  timestamp : number;
  tokenSymbol : string
}.

(** [CollectionFloors]: an object indexed by collection slug. *)
Abbreviation CollectionFloors := (gmap string FloorData).

Record NotificationConfig : Type := {
  discordWebhook : option string;
  telegramBotToken : option string;
  telegramChatId : option string
}.

Record BotConfig : Type := {
  apiKey : string;
  collections : list string;
  undercutThresholdPercent : number;
  notifications : NotificationConfig
}.

Module Settings.

(** [enableFloorUpdateAlerts] is compared with [false] by the handler, so
    that a settings file without the field behaves as [true]: the field is
    optional here. *)
Record BotSettings : Type := {
  collections : list string;
  undercutThresholdPercent : number;
  telegramBotToken : option string;
  telegramChatId : option string;
  telegramNickname : option string;
  discordWebhook : option string;
  discordNickname : option string;
  minFloorPrice : option number;
  maxFloorPrice : option number;
  enableNewListingAlerts : bool;
  enableSaleAlerts : bool;
  enableFloorUpdateAlerts : option bool;
  priceAlertMin : option number;
  priceAlertMax : option number;
  enablePriceTriggerAlerts : bool
}.

(** [{ ...settings, minFloorPrice: v }] *)
Definition set_minFloorPrice (s : BotSettings) (v : option number) : BotSettings :=
  {| collections := collections s;
     undercutThresholdPercent := undercutThresholdPercent s;
     telegramBotToken := telegramBotToken s;
     telegramChatId := telegramChatId s;
     telegramNickname := telegramNickname s;
     discordWebhook := discordWebhook s;
     discordNickname := discordNickname s;
     minFloorPrice := v;
     maxFloorPrice := maxFloorPrice s;
     enableNewListingAlerts := enableNewListingAlerts s;
     enableSaleAlerts := enableSaleAlerts s;
     enableFloorUpdateAlerts := enableFloorUpdateAlerts s;
     priceAlertMin := priceAlertMin s;
     priceAlertMax := priceAlertMax s;
     enablePriceTriggerAlerts := enablePriceTriggerAlerts s |}.

(** [{ ...settings, maxFloorPrice: v }] *)
Definition set_maxFloorPrice (s : BotSettings) (v : option number) : BotSettings :=
  {| collections := collections s;
     undercutThresholdPercent := undercutThresholdPercent s;
     telegramBotToken := telegramBotToken s;
     telegramChatId := telegramChatId s;
     telegramNickname := telegramNickname s;
     discordWebhook := discordWebhook s;
     discordNickname := discordNickname s;
     minFloorPrice := minFloorPrice s;
     maxFloorPrice := v;
     enableNewListingAlerts := enableNewListingAlerts s;
     enableSaleAlerts := enableSaleAlerts s;
     enableFloorUpdateAlerts := enableFloorUpdateAlerts s;
     priceAlertMin := priceAlertMin s;
     priceAlertMax := priceAlertMax s;
     enablePriceTriggerAlerts := enablePriceTriggerAlerts s |}.

End Settings.

(** ** [FloorTracker] ([src/floorTracker.ts])

    The private field [floors] is the state; a method that writes it returns
    the new store next to its result. *)

Module FloorTracker.

Record UndercutResult : Type := {
  isUndercut_flag : bool;
  listingPrice : number;
  floorPrice : number;
  percentBelow : number
}.

Section Methods.

Context {rt : Runtime}.

(** [parseFloat(base_price) / Math.pow(10, payment_token.decimals)] *)
Definition normalizedPrice (event : ListingEvent) : number :=
  let p := payload event in
  JS.div (parseFloat (base_price p)) (pow10 (decimals (payment_token p))).

(** The record [updateFloor] stores for an event. *)
Definition recordOf (event : ListingEvent) : FloorData :=
  let p := payload event in
  let priceInEth := normalizedPrice event in
  let priceUSD := JS.mul priceInEth
                    (parseFloat (JS.or_str (usd_price (payment_token p)) "0")) in
  {| price := priceInEth;
     priceUSD := priceUSD;
     timestamp := parseInt10 (event_timestamp p);
     tokenSymbol := symbol (payment_token p) |}.

Definition updateFloor (floors : CollectionFloors) (collectionSlug : string)
    (event : ListingEvent) : bool * CollectionFloors :=
  let priceInEth := normalizedPrice event in
  let currentFloor := floors !! collectionSlug in
  match currentFloor with
  | None => (true, <[collectionSlug := recordOf event]> floors)
  | Some cur =>
      if JS.lt priceInEth (price cur)
      then (true, <[collectionSlug := recordOf event]> floors)
      else (false, floors)
  end.

Definition getFloor (floors : CollectionFloors) (collectionSlug : string)
    : option FloorData :=
  floors !! collectionSlug.

Definition isUndercut (floors : CollectionFloors) (collectionSlug : string)
    (event : ListingEvent) (thresholdPercent : number) : UndercutResult :=
  let currentFloor := getFloor floors collectionSlug in
  let listingPrice := normalizedPrice event in
  match currentFloor with
  | None =>
      {| isUndercut_flag := false;
         listingPrice := listingPrice;
         floorPrice := JS.zero;
         percentBelow := JS.zero |}
  | Some cur =>
      let percentBelow :=
        JS.mul (JS.div (JS.sub (price cur) listingPrice) (price cur))
               (JS.of_Z 100) in
      {| isUndercut_flag := JS.ge percentBelow thresholdPercent;
         listingPrice := listingPrice;
         floorPrice := price cur;
         percentBelow := percentBelow |}
  end.

(** [{ ...this.floors }]: a new object with the same properties. As a
    value it is the same mapping; what it shares with the store is the
    subject of module [Heap]. *)
Definition getAllFloors (floors : CollectionFloors) : CollectionFloors :=
  floors.

Definition clearFloor (floors : CollectionFloors) (collectionSlug : string)
    : CollectionFloors :=
  delete collectionSlug floors.

(** The tracker after a sequence of listing events of one collection, in
    arrival order. *)
Definition applyEvents (floors : CollectionFloors) (collectionSlug : string)
    (events : list ListingEvent) : CollectionFloors :=
  foldl (λ fl ev, (updateFloor fl collectionSlug ev).2) floors events.

End Methods.

End FloorTracker.

(** ** Effects, outcomes and the task monad

    The handler and the notifier run on one thread; [await] sequences the
    awaited promise before the rest of the function, and a rejected promise
    leaves the function at the [await]. A task reads and writes the tracker's
    store, appends to the trace and resolves or rejects. *)

Record Embed : Type := {
  title : string;
  description : string;
  color : Z;
  thumbnail_url : string;
  embed_timestamp : string;
  footer_text : string
}.

(** The objects handed to [JSON.stringify]. *)
Inductive Body : Type :=
  | DiscordBody (embeds : list Embed)
  | TelegramBody (chat_id text parse_mode : string).

(** What [https.request] is given: [hostname], [path], the headers the caller
    adds to [Content-Type] and [Content-Length], and the body written. *)
Record Request : Type := {
  req_hostname : string;
  req_path : string;
  req_headers : list (string * string);
  req_body : Body
}.

(** How a request ends: a response with its status code and collected body,
    or an [error] event on the request. *)
Inductive Response : Type :=
  | HttpResponse (statusCode : option N) (responseData : string)
  | TransportError (message : string).

Abbreviation Network := (Request → Response).

Inductive JsError : Type :=
  | HttpError (statusCode : option N)
  | NetError (message : string)
  | InvalidURL (url : string)
  | InvalidTime.

Inductive Effect : Type :=
  | ConsoleLog (line : string)
  | ConsoleError (line : string)
  | HttpsPost (req : Request)
  | WebAddEvent (type message collection : string)
  | WebUpdateFloors (floors : CollectionFloors)
  | CallIsUndercut (collectionSlug : string)
  | CallUpdateFloor (collectionSlug : string)
  | CallSendUndercutAlert (listingPrice floorPrice percentBelow : number)
  | CallSendPriceTriggerAlert (listingPrice : number) (tokenSymbol reason : string)
  | CallSendFloorUpdateAlert (collectionSlug : string) (collectionName : option string)
      (newFloor : number) (tokenSymbol : string).

Inductive Outcome (A : Type) : Type :=
  | Resolved (a : A)
  | Rejected (e : JsError).

Arguments Resolved {A} a.
Arguments Rejected {A} e.

Record Run (A : Type) : Type := {
  trace : list Effect;
  store : CollectionFloors;
  outcome : Outcome A
}.

Arguments trace {A} r.
Arguments store {A} r.
Arguments outcome {A} r.

Definition Task (A : Type) : Type := CollectionFloors → Run A.

#[export] Instance task_ret : MRet Task :=
  λ A a fl, {| trace := []; store := fl; outcome := Resolved a |}.

#[export] Instance task_bind : MBind Task :=
  λ A B f m fl,
    let r := m fl in
    match outcome r with
    | Resolved a =>
        let r' := f a (store r) in
        {| trace := trace r ++ trace r'; store := store r'; outcome := outcome r' |}
    | Rejected e =>
        {| trace := trace r; store := store r; outcome := Rejected e |}
    end.

Definition emit (e : Effect) : Task unit :=
  λ fl, {| trace := [e]; store := fl; outcome := Resolved tt |}.

Definition reject {A : Type} (e : JsError) : Task A :=
  λ fl, {| trace := []; store := fl; outcome := Rejected e |}.

Definition getStore : Task CollectionFloors :=
  λ fl, {| trace := []; store := fl; outcome := Resolved fl |}.

Definition putStore (fl' : CollectionFloors) : Task unit :=
  λ _, {| trace := []; store := fl'; outcome := Resolved tt |}.

(** ** Strings of the messages *)

Definition nl : string := String (ascii_of_nat 10) "".

Fixpoint repeat_str (s : string) (n : nat) : string :=
  match n with
  | O => ""
  | S n' => s +:+ repeat_str s n'
  end.

Definition is_space (a : ascii) : bool :=
  let n := nat_of_ascii a in
  ((9 <=? n) && (n <=? 13))%nat || (n =? 32)%nat.

Fixpoint trim_start (s : string) : string :=
  match s with
  | String a rest => if is_space a then trim_start rest else s
  | EmptyString => s
  end.

(** [trim_end s] and whether what it returns is empty. *)
Fixpoint trim_end (s : string) : string :=
  match s with
  | String a rest =>
      match trim_end rest with
      | EmptyString => if is_space a then "" else String a ""
      | r => String a r
      end
  | EmptyString => s
  end.

(** [s.trim()] on the white space of ASCII. *)
Definition trim (s : string) : string := trim_end (trim_start s).

(** ** [Notifier] *)

Module Notifier.

Section Methods.

Context {rt : Runtime}.
Variable net : Network.
Variable config : NotificationConfig.

Definition status_ok (statusCode : option N) : bool :=
  match statusCode with
  | Some c => negb (c =? 0)%N && (200 <=? c)%N && (c <? 300)%N
  | None => false
  end.

Definition status_str (statusCode : option N) : string :=
  match statusCode with
  | Some c => pretty c
  | None => "undefined"
  end.

Definition makeHttpsRequest (url : string) (data : Body)
    (headers : list (string * string)) : Task unit :=
  match parseURL url with
  | None => reject (InvalidURL url)
  | Some urlObj =>
      let req := {| req_hostname := url_hostname urlObj;
                    req_path := url_pathname urlObj +:+ url_search urlObj;
                    req_headers := headers;
                    req_body := data |} in
      emit (HttpsPost req);;
      match net req with
      | HttpResponse statusCode responseData =>
          if status_ok statusCode then mret tt
          else
            emit (ConsoleError ("Notification failed: " +:+ status_str statusCode
                                +:+ " - " +:+ responseData));;
            reject (HttpError statusCode)
      | TransportError message =>
          emit (ConsoleError ("Notification error: " +:+ message));;
          reject (NetError message)
      end
  end.

Definition sendConsoleNotification (message : string) : Task unit :=
  emit (ConsoleLog (nl +:+ repeat_str "=" 60));;
  emit (ConsoleLog message);;
  emit (ConsoleLog (repeat_str "=" 60 +:+ nl)).

Definition sendDiscordNotification (message : string) (event : ListingEvent)
    : Task unit :=
  match discordWebhook config with
  | Some webhook =>
      if JS.truthy_str webhook then
        let p := payload event in
        match toISOString (JS.mul (parseInt10 (event_timestamp p)) (JS.of_Z 1000)) with
        | None => reject InvalidTime
        | Some iso =>
            let embed := {| title := "🚨 Undercut Detected!";
                            description := message;
                            color := 16711680;
                            thumbnail_url := image_url (metadata (item p));
                            embed_timestamp := iso;
                            footer_text := "OpenSea Floor Monitor" |} in
            makeHttpsRequest webhook (DiscordBody [embed]) []
        end
      else mret tt
  | None => mret tt
  end.

Definition sendTelegramNotification (message : string) : Task unit :=
  match telegramBotToken config, telegramChatId config with
  | Some token, Some chatId =>
      if JS.truthy_str token && JS.truthy_str chatId then
        let url := "https://api.telegram.org/bot" +:+ token +:+ "/sendMessage" in
        makeHttpsRequest url (TelegramBody chatId message "HTML")
          [("Content-Type", "application/json")]
      else mret tt
  | _, _ => mret tt
  end.

Definition formatMessage (collectionName : option string) (itemName : string)
    (listingPrice floorPrice percentBelow : number)
    (tokenSymbol permalink : string) : string :=
  trim (nl +:+ "🚨 UNDERCUT DETECTED! 🚨" +:+ nl +:+ nl
        +:+ "Collection: " +:+ JS.or_ostr collectionName "Unknown" +:+ nl
        +:+ "Item: " +:+ itemName +:+ nl
        +:+ "Listing Price: " +:+ toFixed listingPrice 4 +:+ " " +:+ tokenSymbol +:+ nl
        +:+ "Current Floor: " +:+ toFixed floorPrice 4 +:+ " " +:+ tokenSymbol +:+ nl
        +:+ "Below Floor: " +:+ toFixed percentBelow 2 +:+ "%" +:+ nl +:+ nl
        +:+ "Link: " +:+ permalink +:+ nl +:+ "    ").

(** The channels after the console, as both alert methods run them: the
    webhook when one is configured, then the bot when token and chat are. *)
Definition sendUndercutAlert (event : ListingEvent)
    (listingPrice floorPrice percentBelow : number) : Task unit :=
  emit (CallSendUndercutAlert listingPrice floorPrice percentBelow);;
  let p := payload event in
  let message := formatMessage (coll_name (collection p)) (md_name (metadata (item p)))
                   listingPrice floorPrice percentBelow
                   (symbol (payment_token p)) (permalink (item p)) in
  sendConsoleNotification message;;
  (if JS.truthy_ostr (discordWebhook config)
   then sendDiscordNotification message event else mret tt);;
  (if JS.truthy_ostr (telegramBotToken config) && JS.truthy_ostr (telegramChatId config)
   then sendTelegramNotification message else mret tt).

Definition sendPriceTriggerAlert (event : ListingEvent) (listingPrice : number)
    (tokenSymbol reason : string) : Task unit :=
  emit (CallSendPriceTriggerAlert listingPrice tokenSymbol reason);;
  let p := payload event in
  let message :=
    trim (nl +:+ "🎯 PRICE ALERT! 🎯" +:+ nl +:+ nl
          +:+ "Collection: "
          +:+ JS.or_ostr (coll_name (collection p)) (slug (collection p)) +:+ nl
          +:+ "Item: " +:+ md_name (metadata (item p)) +:+ nl
          +:+ "Price: " +:+ toFixed listingPrice 4 +:+ " " +:+ tokenSymbol +:+ nl
          +:+ "Reason: " +:+ reason +:+ nl +:+ nl
          +:+ "Link: " +:+ permalink (item p) +:+ nl +:+ "    ") in
  sendConsoleNotification message;;
  (if JS.truthy_ostr (discordWebhook config)
   then sendDiscordNotification message event else mret tt);;
  (if JS.truthy_ostr (telegramBotToken config) && JS.truthy_ostr (telegramChatId config)
   then sendTelegramNotification message else mret tt).

Definition sendFloorUpdateAlert (collectionSlug : string)
    (collectionName : option string) (newFloor : number) (tokenSymbol : string)
    : Task unit :=
  emit (CallSendFloorUpdateAlert collectionSlug collectionName newFloor tokenSymbol);;
  let displayName := JS.or_ostr collectionName collectionSlug in
  let message := "🔔 Floor Updated: " +:+ displayName +:+ nl
                 +:+ "New Floor: " +:+ toFixed newFloor 4 +:+ " " +:+ tokenSymbol in
  sendConsoleNotification message.

End Methods.

End Notifier.

(** ** [OpenSeaFloorMonitor.handleListingEvent] ([src/index.ts])

    [settings] is the snapshot [settingsManager.getSettings()] returns for the
    event; [config] is the configuration the monitor was built with, whose
    [notifications] the notifier holds. The dashboard calls ([addEvent],
    [updateBotStatus]) are effects of the trace. *)

Module Monitor.

Import FloorTracker.

(** Whether the handler left through one of its [return] statements. *)
Inductive Flow : Type :=
  | Continue
  | Return.

Section Handler.

Context {rt : Runtime}.
Variable net : Network.
Variable config : BotConfig.
Variable settings : Settings.BotSettings.

(** [shouldAlert] and [alertReason] after the two bound checks. *)
Definition priceTrigger (listingPrice : number) : bool * string :=
  let shouldAlert := false in
  let alertReason := "" in
  let '(shouldAlert, alertReason) :=
    match Settings.priceAlertMin settings with
    | Some priceAlertMin =>
        if JS.lt listingPrice priceAlertMin
        then (true, "Below " +:+ numToString priceAlertMin +:+ " ETH")
        else (shouldAlert, alertReason)
    | None => (shouldAlert, alertReason)
    end in
  let '(shouldAlert, alertReason) :=
    match Settings.priceAlertMax settings with
    | Some priceAlertMax =>
        if JS.gt listingPrice priceAlertMax
        then (true, "Above " +:+ numToString priceAlertMax +:+ " ETH")
        else (shouldAlert, alertReason)
    | None => (shouldAlert, alertReason)
    end in
  (shouldAlert, alertReason).

(** [settings.minFloorPrice && floorPrice < settings.minFloorPrice] *)
Definition belowMinFloor (floorPrice : number) : bool :=
  match Settings.minFloorPrice settings with
  | Some minFloorPrice => JS.truthy minFloorPrice && JS.lt floorPrice minFloorPrice
  | None => false
  end.

(** [settings.maxFloorPrice && floorPrice > settings.maxFloorPrice] *)
Definition aboveMaxFloor (floorPrice : number) : bool :=
  match Settings.maxFloorPrice settings with
  | Some maxFloorPrice => JS.truthy maxFloorPrice && JS.gt floorPrice maxFloorPrice
  | None => false
  end.

(** [settings.enableFloorUpdateAlerts !== false] *)
Definition floorUpdateAlertsOn : bool :=
  match Settings.enableFloorUpdateAlerts settings with
  | Some false => false
  | _ => true
  end.

(** The price-trigger block of the handler. *)
Definition priceTriggerAlerts (event : ListingEvent) (listingPrice : number)
    : Task unit :=
  let p := payload event in
  if Settings.enablePriceTriggerAlerts settings then
    let '(shouldAlert, alertReason) := priceTrigger listingPrice in
    if shouldAlert then
      Notifier.sendPriceTriggerAlert net (notifications config) event listingPrice
        (symbol (payment_token p)) alertReason;;
      emit (WebAddEvent "price_alert"
              ("🎯 " +:+ md_name (metadata (item p)) +:+ ": "
               +:+ toFixed listingPrice 4 +:+ " " +:+ symbol (payment_token p)
               +:+ " (" +:+ alertReason +:+ ")")
              (slug (collection p)))
    else mret tt
  else mret tt.

(** The undercut block of the handler; [Return] when a floor-price filter
    leaves the handler. *)
Definition undercutAlerts (event : ListingEvent) (listingPrice : number)
    : Task Flow :=
  let p := payload event in
  let collectionSlug := slug (collection p) in
  if negb (Settings.enablePriceTriggerAlerts settings) then
    emit (CallIsUndercut collectionSlug);;
    floors ← getStore;
    let undercutResult :=
      isUndercut floors collectionSlug event (undercutThresholdPercent config) in
    if isUndercut_flag undercutResult then
      if belowMinFloor (floorPrice undercutResult) then mret Return
      else if aboveMaxFloor (floorPrice undercutResult) then mret Return
      else
        Notifier.sendUndercutAlert net (notifications config) event
          (FloorTracker.listingPrice undercutResult) (floorPrice undercutResult)
          (percentBelow undercutResult);;
        emit (WebAddEvent "undercut"
                ("🚨 " +:+ md_name (metadata (item p)) +:+ ": "
                 +:+ toFixed listingPrice 4 +:+ " " +:+ symbol (payment_token p)
                 +:+ " (" +:+ toFixed (percentBelow undercutResult) 2
                 +:+ "% below floor)")
                collectionSlug);;
        mret Continue
    else mret Continue
  else mret Continue.

(** The floor-update block of the handler. *)
Definition floorUpdate (event : ListingEvent) : Task unit :=
  let p := payload event in
  let collectionSlug := slug (collection p) in
  emit (CallUpdateFloor collectionSlug);;
  floors ← getStore;
  let '(floorUpdated, floors') := updateFloor floors collectionSlug event in
  putStore floors';;
  if floorUpdated then
    floors ← getStore;
    match getFloor floors collectionSlug with
    | Some newFloor =>
        let displayName := JS.or_ostr (coll_name (collection p)) collectionSlug in
        emit (ConsoleLog ("📉 Floor updated for " +:+ displayName +:+ ": "
                          +:+ toFixed (price newFloor) 4 +:+ " "
                          +:+ tokenSymbol newFloor));;
        (if floorUpdateAlertsOn then
           Notifier.sendFloorUpdateAlert collectionSlug (coll_name (collection p))
             (price newFloor) (tokenSymbol newFloor)
         else mret tt);;
        emit (WebAddEvent "floor_update"
                ("Floor updated: " +:+ toFixed (price newFloor) 4 +:+ " "
                 +:+ tokenSymbol newFloor)
                collectionSlug)
    | None => mret tt
    end;;
    floors ← getStore;
    emit (WebUpdateFloors (getAllFloors floors))
  else mret tt.

Definition handleListingEvent (event : ListingEvent) : Task unit :=
  let p := payload event in
  let collectionSlug := slug (collection p) in
  let listingPrice := normalizedPrice event in
  emit (ConsoleLog ("📝 New listing: " +:+ md_name (metadata (item p)) +:+ " | "
                    +:+ toFixed listingPrice 4 +:+ " " +:+ symbol (payment_token p)));;
  emit (WebAddEvent "listing"
          (md_name (metadata (item p)) +:+ " listed for "
           +:+ toFixed listingPrice 4 +:+ " " +:+ symbol (payment_token p))
          collectionSlug);;
  priceTriggerAlerts event listingPrice;;
  flow ← undercutAlerts event listingPrice;
  match flow with
  | Return => mret tt
  | Continue => floorUpdate event
  end.

End Handler.

(** *** What a trace shows *)

Definition is_undercut_alert (e : Effect) : bool :=
  match e with CallSendUndercutAlert _ _ _ => true | _ => false end.

Definition is_price_trigger_alert (e : Effect) : bool :=
  match e with CallSendPriceTriggerAlert _ _ _ => true | _ => false end.

Definition is_floor_update_alert (e : Effect) : bool :=
  match e with CallSendFloorUpdateAlert _ _ _ _ => true | _ => false end.

(** The alerts that post to the webhook and to the bot. *)
Definition is_posting_alert (e : Effect) : bool :=
  is_undercut_alert e || is_price_trigger_alert e.

Definition is_verdict_call (e : Effect) : bool :=
  match e with CallIsUndercut _ => true | _ => false end.

Definition is_updateFloor_call (e : Effect) : bool :=
  match e with CallUpdateFloor _ => true | _ => false end.

Definition is_console (e : Effect) : bool :=
  match e with ConsoleLog _ => true | _ => false end.

(** A post to the chat webhook carries embeds. *)
Definition is_discord_post (e : Effect) : bool :=
  match e with
  | HttpsPost {| req_body := DiscordBody _ |} => true
  | _ => false
  end.

(** A post to the bot carries a chat identifier and a text. *)
Definition is_telegram_post (e : Effect) : bool :=
  match e with
  | HttpsPost {| req_body := TelegramBody _ _ _ |} => true
  | _ => false
  end.

Definition count (p : Effect → bool) (t : list Effect) : nat :=
  length (List.filter p t).

(** The bound of a price trigger, when it is configured and crossed. *)
Definition crossedMin (settings : Settings.BotSettings) (listingPrice : number)
    : option number :=
  match Settings.priceAlertMin settings with
  | Some priceAlertMin =>
      if JS.lt listingPrice priceAlertMin then Some priceAlertMin else None
  | None => None
  end.

Definition crossedMax (settings : Settings.BotSettings) (listingPrice : number)
    : option number :=
  match Settings.priceAlertMax settings with
  | Some priceAlertMax =>
      if JS.gt listingPrice priceAlertMax then Some priceAlertMax else None
  | None => None
  end.

(** A bound that is absent or zero. *)
Definition no_bound (b : option number) : bool :=
  match b with
  | Some (S754_zero _) | None => true
  | Some _ => false
  end.

(** A request that ends in a status outside 2xx or in a transport error. *)
Definition request_fails (r : Response) : bool :=
  match r with
  | HttpResponse statusCode _ => negb (Notifier.status_ok statusCode)
  | TransportError _ => true
  end.

Definition is_resolved {A : Type} (o : Outcome A) : bool :=
  match o with
  | Resolved _ => true
  | Rejected _ => false
  end.

(** A task none of whose effects satisfies [p], from any store. *)
Definition avoids {A : Type} (p : Effect → bool) (m : Task A) : Prop :=
  ∀ fl, Forall (λ e, p e = false) (trace (m fl)).

(** A task that leaves the store as it found it. *)
Definition keeps_store {A : Type} (m : Task A) : Prop :=
  ∀ fl, store (m fl) = fl.

(** A predicate that holds of no console line and of no post. *)
Definition silent_on_channels (p : Effect → bool) : Prop :=
  (∀ s, p (ConsoleLog s) = false) ∧ (∀ s, p (ConsoleError s) = false) ∧
  (∀ r, p (HttpsPost r) = false).

(** A predicate that holds of no dashboard call. *)
Definition silent_on_dashboard (p : Effect → bool) : Prop :=
  (∀ a b c, p (WebAddEvent a b c) = false) ∧ (∀ f, p (WebUpdateFloors f) = false).

Section Channels.

Context {rt : Runtime}.

(** The webhook is configured, and the embed and the request can be built. *)
Definition discordPosts (config : NotificationConfig) (event : ListingEvent) : bool :=
  match discordWebhook config with
  | Some webhook =>
      JS.truthy_str webhook
      && bool_decide (is_Some (toISOString
            (JS.mul (parseInt10 (event_timestamp (payload event))) (JS.of_Z 1000))))
      && bool_decide (is_Some (parseURL webhook))
  | None => false
  end.

(** Token and chat identifier are configured, and the request can be built. *)
Definition telegramPosts (config : NotificationConfig) : bool :=
  match telegramBotToken config, telegramChatId config with
  | Some token, Some chatId =>
      JS.truthy_str token && JS.truthy_str chatId
      && bool_decide (is_Some (parseURL
            ("https://api.telegram.org/bot" +:+ token +:+ "/sendMessage")))
  | _, _ => false
  end.

(** What both alert methods that post have in common, for the message
    they format. *)
Definition posts_as_configured (net : Network) (config : NotificationConfig)
    (ev : ListingEvent) (fl : CollectionFloors)
    (run : Run unit) : Prop :=
  ∃ message,
    let discord := Notifier.sendDiscordNotification net config message ev fl in
    let telegram := Notifier.sendTelegramNotification net config message fl in
    count is_console (trace run) = 3%nat
    ∧ count is_discord_post (trace run) = (if discordPosts config ev then 1 else 0)%nat
    ∧ count is_telegram_post (trace run) =
        (if telegramPosts config && is_resolved (outcome discord) then 1 else 0)%nat
    ∧ is_resolved (outcome run) =
        is_resolved (outcome discord) && is_resolved (outcome telegram).

End Channels.

(** The reasons of the price-trigger alerts of a trace, in order. *)
Definition price_trigger_reasons (t : list Effect) : list string :=
  omap (λ e, match e with
             | CallSendPriceTriggerAlert _ _ reason => Some reason
             | _ => None
             end) t.

End Monitor.

(** ** The tracker on a heap of objects

    Objects are reached through references. The tracker's field [floors]
    holds a reference to a dictionary object whose properties are references
    to [FloorData] objects; [getAllFloors] allocates a new dictionary with the
    same properties, that is, with the same references. *)

Module Heap.

Abbreviation loc := positive.

Inductive object : Type :=
  | ObjFloors (props : gmap string loc)
  | ObjRecord (data : FloorData).

Abbreviation heap := (gmap loc object).

(** [new]: the object is stored at a reference not in use. *)
Definition alloc (h : heap) (o : object) : loc * heap :=
  let l := fresh (dom h) in (l, <[l := o]> h).

Record Tracker : Type := {
  floors : loc
}.

(** [new FloorTracker()]: [floors = {}]. *)
Definition newTracker (h : heap) : Tracker * heap :=
  let '(l, h') := alloc h (ObjFloors ∅) in ({| floors := l |}, h').

(** The record object a reference leads to. *)
Definition deref (h : heap) (l : loc) : option FloorData :=
  match h !! l with
  | Some (ObjRecord d) => Some d
  | _ => None
  end.

(** The properties of the dictionary a reference leads to. *)
Definition props_at (h : heap) (l : loc) : gmap string loc :=
  match h !! l with
  | Some (ObjFloors m) => m
  | _ => ∅
  end.

(** [this.floors[collectionSlug]], followed to the record. *)
Definition getFloor (h : heap) (t : Tracker) (collectionSlug : string)
    : option FloorData :=
  props_at h (floors t) !! collectionSlug ≫= deref h.

Section Methods.

Context {rt : Runtime}.

Definition updateFloor (h : heap) (t : Tracker) (collectionSlug : string)
    (event : ListingEvent) : bool * heap :=
  let priceInEth := FloorTracker.normalizedPrice event in
  let currentFloor := getFloor h t collectionSlug in
  let replace :=
    let '(l, h') := alloc h (ObjRecord (FloorTracker.recordOf event)) in
    (true, <[floors t := ObjFloors (<[collectionSlug := l]> (props_at h (floors t)))]> h') in
  match currentFloor with
  | None => replace
  | Some cur => if JS.lt priceInEth (price cur) then replace else (false, h)
  end.

Definition isUndercut (h : heap) (t : Tracker) (collectionSlug : string)
    (event : ListingEvent) (thresholdPercent : number)
    : FloorTracker.UndercutResult :=
  let currentFloor := getFloor h t collectionSlug in
  let listingPrice := FloorTracker.normalizedPrice event in
  match currentFloor with
  | None =>
      {| FloorTracker.isUndercut_flag := false;
         FloorTracker.listingPrice := listingPrice;
         FloorTracker.floorPrice := JS.zero;
         FloorTracker.percentBelow := JS.zero |}
  | Some cur =>
      let percentBelow :=
        JS.mul (JS.div (JS.sub (price cur) listingPrice) (price cur))
               (JS.of_Z 100) in
      {| FloorTracker.isUndercut_flag := JS.ge percentBelow thresholdPercent;
         FloorTracker.listingPrice := listingPrice;
         FloorTracker.floorPrice := price cur;
         FloorTracker.percentBelow := percentBelow |}
  end.

End Methods.

(** [{ ...this.floors }]: the reference to the new dictionary and the heap
    holding it. *)
Definition getAllFloors (h : heap) (t : Tracker) : loc * heap :=
  alloc h (ObjFloors (props_at h (floors t))).

(** What a caller can do to the value [getAllFloors] returned. *)
Inductive Mutation : Type :=
  (** [snap[key] = { price, priceUSD, timestamp, tokenSymbol }] *)
  | SetProperty (key : string) (data : FloorData)
  (** [snap[key] = snap[from]] *)
  | CopyProperty (key from : string)
  (** [delete snap[key]] *)
  | DeleteProperty (key : string)
  (** [snap[key].field = value], as the change it makes to the record *)
  | SetField (key : string) (change : FloorData → FloorData).

Definition mutate (snap : loc) (h : heap) (m : Mutation) : heap :=
  match m with
  | SetProperty key data =>
      let '(l, h') := alloc h (ObjRecord data) in
      <[snap := ObjFloors (<[key := l]> (props_at h snap))]> h'
  | CopyProperty key from =>
      match props_at h snap !! from with
      | Some l => <[snap := ObjFloors (<[key := l]> (props_at h snap))]> h
      | None => <[snap := ObjFloors (delete key (props_at h snap))]> h
      end
  | DeleteProperty key =>
      <[snap := ObjFloors (delete key (props_at h snap))]> h
  | SetField key change =>
      match props_at h snap !! key with
      | Some l =>
          match h !! l with
          | Some (ObjRecord d) => <[l := ObjRecord (change d)]> h
          | _ => h
          end
      | None => h
      end
  end.

Definition mutateAll (snap : loc) (h : heap) (ms : list Mutation) : heap :=
  foldl (mutate snap) h ms.

(** A mutation of the dictionary itself, not of a record it refers to. *)
Definition top_level (m : Mutation) : bool :=
  match m with
  | SetField _ _ => false
  | _ => true
  end.

(** The store as the tracker's methods read it. *)
Definition view (h : heap) (t : Tracker) : CollectionFloors :=
  omap (deref h) (props_at h (floors t)).

(** The tracker's dictionary exists and each property leads to a record. *)
Definition wf (h : heap) (t : Tracker) : Prop :=
  (∃ m, h !! floors t = Some (ObjFloors m)) ∧
  ∀ k l, props_at h (floors t) !! k = Some l → is_Some (deref h l).

(** [h'] has every object of [h] unchanged. *)
Definition extends (h h' : heap) : Prop :=
  ∀ l, l ∈ dom h → h' !! l = h !! l.

End Heap.
(** ** Examples on the executable runtime *)

Module Examples.

Import FloorTracker.

Definition eth : PaymentToken :=
  {| symbol := "ETH"; decimals := JS.of_Z 18; usd_price := "3000" |}.

(** A listing of the collection [apes] at [wei] base units. *)
Definition listing (wei : string) : ListingEvent :=
  {| event_type := "item_listed";
     payload :=
       {| item := {| nft_id := "ethereum/0xabc/1";
                     metadata := {| md_name := "Ape #1";
                                    image_url := "https://img.example/1.png" |};
                     permalink := "https://opensea.io/assets/1" |};
          base_price := wei;
          payment_token := eth;
          maker := {| address := "0xmaker" |};
          event_timestamp := "1700000000";
          collection := {| slug := "apes"; coll_name := Some "Apes" |} |} |}.

Definition l_1_0 := listing "1000000000000000000".
Definition l_1_2 := listing "1200000000000000000".
Definition l_0_8 := listing "800000000000000000".
Definition l_0_94 := listing "940000000000000000".
Definition l_0_96 := listing "960000000000000000".
Definition l_0_5 := listing "500000000000000000".
Definition l_0_3 := listing "300000000000000000".

(** Every channel configured. *)
Definition all_channels : NotificationConfig :=
  {| discordWebhook := Some "https://discord.com/api/webhooks/1/abc";
     telegramBotToken := Some "T0K";
     telegramChatId := Some "42" |}.

Definition config5 : BotConfig :=
  {| apiKey := "key";
     collections := ["apes"];
     undercutThresholdPercent := JS.of_Z 5;
     notifications := all_channels |}.

(** The default settings of [SettingsManager.loadSettings]. *)
Definition defaults : Settings.BotSettings :=
  {| Settings.collections := ["apes"];
     Settings.undercutThresholdPercent := JS.of_Z 5;
     Settings.telegramBotToken := None;
     Settings.telegramChatId := None;
     Settings.telegramNickname := None;
     Settings.discordWebhook := None;
     Settings.discordNickname := None;
     Settings.minFloorPrice := None;
     Settings.maxFloorPrice := None;
     Settings.enableNewListingAlerts := true;
     Settings.enableSaleAlerts := true;
     Settings.enableFloorUpdateAlerts := Some true;
     Settings.priceAlertMin := None;
     Settings.priceAlertMax := None;
     Settings.enablePriceTriggerAlerts := false |}.

(** Price-trigger alerts enabled, with the given bounds. *)
Definition triggers (priceAlertMin priceAlertMax : option number)
    : Settings.BotSettings :=
  {| Settings.collections := ["apes"];
     Settings.undercutThresholdPercent := JS.of_Z 5;
     Settings.telegramBotToken := None;
     Settings.telegramChatId := None;
     Settings.telegramNickname := None;
     Settings.discordWebhook := None;
     Settings.discordNickname := None;
     Settings.minFloorPrice := None;
     Settings.maxFloorPrice := None;
     Settings.enableNewListingAlerts := true;
     Settings.enableSaleAlerts := true;
     Settings.enableFloorUpdateAlerts := Some true;
     Settings.priceAlertMin := priceAlertMin;
     Settings.priceAlertMax := priceAlertMax;
     Settings.enablePriceTriggerAlerts := true |}.

(** The numbers 0.5 and 0.2, as [parseFloat] reads them. *)
Definition n_0_5 : number := RefRuntime.ref_parseFloat "0.5".
Definition n_0_2 : number := RefRuntime.ref_parseFloat "0.2".

(** [record.price = v] *)
Definition set_price (v : number) (d : FloorData) : FloorData :=
  {| price := v;
     priceUSD := priceUSD d;
     timestamp := timestamp d;
     tokenSymbol := tokenSymbol d |}.

(** A tracker on an empty heap, after a first listing at 1.0 ETH. *)
Definition tracker_1_0 : Heap.Tracker := (Heap.newTracker ∅).1.
Definition heap_1_0 : Heap.heap :=
  (Heap.updateFloor (rt := ref_runtime) (Heap.newTracker ∅).2 tracker_1_0
     "apes" l_1_0).2.

(** A network on which every request is answered 204. *)
Definition net_ok : Network := λ _, HttpResponse (Some 204%N) "".

(** A network on which the chat webhook answers 500 and the bot answers 200. *)
Definition net_webhook_500 : Network :=
  λ req, match req_body req with
         | DiscordBody _ => HttpResponse (Some 500%N) "Internal Server Error"
         | TelegramBody _ _ _ => HttpResponse (Some 200%N) "ok"
         end.

(** The store after a first listing at 1.0 ETH. *)
Definition floor_1_0 : CollectionFloors :=
  applyEvents (rt := ref_runtime) ∅ "apes" [l_1_0].

End Examples.

Import FloorTracker.


(** ** [WebServer]: the state behind the dashboard

    [Date.now()] is the argument [now] of [addEvent]. *)

Module WebServer.

Record DashboardEvent : Type := {
  ev_type : string;
  ev_message : string;
  ev_collection : string;
  ev_timestamp : number
}.

Record BotStatus : Type := {
  isRunning : bool;
  status_collections : list string;
  status_floors : CollectionFloors;
  lastEvents : list DashboardEvent
}.

(** [Partial<typeof this.botStatus>]: the properties an update carries. *)
Record StatusUpdate : Type := {
  set_isRunning : option bool;
  set_collections : option (list string);
  set_floors : option CollectionFloors;
  set_lastEvents : option (list DashboardEvent)
}.

(** The status the constructor sets. *)
Definition initialStatus : BotStatus :=
  {| isRunning := false;
     status_collections := [];
     status_floors := ∅;
     lastEvents := [] |}.

(** [this.botStatus = { ...this.botStatus, ...status }] *)
Definition updateBotStatus (status : StatusUpdate) (botStatus : BotStatus) : BotStatus :=
  {| isRunning := default (isRunning botStatus) (set_isRunning status);
     status_collections := default (status_collections botStatus) (set_collections status);
     status_floors := default (status_floors botStatus) (set_floors status);
     lastEvents := default (lastEvents botStatus) (set_lastEvents status) |}.

(** [push] of the event with its timestamp, then [shift] when more than 100
    events are held. *)
Definition addEvent (now : number) (type message collection : string)
    (botStatus : BotStatus) : BotStatus :=
  let pushed := lastEvents botStatus ++
                [{| ev_type := type;
                    ev_message := message;
                    ev_collection := collection;
                    ev_timestamp := now |}] in
  {| isRunning := isRunning botStatus;
     status_collections := status_collections botStatus;
     status_floors := status_floors botStatus;
     lastEvents := if (100 <? length pushed)%nat then drop 1 pushed else pushed |}.

(** [GET /api/events]: [lastEvents.slice(-50)] *)
Definition recentEvents (botStatus : BotStatus) : list DashboardEvent :=
  drop (length (lastEvents botStatus) - 50) (lastEvents botStatus).

(** The dashboard calls of a trace, made on a status: [now k] is what
    [Date.now()] returns at the [k]-th [addEvent] from [k0] on. *)
Fixpoint replay (now : nat → number) (k0 : nat) (t : list Effect)
    (botStatus : BotStatus) : BotStatus :=
  match t with
  | [] => botStatus
  | WebAddEvent type message collection :: t' =>
      replay now (S k0) t' (addEvent (now k0) type message collection botStatus)
  | WebUpdateFloors floors :: t' =>
      replay now k0 t'
        (updateBotStatus {| set_isRunning := None;
                            set_collections := None;
                            set_floors := Some floors;
                            set_lastEvents := None |} botStatus)
  | _ :: t' => replay now k0 t' botStatus
  end.

End WebServer.

(** ** [SettingsManager.saveSettings] ([src/settingsManager.ts])

    [writeFileSync] tells whether writing the settings file succeeds. *)

Module SettingsManager.

(** [Partial<BotSettings>]: the properties a save carries. *)
Record PartialSettings : Type := {
  new_collections : option (list string);
  new_undercutThresholdPercent : option number;
  new_telegramBotToken : option (option string);
  new_telegramChatId : option (option string);
  new_telegramNickname : option (option string);
  new_discordWebhook : option (option string);
  new_discordNickname : option (option string);
  new_minFloorPrice : option (option number);
  new_maxFloorPrice : option (option number);
  new_enableNewListingAlerts : option bool;
  new_enableSaleAlerts : option bool;
  new_enableFloorUpdateAlerts : option (option bool);
  new_priceAlertMin : option (option number);
  new_priceAlertMax : option (option number);
  new_enablePriceTriggerAlerts : option bool
}.

(** [{ ...this.settings, ...settings }] *)
Definition merge (current : Settings.BotSettings) (settings : PartialSettings)
    : Settings.BotSettings :=
  {| Settings.collections :=
       default (Settings.collections current) (new_collections settings);
     Settings.undercutThresholdPercent :=
       default (Settings.undercutThresholdPercent current)
         (new_undercutThresholdPercent settings);
     Settings.telegramBotToken :=
       default (Settings.telegramBotToken current) (new_telegramBotToken settings);
     Settings.telegramChatId :=
       default (Settings.telegramChatId current) (new_telegramChatId settings);
     Settings.telegramNickname :=
       default (Settings.telegramNickname current) (new_telegramNickname settings);
     Settings.discordWebhook :=
       default (Settings.discordWebhook current) (new_discordWebhook settings);
     Settings.discordNickname :=
       default (Settings.discordNickname current) (new_discordNickname settings);
     Settings.minFloorPrice :=
       default (Settings.minFloorPrice current) (new_minFloorPrice settings);
     Settings.maxFloorPrice :=
       default (Settings.maxFloorPrice current) (new_maxFloorPrice settings);
     Settings.enableNewListingAlerts :=
       default (Settings.enableNewListingAlerts current)
         (new_enableNewListingAlerts settings);
     Settings.enableSaleAlerts :=
       default (Settings.enableSaleAlerts current) (new_enableSaleAlerts settings);
     Settings.enableFloorUpdateAlerts :=
       default (Settings.enableFloorUpdateAlerts current)
         (new_enableFloorUpdateAlerts settings);
     Settings.priceAlertMin :=
       default (Settings.priceAlertMin current) (new_priceAlertMin settings);
     Settings.priceAlertMax :=
       default (Settings.priceAlertMax current) (new_priceAlertMax settings);
     Settings.enablePriceTriggerAlerts :=
       default (Settings.enablePriceTriggerAlerts current)
         (new_enablePriceTriggerAlerts settings) |}.

(** What a save returns: normally, or by [throw new Error('Failed to save
    settings')]. *)
Inductive SaveResult : Type :=
  | Saved
  | FailedToSave.

(** The manager's settings after the call, the file written when the write
    succeeds, the lines written to the error console, and the result. *)
Record Save : Type := {
  settings_after : Settings.BotSettings;
  written : option Settings.BotSettings;
  error_lines : list string;
  result : SaveResult
}.

Definition saveSettings (writeFileSync : Settings.BotSettings → bool)
    (current : Settings.BotSettings) (settings : PartialSettings) : Save :=
  let merged := merge current settings in
  if writeFileSync merged
  then {| settings_after := merged;
          written := Some merged;
          error_lines := [];
          result := Saved |}
  else {| settings_after := merged;
          written := None;
          error_lines := ["Error saving settings:"];
          result := FailedToSave |}.

(** [getSettings()]: a copy of the settings. *)
Definition getSettings (current : Settings.BotSettings) : Settings.BotSettings :=
  current.

(** [POST /api/settings]: the status of the response and the manager's
    settings after it. *)
Definition postSettings (writeFileSync : Settings.BotSettings → bool)
    (current : Settings.BotSettings) (body : PartialSettings)
    : N * Settings.BotSettings :=
  let save := saveSettings writeFileSync current body in
  match result save with
  | Saved => (200%N, settings_after save)
  | FailedToSave => (500%N, settings_after save)
  end.

End SettingsManager.

(** ** [loadConfig] ([src/config.ts])

    [env] is [process.env] after [dotenv.config()]. *)

Module Config.

(** [s.split(',')] *)
Fixpoint split_comma (s : string) : list string :=
  match s with
  | EmptyString => [""]
  | String a rest =>
      if (nat_of_ascii a =? 44)%nat then "" :: split_comma rest
      else match split_comma rest with
           | piece :: pieces => String a piece :: pieces
           | [] => [String a ""]
           end
  end.

Definition nonempty (s : string) : bool := (0 <? String.length s)%nat.

Section LoadConfig.

Context {rt : Runtime}.

(** [inl message] is [throw new Error(message)]. *)
Definition loadConfig (env : gmap string string) : string + BotConfig :=
  match env !! "OPENSEA_API_KEY" with
  | None => inl "OPENSEA_API_KEY is required in .env file"
  | Some apiKey =>
      if negb (JS.truthy_str apiKey)
      then inl "OPENSEA_API_KEY is required in .env file"
      else
        match env !! "COLLECTIONS" with
        | None =>
            inl "COLLECTIONS is required in .env file (comma-separated collection slugs)"
        | Some collectionsStr =>
            if negb (JS.truthy_str collectionsStr)
            then inl "COLLECTIONS is required in .env file (comma-separated collection slugs)"
            else
              let collections :=
                List.filter nonempty (List.map trim (split_comma collectionsStr)) in
              match collections with
              | [] => inl "At least one collection slug is required"
              | _ =>
                  let undercutThresholdPercent :=
                    parseFloat (JS.or_ostr (env !! "UNDERCUT_THRESHOLD_PERCENT") "0") in
                  inr {| apiKey := apiKey;
                         collections := collections;
                         undercutThresholdPercent := undercutThresholdPercent;
                         notifications :=
                           {| discordWebhook := env !! "DISCORD_WEBHOOK_URL";
                              telegramBotToken := env !! "TELEGRAM_BOT_TOKEN";
                              telegramChatId := env !! "TELEGRAM_CHAT_ID" |} |}
              end
        end
  end.

End LoadConfig.

End Config.

(** ** The monitor's life cycle ([src/index.ts])

    [client] is the list of the subscriptions made on the current stream
    client; a new client has none. *)

Module Bot.

Inductive Subscription : Type :=
  | OnItemListed (collectionSlug : string)
  | OnItemSold (collectionSlug : string).

Record State : Type := {
  config : BotConfig;
  floorTracker : CollectionFloors;
  isListening : bool;
  client : list Subscription;
  botStatus : WebServer.BotStatus
}.

(** The subscriptions [subscribeToCollection] makes for each collection. *)
Definition subscriptions (collections : list string) : list Subscription :=
  flat_map (λ collectionSlug, [OnItemListed collectionSlug; OnItemSold collectionSlug])
    collections.

(** The lines [subscribeToCollection] logs for each collection. *)
Definition subscribed_lines (collections : list string) : list string :=
  List.map (λ collectionSlug, "✓ Subscribed to " +:+ collectionSlug) collections.

(** The constructor: the settings override the configuration of the
    environment where they have a value. [undercutThresholdPercent] is a
    number in [BotSettings], so that its test against [undefined] holds. *)
Definition construct (envConfig : BotConfig) (settings : Settings.BotSettings)
    : State :=
  let pick (fromSettings fromEnv : option string) : option string :=
    if JS.truthy_ostr fromSettings then fromSettings else fromEnv in
  {| config :=
       {| apiKey := apiKey envConfig;
          collections :=
            if (0 <? length (Settings.collections settings))%nat
            then Settings.collections settings
            else collections envConfig;
          undercutThresholdPercent := Settings.undercutThresholdPercent settings;
          notifications :=
            {| discordWebhook :=
                 pick (Settings.discordWebhook settings)
                      (discordWebhook (notifications envConfig));
               telegramBotToken :=
                 pick (Settings.telegramBotToken settings)
                      (telegramBotToken (notifications envConfig));
               telegramChatId :=
                 pick (Settings.telegramChatId settings)
                      (telegramChatId (notifications envConfig)) |} |};
     floorTracker := ∅;
     isListening := false;
     client := [];
     botStatus := WebServer.initialStatus |}.

(** The lines logged and the state after the call. *)
Definition startListening (st : State) : list string * State :=
  if isListening st then (["⚠️ Already listening..."], st)
  else
    (["▶️ Starting to listen for events..."]
     ++ subscribed_lines (collections (config st))
     ++ ["✅ Bot is now listening for listings..."],
     {| config := config st;
        floorTracker := floorTracker st;
        isListening := true;
        client := client st ++ subscriptions (collections (config st));
        botStatus :=
          WebServer.updateBotStatus
            {| WebServer.set_isRunning := Some true;
               WebServer.set_collections := Some (collections (config st));
               WebServer.set_floors := Some (FloorTracker.getAllFloors (floorTracker st));
               WebServer.set_lastEvents := Some [] |}
            (botStatus st) |}).

(** The client is disconnected and replaced by a new one. *)
Definition stopListening (st : State) : list string * State :=
  if negb (isListening st) then (["⚠️ Already stopped..."], st)
  else
    (["⏹️ Stopping listener..."; "✅ Bot stopped listening"],
     {| config := config st;
        floorTracker := floorTracker st;
        isListening := false;
        client := [];
        botStatus :=
          WebServer.updateBotStatus
            {| WebServer.set_isRunning := Some false;
               WebServer.set_collections := Some (collections (config st));
               WebServer.set_floors := Some (FloorTracker.getAllFloors (floorTracker st));
               WebServer.set_lastEvents := Some [] |}
            (botStatus st) |}).

Definition getListeningStatus (st : State) : bool := isListening st.

Definition getFloors (st : State) : CollectionFloors :=
  FloorTracker.getAllFloors (floorTracker st).

Section Events.

Context {rt : Runtime}.

(** The callback of [onItemListed]: the handler runs on the tracker, and
    its dashboard calls are made on the status. *)
Definition onItemListed (net : Network) (settings : Settings.BotSettings)
    (now : nat → number) (event : ListingEvent) (st : State) : State :=
  let run := Monitor.handleListingEvent net (config st) settings event
               (floorTracker st) in
  {| config := config st;
     floorTracker := store run;
     isListening := isListening st;
     client := client st;
     botStatus := WebServer.replay now 0 (trace run) (botStatus st) |}.

(** What happens to a monitor: the dashboard starts or stops it, or the
    stream delivers a listing. *)
Inductive Command : Type :=
  | Start
  | Stop
  | Listing (net : Network) (settings : Settings.BotSettings)
      (now : nat → number) (event : ListingEvent).

Definition step (st : State) (c : Command) : State :=
  match c with
  | Start => (startListening st).2
  | Stop => (stopListening st).2
  | Listing net settings now event => onItemListed net settings now event st
  end.

Definition run (st : State) (cs : list Command) : State :=
  foldl step st cs.

End Events.

(** What holds of a monitor between two commands. *)
Definition consistent (st : State) : Prop :=
  WebServer.isRunning (botStatus st) = isListening st
  ∧ WebServer.status_floors (botStatus st) = floorTracker st
  ∧ (length (WebServer.lastEvents (botStatus st)) ≤ 100)%nat
  ∧ client st = (if isListening st then subscriptions (collections (config st)) else []).

End Bot.

(** ** More of what a trace shows *)

Module Observe.

(** The text a post carries: the description of an embed, the text of a
    bot message. *)
Definition post_texts (e : Effect) : list string :=
  match e with
  | HttpsPost {| req_body := DiscordBody embeds |} => List.map description embeds
  | HttpsPost {| req_body := TelegramBody _ text _ |} => [text]
  | _ => []
  end.

Definition is_post (e : Effect) : bool :=
  match e with HttpsPost _ => true | _ => false end.

Definition is_error_line (e : Effect) : bool :=
  match e with ConsoleError _ => true | _ => false end.

(** The fields of the settings the handler reads. *)
Definition handler_reads (s : Settings.BotSettings)
    : bool * option number * option number * option number * option number * bool :=
  (Settings.enablePriceTriggerAlerts s,
   Settings.priceAlertMin s,
   Settings.priceAlertMax s,
   Settings.minFloorPrice s,
   Settings.maxFloorPrice s,
   Monitor.floorUpdateAlertsOn s).

(** The floors a status shows after the dashboard calls of a trace. *)
Definition floors_shown (t : list Effect) (before : CollectionFloors)
    : CollectionFloors :=
  foldl (λ floors e, match e with
                     | WebUpdateFloors floors' => floors'
                     | _ => floors
                     end) before t.

(** The events the [addEvent] calls of a trace push, [Date.now()] being
    [now k] at the [k]-th call from [k0] on. *)
Fixpoint pushed_events (now : nat → number) (k0 : nat) (t : list Effect)
    : list WebServer.DashboardEvent :=
  match t with
  | [] => []
  | WebAddEvent type message collection :: t' =>
      {| WebServer.ev_type := type;
         WebServer.ev_message := message;
         WebServer.ev_collection := collection;
         WebServer.ev_timestamp := now k0 |} :: pushed_events now (S k0) t'
  | _ :: t' => pushed_events now k0 t'
  end.

(** The last [n] elements of a list: [l.slice(-n)]. *)
Definition last_n {A : Type} (n : nat) (l : list A) : list A :=
  drop (length l - n) l.

Definition is_floors_update (e : Effect) : bool :=
  match e with WebUpdateFloors _ => true | _ => false end.

Section OnHeap.

Context {rt : Runtime}.

(** The tracker on the heap after a sequence of listing events. *)
Definition applyEvents (h : Heap.heap) (t : Heap.Tracker) (collectionSlug : string)
    (events : list ListingEvent) : Heap.heap :=
  foldl (λ h' ev, (Heap.updateFloor h' t collectionSlug ev).2) h events.

End OnHeap.

(** What a dictionary on the heap shows: each property with the record it
    leads to. *)
Definition contents (h : Heap.heap) (l : Heap.loc) : CollectionFloors :=
  omap (Heap.deref h) (Heap.props_at h l).

End Observe.

(** ** More inputs for the examples *)

Module MoreExamples.

Import Examples.

(** The default settings with another threshold, other collections and
    credentials: what the handler reads is the same. *)
Definition defaults' : Settings.BotSettings :=
  {| Settings.collections := ["punks"; "apes"];
     Settings.undercutThresholdPercent := JS.of_Z 50;
     Settings.telegramBotToken := Some "other";
     Settings.telegramChatId := Some "7";
     Settings.telegramNickname := Some "me";
     Settings.discordWebhook := Some "https://discord.com/api/webhooks/2/def";
     Settings.discordNickname := None;
     Settings.minFloorPrice := None;
     Settings.maxFloorPrice := None;
     Settings.enableNewListingAlerts := false;
     Settings.enableSaleAlerts := false;
     Settings.enableFloorUpdateAlerts := None;
     Settings.priceAlertMin := None;
     Settings.priceAlertMax := None;
     Settings.enablePriceTriggerAlerts := false |}.

(** A token without a chat identifier, and no webhook. *)
Definition token_only : NotificationConfig :=
  {| discordWebhook := None;
     telegramBotToken := Some "T0K";
     telegramChatId := None |}.

(** A listing whose base price does not parse. *)
Definition l_bad : ListingEvent := listing "abc".

(** The store after that listing, on an empty store. *)
Definition floor_bad : CollectionFloors :=
  FloorTracker.applyEvents (rt := ref_runtime) ∅ "apes" [l_bad].

Definition clock : nat → number := λ k, JS.of_Z (1700000000000 + Z.of_nat k).

Definition env : gmap string string :=
  {[ "OPENSEA_API_KEY" := "key";
     "COLLECTIONS" := " apes , ,punks";
     "TELEGRAM_BOT_TOKEN" := "T0K" ]}.

End MoreExamples.
(** ** Order facts about numbers *)

Module NumOrder.

Lemma fcmp_lt e1 m1 e2 m2 :
  JS.fcmp e1 m1 e2 m2 = Lt ↔ (e1 < e2 ∨ (e1 = e2 ∧ (m1 < m2)%positive)).
Proof.
  unfold JS.fcmp. fold (Pos.compare m1 m2).
  destruct (Z.compare_spec e1 e2) as [He|He|He];
    destruct (Pos.compare_spec m1 m2) as [Hm|Hm|Hm];
    split; intros H; try discriminate; try lia; auto.
Qed.

Lemma fcmp_gt e1 m1 e2 m2 :
  JS.fcmp e1 m1 e2 m2 = Gt ↔ (e2 < e1 ∨ (e1 = e2 ∧ (m2 < m1)%positive)).
Proof.
  unfold JS.fcmp. fold (Pos.compare m1 m2).
  destruct (Z.compare_spec e1 e2) as [He|He|He];
    destruct (Pos.compare_spec m1 m2) as [Hm|Hm|Hm];
    split; intros H; try discriminate; try lia; auto.
Qed.

Lemma fcmp_eq e1 m1 e2 m2 :
  JS.fcmp e1 m1 e2 m2 = Eq ↔ (e1 = e2 ∧ m1 = m2).
Proof.
  unfold JS.fcmp. fold (Pos.compare m1 m2).
  destruct (Z.compare_spec e1 e2) as [He|He|He];
    destruct (Pos.compare_spec m1 m2) as [Hm|Hm|Hm];
    split; intros H; try discriminate; try lia; auto.
Qed.

Lemma SFcompare_finite s1 m1 e1 s2 m2 e2 :
  SFcompare (S754_finite s1 m1 e1) (S754_finite s2 m2 e2) =
  Some match s1, s2 with
       | true, false => Lt
       | false, true => Gt
       | false, false => JS.fcmp e1 m1 e2 m2
       | true, true => CompOpp (JS.fcmp e1 m1 e2 m2)
       end.
Proof.
  unfold JS.fcmp. simpl. destruct s1, s2; try reflexivity.
  destruct (e1 ?= e2); reflexivity.
Qed.

Lemma fcmp_opp e1 m1 e2 m2 :
  JS.fcmp e2 m2 e1 m1 = CompOpp (JS.fcmp e1 m1 e2 m2).
Proof.
  unfold JS.fcmp. rewrite (Z.compare_antisym e1 e2).
  destruct (e1 ?= e2); simpl; try reflexivity.
  rewrite Pos.compare_cont_antisym. reflexivity.
Qed.

(** Turns every [JS.fcmp] of the goal into the arithmetic fact it stands for. *)
Ltac fcmp_cases :=
  repeat match goal with
    | |- context [JS.fcmp ?e1 ?m1 ?e2 ?m2] =>
        let E := fresh "E" in
        destruct (JS.fcmp e1 m1 e2 m2) eqn:E;
        [apply fcmp_eq in E | apply fcmp_lt in E | apply fcmp_gt in E]
    end.

(** Swapping the operands of a comparison reverses its result. *)
Lemma SFcompare_swap (a b : number) :
  SFcompare b a = CompOpp <$> SFcompare a b.
Proof.
  destruct a as [sa|sa| |sa ma ea], b as [sb|sb| |sb mb eb];
    try reflexivity;
    try (destruct sa; reflexivity);
    try (destruct sb; reflexivity);
    try (destruct sa, sb; reflexivity).
  rewrite !SFcompare_finite. simpl. f_equal.
  rewrite (fcmp_opp ea ma eb mb).
  destruct sa, sb; simpl; try reflexivity.
Qed.

Lemma lt_irrefl (a : number) : JS.lt a a = false.
Proof.
  unfold JS.lt, SFltb.
  destruct a as [s|s| |s m e]; try reflexivity; try (destruct s; reflexivity).
  rewrite SFcompare_finite.
  destruct s; fcmp_cases; simpl; try reflexivity; lia.
Qed.

Lemma lt_trans (a b c : number) :
  JS.lt a b = true → JS.lt b c = true → JS.lt a c = true.
Proof.
  unfold JS.lt, SFltb.
  destruct a as [sa|sa| |sa ma ea], b as [sb|sb| |sb mb eb],
           c as [sc|sc| |sc mc ec];
    rewrite ?SFcompare_finite; simpl;
    repeat match goal with s : bool |- _ => destruct s end; simpl;
    try discriminate; try reflexivity;
    fcmp_cases; simpl; try discriminate; try reflexivity; lia.
Qed.

Lemma le_trans (a b c : number) :
  JS.le a b = true → JS.le b c = true → JS.le a c = true.
Proof.
  unfold JS.le, SFleb.
  destruct a as [sa|sa| |sa ma ea], b as [sb|sb| |sb mb eb],
           c as [sc|sc| |sc mc ec];
    rewrite ?SFcompare_finite; simpl;
    repeat match goal with s : bool |- _ => destruct s end; simpl;
    try discriminate; try reflexivity;
    fcmp_cases; simpl; try discriminate; try reflexivity; lia.
Qed.

(** [a <= b] is [a < b] or [a == b]. *)
Lemma le_lt_eq (a b : number) :
  JS.le a b = JS.lt a b || SFeqb a b.
Proof.
  unfold JS.le, JS.lt, SFleb, SFltb, SFeqb.
  destruct (SFcompare a b) as [[]|]; reflexivity.
Qed.

(** On numbers that are not NaN the order is total. *)
Lemma not_lt_le (a b : number) :
  JS.is_nan a = false → JS.is_nan b = false →
  JS.lt b a = false → JS.le a b = true.
Proof.
  unfold JS.lt, JS.le, SFltb, SFleb. intros Ha Hb.
  rewrite (SFcompare_swap a b).
  destruct (SFcompare a b) as [[]|] eqn:E; simpl; try reflexivity; try discriminate.
  destruct a, b; simpl in *; discriminate.
Qed.

Lemma lt_le (a b : number) : JS.lt a b = true → JS.le a b = true.
Proof. rewrite le_lt_eq. intros ->. reflexivity. Qed.

Lemma lt_not_le (a b : number) : JS.lt a b = true → JS.le b a = false.
Proof.
  unfold JS.lt, JS.le, SFltb, SFleb. rewrite (SFcompare_swap a b).
  destruct (SFcompare a b) as [[]|]; simpl; intros; try discriminate; reflexivity.
Qed.

Lemma le_refl (a : number) : JS.is_nan a = false → JS.le a a = true.
Proof. intros Ha. apply not_lt_le; auto. apply lt_irrefl. Qed.

(** Equal numbers satisfy [>=]. *)
Lemma eq_ge (a b : number) : SFeqb a b = true → JS.ge a b = true.
Proof.
  unfold JS.ge, SFleb, SFeqb. rewrite (SFcompare_swap a b).
  destruct (SFcompare a b) as [[]|]; simpl; intros; try discriminate; reflexivity.
Qed.

End NumOrder.


(** ** The floor tracker *)

Section TrackerFacts.

Context {rt : Runtime}.

Lemma price_recordOf (ev : ListingEvent) :
  price (recordOf ev) = normalizedPrice ev.
Proof. reflexivity. Qed.

Lemma updateFloor_true (floors : CollectionFloors) (c : string) (ev : ListingEvent) :
  (updateFloor floors c ev).1 = true →
  (updateFloor floors c ev).2 = <[c := recordOf ev]> floors.
Proof.
  unfold updateFloor. destruct (floors !! c) as [cur|]; [|done].
  destruct (JS.lt _ _); [done|discriminate].
Qed.

Lemma updateFloor_false (floors : CollectionFloors) (c : string) (ev : ListingEvent) :
  (updateFloor floors c ev).1 = false →
  (updateFloor floors c ev).2 = floors ∧
  ∃ cur, floors !! c = Some cur ∧ JS.lt (normalizedPrice ev) (price cur) = false.
Proof.
  unfold updateFloor. destruct (floors !! c) as [cur|]; [|discriminate].
  destruct (JS.lt _ _) eqn:E; [discriminate|]. eauto.
Qed.

Lemma applyEvents_snoc (floors : CollectionFloors) (c : string)
    (evs : list ListingEvent) (ev : ListingEvent) :
  applyEvents floors c (evs ++ [ev]) =
  (updateFloor (applyEvents floors c evs) c ev).2.
Proof. unfold applyEvents. rewrite foldl_app. reflexivity. Qed.

(** After any events, the record of the collection is the record of one of
    them, and no event seen has a lower price. *)
Lemma applyEvents_minimum (floors : CollectionFloors) (c : string)
    (evs : list ListingEvent) :
  floors !! c = None →
  Forall (λ e, JS.is_nan (normalizedPrice e) = false) evs →
  match getFloor (applyEvents floors c evs) c with
  | None => evs = []
  | Some r =>
      (∃ e, e ∈ evs ∧ r = recordOf e) ∧
      ∀ e, e ∈ evs → JS.le (price r) (normalizedPrice e) = true
  end.
Proof.
  intros Hnone. induction evs as [|ev evs IH] using rev_ind; intros Hnan.
  - unfold getFloor. simpl. rewrite Hnone. reflexivity.
  - apply Forall_app in Hnan as [Hevs Hev].
    rewrite Forall_singleton in Hev. specialize (IH Hevs).
    rewrite applyEvents_snoc. unfold getFloor in *.
    destruct (updateFloor (applyEvents floors c evs) c ev).1 eqn:Hupd.
    + rewrite (updateFloor_true _ _ _ Hupd), lookup_insert_eq. split.
      * exists ev. split; [set_solver | reflexivity].
      * intros e [He | He%list_elem_of_singleton]%elem_of_app.
        -- revert Hupd. unfold updateFloor.
           destruct (applyEvents floors c evs !! c) as [cur|] eqn:Hcur.
           ++ destruct (JS.lt (normalizedPrice ev) (price cur)) eqn:Hlt; [|discriminate].
              intros _. destruct IH as [_ IH].
              eapply NumOrder.le_trans; [|apply (IH e He)].
              apply NumOrder.lt_le. exact Hlt.
           ++ subst evs. set_solver.
        -- subst e. apply NumOrder.le_refl. exact Hev.
    + destruct (updateFloor_false _ _ _ Hupd) as (-> & cur & Hcur & Hlt).
      rewrite Hcur in *. destruct IH as [(e0 & He0 & ->) IH]. split.
      * exists e0. split; [set_solver | reflexivity].
      * intros e [He | He%list_elem_of_singleton]%elem_of_app.
        -- apply IH, He.
        -- subst e. apply NumOrder.not_lt_le; [|exact Hev|exact Hlt].
           rewrite price_recordOf.
           eapply (proj1 (Forall_forall _ _) Hevs). exact He0.
Qed.

End TrackerFacts.




(** ** Traces of tasks *)

Section TaskFacts.

Context {A B : Type}.

Lemma trace_bind (m : Task A) (f : A → Task B) (fl : CollectionFloors) :
  trace ((m ≫= f) fl) =
  trace (m fl) ++ match outcome (m fl) with
                  | Resolved a => trace (f a (store (m fl)))
                  | Rejected _ => []
                  end.
Proof.
  unfold mbind, task_bind. destruct (outcome (m fl)); simpl; [done|].
  by rewrite app_nil_r.
Qed.

Lemma outcome_bind (m : Task A) (f : A → Task B) (fl : CollectionFloors) :
  outcome ((m ≫= f) fl) =
  match outcome (m fl) with
  | Resolved a => outcome (f a (store (m fl)))
  | Rejected e => Rejected e
  end.
Proof. unfold mbind, task_bind. by destruct (outcome (m fl)). Qed.

Lemma store_bind (m : Task A) (f : A → Task B) (fl : CollectionFloors) :
  store ((m ≫= f) fl) =
  match outcome (m fl) with
  | Resolved a => store (f a (store (m fl)))
  | Rejected e => store (m fl)
  end.
Proof. unfold mbind, task_bind. by destruct (outcome (m fl)). Qed.

End TaskFacts.

Import Monitor.

Section Avoids.

Context {A B : Type} (p : Effect → bool).

Lemma avoids_ret (a : A) : avoids p (mret a).
Proof. intros fl. constructor. Qed.

Lemma avoids_reject (e : JsError) : avoids p (reject (A := A) e).
Proof. intros fl. constructor. Qed.

Lemma avoids_emit (e : Effect) : p e = false → avoids p (emit e).
Proof. intros H fl. by repeat constructor. Qed.

Lemma avoids_getStore : avoids p getStore.
Proof. intros fl. constructor. Qed.

Lemma avoids_putStore (fl' : CollectionFloors) : avoids p (putStore fl').
Proof. intros fl. constructor. Qed.

Lemma avoids_bind (m : Task A) (f : A → Task B) :
  avoids p m → (∀ a, avoids p (f a)) → avoids p (m ≫= f).
Proof.
  intros Hm Hf fl. rewrite trace_bind. apply Forall_app. split; [apply Hm|].
  destruct (outcome (m fl)); [apply Hf | constructor].
Qed.

Lemma keeps_ret (a : A) : keeps_store (mret a).
Proof. by intros fl. Qed.

Lemma keeps_reject (e : JsError) : keeps_store (reject (A := A) e).
Proof. by intros fl. Qed.

Lemma keeps_emit (e : Effect) : keeps_store (emit e).
Proof. by intros fl. Qed.

Lemma keeps_getStore : keeps_store getStore.
Proof. by intros fl. Qed.

Lemma keeps_bind (m : Task A) (f : A → Task B) :
  keeps_store m → (∀ a, keeps_store (f a)) → keeps_store (m ≫= f).
Proof.
  intros Hm Hf fl. rewrite store_bind.
  destruct (outcome (m fl)); [rewrite Hm; apply Hf | apply Hm].
Qed.

End Avoids.

(** Decomposes a task along its binds and branches. *)
Ltac task_step :=
  match goal with
  | |- avoids _ (_ ≫= _) => apply avoids_bind
  | |- avoids _ (mret _) => apply avoids_ret
  | |- avoids _ (reject _) => apply avoids_reject
  | |- avoids _ getStore => apply avoids_getStore
  | |- avoids _ (putStore _) => apply avoids_putStore
  | |- avoids _ (emit _) => apply avoids_emit; reflexivity
  | |- keeps_store (_ ≫= _) => apply keeps_bind
  | |- keeps_store (mret _) => apply keeps_ret
  | |- keeps_store (reject _) => apply keeps_reject
  | |- keeps_store getStore => apply keeps_getStore
  | |- keeps_store (emit _) => apply keeps_emit
  | |- avoids _ (match ?x with _ => _ end) => destruct x eqn:?
  | |- keeps_store (match ?x with _ => _ end) => destruct x eqn:?
  | |- ∀ _, _ => intro
  end.

Ltac task_auto := repeat task_step; try congruence.

Section NotifierFacts.

Context {rt : Runtime}.
Variable net : Network.
Variable config : NotificationConfig.

Lemma makeHttpsRequest_avoids p url data headers :
  silent_on_channels p →
  avoids p (Notifier.makeHttpsRequest net url data headers).
Proof.
  intros (Hlog & Herr & Hpost). unfold Notifier.makeHttpsRequest.
  repeat first [ apply avoids_emit; auto | task_step ].
Qed.

Lemma sendConsoleNotification_avoids p message :
  silent_on_channels p → avoids p (Notifier.sendConsoleNotification message).
Proof.
  intros (Hlog & Herr & Hpost). unfold Notifier.sendConsoleNotification.
  repeat first [ apply avoids_emit; auto | task_step ].
Qed.

Lemma sendDiscordNotification_avoids p message event :
  silent_on_channels p →
  avoids p (Notifier.sendDiscordNotification net config message event).
Proof.
  intros Hp. unfold Notifier.sendDiscordNotification.
  repeat first [ apply makeHttpsRequest_avoids; assumption | task_step ].
Qed.

Lemma sendTelegramNotification_avoids p message :
  silent_on_channels p →
  avoids p (Notifier.sendTelegramNotification net config message).
Proof.
  intros Hp. unfold Notifier.sendTelegramNotification.
  repeat first [ apply makeHttpsRequest_avoids; assumption | task_step ].
Qed.

Lemma makeHttpsRequest_keeps url data headers :
  keeps_store (Notifier.makeHttpsRequest net url data headers).
Proof. unfold Notifier.makeHttpsRequest. task_auto. Qed.

Lemma sendConsoleNotification_keeps message :
  keeps_store (Notifier.sendConsoleNotification message).
Proof. unfold Notifier.sendConsoleNotification. task_auto. Qed.

Lemma sendDiscordNotification_keeps message event :
  keeps_store (Notifier.sendDiscordNotification net config message event).
Proof.
  unfold Notifier.sendDiscordNotification.
  repeat first [ apply makeHttpsRequest_keeps | task_step ].
Qed.

Lemma sendTelegramNotification_keeps message :
  keeps_store (Notifier.sendTelegramNotification net config message).
Proof.
  unfold Notifier.sendTelegramNotification.
  repeat first [ apply makeHttpsRequest_keeps | task_step ].
Qed.

(** The channels of an undercut or price-trigger alert, after the call
    itself is recorded. *)
Lemma sendUndercutAlert_keeps event lp fp pb :
  keeps_store (Notifier.sendUndercutAlert net config event lp fp pb).
Proof.
  unfold Notifier.sendUndercutAlert.
  repeat first [ apply sendConsoleNotification_keeps
               | apply sendDiscordNotification_keeps
               | apply sendTelegramNotification_keeps | task_step ].
Qed.

Lemma sendPriceTriggerAlert_keeps event lp sym reason :
  keeps_store (Notifier.sendPriceTriggerAlert net config event lp sym reason).
Proof.
  unfold Notifier.sendPriceTriggerAlert.
  repeat first [ apply sendConsoleNotification_keeps
               | apply sendDiscordNotification_keeps
               | apply sendTelegramNotification_keeps | task_step ].
Qed.

Lemma sendFloorUpdateAlert_keeps c name newFloor sym :
  keeps_store (Notifier.sendFloorUpdateAlert c name newFloor sym).
Proof.
  unfold Notifier.sendFloorUpdateAlert.
  repeat first [ apply sendConsoleNotification_keeps | task_step ].
Qed.

Lemma sendUndercutAlert_avoids p event lp fp pb :
  silent_on_channels p →
  p (CallSendUndercutAlert lp fp pb) = false →
  avoids p (Notifier.sendUndercutAlert net config event lp fp pb).
Proof.
  intros Hp Hcall. unfold Notifier.sendUndercutAlert.
  repeat first [ apply avoids_emit; assumption
               | apply sendConsoleNotification_avoids; assumption
               | apply sendDiscordNotification_avoids; assumption
               | apply sendTelegramNotification_avoids; assumption | task_step ].
Qed.

Lemma sendPriceTriggerAlert_avoids p event lp sym reason :
  silent_on_channels p →
  p (CallSendPriceTriggerAlert lp sym reason) = false →
  avoids p (Notifier.sendPriceTriggerAlert net config event lp sym reason).
Proof.
  intros Hp Hcall. unfold Notifier.sendPriceTriggerAlert.
  repeat first [ apply avoids_emit; assumption
               | apply sendConsoleNotification_avoids; assumption
               | apply sendDiscordNotification_avoids; assumption
               | apply sendTelegramNotification_avoids; assumption | task_step ].
Qed.

Lemma sendFloorUpdateAlert_avoids p c name newFloor sym :
  silent_on_channels p →
  p (CallSendFloorUpdateAlert c name newFloor sym) = false →
  avoids p (Notifier.sendFloorUpdateAlert c name newFloor sym).
Proof.
  intros Hp Hcall. unfold Notifier.sendFloorUpdateAlert.
  repeat first [ apply avoids_emit; assumption
               | apply sendConsoleNotification_avoids; assumption | task_step ].
Qed.

End NotifierFacts.

(** ** The handler *)

Ltac silent := repeat split; intros; reflexivity.

(** Decomposes the handler's blocks, using the facts about the notifier. *)
Ltac handler_step :=
  match goal with
  | |- avoids _ (Notifier.sendUndercutAlert _ _ _ _ _ _) =>
      apply sendUndercutAlert_avoids; [silent | reflexivity]
  | |- avoids _ (Notifier.sendPriceTriggerAlert _ _ _ _ _ _) =>
      apply sendPriceTriggerAlert_avoids; [silent | reflexivity]
  | |- avoids _ (Notifier.sendFloorUpdateAlert _ _ _ _) =>
      apply sendFloorUpdateAlert_avoids; [silent | reflexivity]
  | |- keeps_store (Notifier.sendUndercutAlert _ _ _ _ _ _) =>
      apply sendUndercutAlert_keeps
  | |- keeps_store (Notifier.sendPriceTriggerAlert _ _ _ _ _ _) =>
      apply sendPriceTriggerAlert_keeps
  | |- keeps_store (Notifier.sendFloorUpdateAlert _ _ _ _) =>
      apply sendFloorUpdateAlert_keeps
  | _ => task_step
  end.

Ltac handler_auto := repeat handler_step; try congruence.

Section TraceFacts.

Lemma count_app (p : Effect → bool) (t1 t2 : list Effect) :
  count p (t1 ++ t2) = (count p t1 + count p t2)%nat.
Proof. unfold count. by rewrite List.filter_app, length_app. Qed.

Lemma count_avoided (p : Effect → bool) (t : list Effect) :
  Forall (λ e, p e = false) t → count p t = 0%nat.
Proof.
  unfold count. induction 1 as [|e t He _ IH]; [done|].
  simpl. by rewrite He.
Qed.

Lemma count_zero_avoided (p : Effect → bool) (t : list Effect) :
  count p t = 0%nat → Forall (λ e, p e = false) t.
Proof.
  unfold count. induction t as [|e t IH]; [constructor|].
  simpl. destruct (p e) eqn:He; [discriminate|]. by constructor; auto.
Qed.

Lemma existsb_avoided (p : Effect → bool) (t : list Effect) :
  Forall (λ e, p e = false) t → existsb p t = false.
Proof. induction 1 as [|e t He _ IH]; [done|]. simpl. by rewrite He. Qed.

Lemma reasons_app (t1 t2 : list Effect) :
  price_trigger_reasons (t1 ++ t2) =
  price_trigger_reasons t1 ++ price_trigger_reasons t2.
Proof. unfold price_trigger_reasons. apply omap_app. Qed.

Lemma reasons_avoided (t : list Effect) :
  Forall (λ e, is_price_trigger_alert e = false) t →
  price_trigger_reasons t = [].
Proof.
  unfold price_trigger_reasons. induction 1 as [|e t He _ IH]; [done|].
  destruct e; simpl in *; try discriminate; exact IH.
Qed.

Lemma reasons_count (t : list Effect) :
  count is_price_trigger_alert t = length (price_trigger_reasons t).
Proof.
  unfold count, price_trigger_reasons. induction t as [|e t IH]; [done|].
  destruct e; simpl; rewrite ?IH; reflexivity.
Qed.

End TraceFacts.

Section HandlerFacts.

Context {rt : Runtime}.
Variable net : Network.
Variable config : BotConfig.
Variable settings : Settings.BotSettings.

(** The floor-update block produces neither undercut nor price-trigger
    alerts and does not consult the verdict. *)
Lemma floorUpdate_avoids (p : Effect → bool) (ev : ListingEvent) :
  silent_on_channels p → silent_on_dashboard p →
  (∀ c, p (CallUpdateFloor c) = false) →
  (∀ c n f s, p (CallSendFloorUpdateAlert c n f s) = false) →
  avoids p (floorUpdate settings ev).
Proof.
  intros Hch (Hadd & Hupd) Hcall Halert. pose proof Hch as (Hlog & _ & _).
  unfold floorUpdate.
  repeat first
    [ apply avoids_emit; auto
    | apply sendFloorUpdateAlert_avoids; [assumption | apply Halert]
    | task_step ].
Qed.

Lemma priceTriggerAlerts_avoids (p : Effect → bool) (ev : ListingEvent) (lp : number) :
  silent_on_channels p → silent_on_dashboard p →
  (∀ a s r, p (CallSendPriceTriggerAlert a s r) = false) →
  avoids p (priceTriggerAlerts net config settings ev lp).
Proof.
  intros Hch (Hadd & Hupd) Hcall. unfold priceTriggerAlerts.
  repeat first
    [ apply avoids_emit; auto
    | apply sendPriceTriggerAlert_avoids; [assumption | apply Hcall]
    | task_step ].
Qed.

Lemma undercutAlerts_avoids (p : Effect → bool) (ev : ListingEvent) (lp : number) :
  silent_on_channels p → silent_on_dashboard p →
  (∀ c, p (CallIsUndercut c) = false) →
  (∀ a b c, p (CallSendUndercutAlert a b c) = false) →
  avoids p (undercutAlerts net config settings ev lp).
Proof.
  intros Hch (Hadd & Hupd) Hverdict Hcall. unfold undercutAlerts.
  repeat first
    [ apply avoids_emit; auto
    | apply sendUndercutAlert_avoids; [assumption | apply Hcall]
    | task_step ].
Qed.

Lemma priceTriggerAlerts_off (ev : ListingEvent) (lp : number) :
  Settings.enablePriceTriggerAlerts settings = false →
  priceTriggerAlerts net config settings ev lp = mret tt.
Proof. unfold priceTriggerAlerts. by intros ->. Qed.

Lemma undercutAlerts_off (ev : ListingEvent) (lp : number) :
  Settings.enablePriceTriggerAlerts settings = true →
  undercutAlerts net config settings ev lp = mret Continue.
Proof. unfold undercutAlerts. by intros ->. Qed.

Lemma priceTriggerAlerts_keeps (ev : ListingEvent) (lp : number) :
  keeps_store (priceTriggerAlerts net config settings ev lp).
Proof. unfold priceTriggerAlerts. handler_auto. Qed.

Lemma undercutAlerts_keeps (ev : ListingEvent) (lp : number) :
  keeps_store (undercutAlerts net config settings ev lp).
Proof. unfold undercutAlerts. handler_auto. Qed.

(** The handler's trace: the two listing lines, the price-trigger block,
    the undercut block and, unless a block rejected or returned, the
    floor-update block. *)
Lemma handler_trace (ev : ListingEvent) (fl : CollectionFloors) :
  let lp := normalizedPrice ev in
  let pta := priceTriggerAlerts net config settings ev lp fl in
  let uca := undercutAlerts net config settings ev lp fl in
  ∃ l1 l2,
    trace (handleListingEvent net config settings ev fl) =
    ConsoleLog l1 :: WebAddEvent "listing" l2 (slug (collection (payload ev))) ::
    trace pta ++
    match outcome pta with
    | Rejected _ => []
    | Resolved _ =>
        trace uca ++
        match outcome uca with
        | Resolved Continue => trace (floorUpdate settings ev fl)
        | _ => []
        end
    end.
Proof.
  cbv zeta. eexists _, _. unfold handleListingEvent.
  rewrite trace_bind. cbn [emit trace outcome store app].
  rewrite trace_bind. cbn [emit trace outcome store app].
  rewrite trace_bind, priceTriggerAlerts_keeps.
  destruct (outcome (priceTriggerAlerts _ _ _ _ _ _)); [|reflexivity].
  rewrite trace_bind, undercutAlerts_keeps.
  destruct (outcome (undercutAlerts _ _ _ _ _ _)) as [[]|]; reflexivity.
Qed.

Lemma handler_avoids (p : Effect → bool) (ev : ListingEvent) :
  silent_on_channels p → silent_on_dashboard p →
  avoids p (priceTriggerAlerts net config settings ev (normalizedPrice ev)) →
  avoids p (undercutAlerts net config settings ev (normalizedPrice ev)) →
  avoids p (floorUpdate settings ev) →
  avoids p (handleListingEvent net config settings ev).
Proof.
  intros (Hlog & _ & _) (Hadd & _) Hpta Huca Hfu. unfold handleListingEvent.
  repeat first [ apply avoids_emit; auto | assumption | task_step ].
Qed.

(** The outcome of the two bound checks, by the bounds crossed. *)
Lemma priceTrigger_crossed (lp : number) :
  priceTrigger settings lp =
  match crossedMax settings lp, crossedMin settings lp with
  | Some priceAlertMax, _ => (true, "Above " +:+ numToString priceAlertMax +:+ " ETH")
  | None, Some priceAlertMin => (true, "Below " +:+ numToString priceAlertMin +:+ " ETH")
  | None, None => (false, "")
  end.
Proof.
  unfold priceTrigger, crossedMax, crossedMin.
  destruct (Settings.priceAlertMin settings) as [mn|],
           (Settings.priceAlertMax settings) as [mx|];
    try destruct (JS.lt lp mn); try destruct (JS.gt lp mx); reflexivity.
Qed.

Lemma sendPriceTriggerAlert_reasons (ev : ListingEvent) (lp : number)
    (sym reason : string) (fl : CollectionFloors) :
  price_trigger_reasons
    (trace (Notifier.sendPriceTriggerAlert net (notifications config) ev lp sym reason fl))
  = [reason].
Proof.
  unfold Notifier.sendPriceTriggerAlert. rewrite trace_bind.
  cbn [emit trace outcome store app].
  change (?e :: ?t) with ([e] ++ t). rewrite reasons_app.
  cbn [price_trigger_reasons omap list_omap app].
  f_equal.
  match goal with
  | |- price_trigger_reasons (trace (?m fl)) = [] =>
      assert (Hrest : avoids is_price_trigger_alert m)
  end.
  { repeat first
      [ apply sendConsoleNotification_avoids; silent
      | apply sendDiscordNotification_avoids; silent
      | apply sendTelegramNotification_avoids; silent
      | task_step ]. }
  apply reasons_avoided, Hrest.
Qed.

Lemma priceTriggerAlerts_reasons (ev : ListingEvent) (fl : CollectionFloors) :
  Settings.enablePriceTriggerAlerts settings = true →
  let lp := normalizedPrice ev in
  price_trigger_reasons (trace (priceTriggerAlerts net config settings ev lp fl)) =
  if (priceTrigger settings lp).1 then [(priceTrigger settings lp).2] else [].
Proof.
  intros Hmode. cbv zeta. unfold priceTriggerAlerts. rewrite Hmode.
  destruct (priceTrigger settings (normalizedPrice ev)) as [[] reason];
    cbn [fst snd]; [|reflexivity].
  rewrite trace_bind, reasons_app, sendPriceTriggerAlert_reasons.
  destruct (outcome _); reflexivity.
Qed.

End HandlerFacts.

(** C7. The two alert families exclude each other on every event. With
    [enablePriceTriggerAlerts] set, the handler neither asks the tracker for
    the undercut verdict nor sends an undercut alert; with it unset, the
    handler sends no price-trigger alert. *)
Theorem alert_families_exclusive `{rt : Runtime} (net : Network) (config : BotConfig)
    (settings : Settings.BotSettings) (ev : ListingEvent) (fl : CollectionFloors) :
  let t := trace (handleListingEvent net config settings ev fl) in
  if Settings.enablePriceTriggerAlerts settings
  then count is_verdict_call t = 0%nat ∧ count is_undercut_alert t = 0%nat
  else count is_price_trigger_alert t = 0%nat.
Proof.
  cbv zeta. destruct (Settings.enablePriceTriggerAlerts settings) eqn:Hmode.
  - split; apply count_avoided.
    + apply handler_avoids; try silent.
      * apply priceTriggerAlerts_avoids; silent.
      * rewrite undercutAlerts_off by done. apply avoids_ret.
      * apply floorUpdate_avoids; silent.
    + apply handler_avoids; try silent.
      * apply priceTriggerAlerts_avoids; silent.
      * rewrite undercutAlerts_off by done. apply avoids_ret.
      * apply floorUpdate_avoids; silent.
  - apply count_avoided. apply handler_avoids; try silent.
    + rewrite priceTriggerAlerts_off by done. apply avoids_ret.
    + apply undercutAlerts_avoids; silent.
    + apply floorUpdate_avoids; silent.
Qed.

(** C6. With price-trigger alerts enabled, the price-trigger alerts of an
    event are: one alert whose reason names the max bound when the max bound
    is crossed, whether or not the min bound is crossed too; one alert whose
    reason names the min bound when only the min bound is crossed; none when
    neither is crossed. *)
Theorem price_trigger_reason_max_wins `{rt : Runtime} (net : Network)
    (config : BotConfig) (settings : Settings.BotSettings) (ev : ListingEvent)
    (fl : CollectionFloors) :
  Settings.enablePriceTriggerAlerts settings = true →
  let t := trace (handleListingEvent net config settings ev fl) in
  let lp := normalizedPrice ev in
  price_trigger_reasons t =
    match crossedMax settings lp, crossedMin settings lp with
    | Some priceAlertMax, _ => ["Above " +:+ numToString priceAlertMax +:+ " ETH"]
    | None, Some priceAlertMin => ["Below " +:+ numToString priceAlertMin +:+ " ETH"]
    | None, None => []
    end
  ∧ count is_price_trigger_alert t = length (price_trigger_reasons t).
Proof.
  intros Hmode. cbv zeta. split; [|apply reasons_count].
  destruct (handler_trace net config settings ev fl) as (l1 & l2 & ->).
  cbv zeta. rewrite undercutAlerts_off by done.
  change (ConsoleLog l1 :: WebAddEvent "listing" l2 (slug (collection (payload ev))) :: ?t)
    with ([ConsoleLog l1; WebAddEvent "listing" l2 (slug (collection (payload ev)))] ++ t).
  rewrite !reasons_app, priceTriggerAlerts_reasons by done.
  rewrite priceTrigger_crossed.
  assert (Hrest : ∀ o : Outcome (),
            price_trigger_reasons
              match o with
              | Resolved _ =>
                  trace (mret (M := Task) Continue fl) ++
                  match outcome (mret (M := Task) Continue fl) with
                  | Resolved Continue => trace (floorUpdate settings ev fl)
                  | _ => []
                  end
              | Rejected _ => []
              end = []).
  { intros [|]; [|done]. cbn [mret task_ret trace outcome app].
    apply reasons_avoided. apply floorUpdate_avoids; silent. }
  rewrite Hrest, app_nil_r. cbn [price_trigger_reasons omap list_omap app].
  destruct (crossedMax settings (normalizedPrice ev)),
           (crossedMin settings (normalizedPrice ev)); reflexivity.
Qed.

(** ** Runs of the handler *)

Section HandlerRuns.

Context {rt : Runtime}.
Variable net : Network.
Variable config : BotConfig.
Variable settings : Settings.BotSettings.

(** Outcome and store of the handler, by the outcomes of its blocks. *)
Lemma handler_outcome (ev : ListingEvent) (fl : CollectionFloors) :
  let lp := normalizedPrice ev in
  outcome (handleListingEvent net config settings ev fl) =
  match outcome (priceTriggerAlerts net config settings ev lp fl) with
  | Rejected e => Rejected e
  | Resolved _ =>
      match outcome (undercutAlerts net config settings ev lp fl) with
      | Rejected e => Rejected e
      | Resolved Return => Resolved tt
      | Resolved Continue => outcome (floorUpdate settings ev fl)
      end
  end.
Proof.
  cbv zeta. unfold handleListingEvent.
  rewrite outcome_bind. cbn [emit trace outcome store].
  rewrite outcome_bind. cbn [emit trace outcome store].
  rewrite outcome_bind, priceTriggerAlerts_keeps.
  destruct (outcome (priceTriggerAlerts _ _ _ _ _ _)); [|reflexivity].
  rewrite outcome_bind, undercutAlerts_keeps.
  destruct (outcome (undercutAlerts _ _ _ _ _ _)) as [[]|]; reflexivity.
Qed.

Lemma handler_store (ev : ListingEvent) (fl : CollectionFloors) :
  let lp := normalizedPrice ev in
  store (handleListingEvent net config settings ev fl) =
  match outcome (priceTriggerAlerts net config settings ev lp fl) with
  | Rejected e => fl
  | Resolved _ =>
      match outcome (undercutAlerts net config settings ev lp fl) with
      | Resolved Continue => store (floorUpdate settings ev fl)
      | _ => fl
      end
  end.
Proof.
  cbv zeta. unfold handleListingEvent.
  rewrite store_bind. cbn [emit trace outcome store].
  rewrite store_bind. cbn [emit trace outcome store].
  rewrite store_bind, priceTriggerAlerts_keeps.
  destruct (outcome (priceTriggerAlerts _ _ _ _ _ _)); [|reflexivity].
  rewrite store_bind, undercutAlerts_keeps.
  destruct (outcome (undercutAlerts _ _ _ _ _ _)) as [[]|]; reflexivity.
Qed.

(** The undercut block when the verdict is flagged and a floor-price filter
    applies: the handler returns. *)
Lemma undercutAlerts_filtered (ev : ListingEvent) (lp : number) (fl : CollectionFloors) :
  let c := slug (collection (payload ev)) in
  let verdict := isUndercut fl c ev (undercutThresholdPercent config) in
  Settings.enablePriceTriggerAlerts settings = false →
  isUndercut_flag verdict = true →
  belowMinFloor settings (floorPrice verdict)
    || aboveMaxFloor settings (floorPrice verdict) = true →
  undercutAlerts net config settings ev lp fl =
  {| trace := [CallIsUndercut c]; store := fl; outcome := Resolved Return |}.
Proof.
  cbv zeta. intros Hmode Hflag Hout. unfold undercutAlerts.
  rewrite Hmode. cbn [negb].
  unfold mbind, task_bind. cbn [emit getStore trace outcome store app].
  rewrite Hflag.
  destruct (belowMinFloor settings _); [reflexivity|].
  cbn [orb] in Hout. rewrite Hout. reflexivity.
Qed.

(** The undercut block when the verdict is flagged and no filter applies:
    the alert is sent. *)
Lemma undercutAlerts_sent (ev : ListingEvent) (lp : number) (fl : CollectionFloors) :
  let c := slug (collection (payload ev)) in
  let verdict := isUndercut fl c ev (undercutThresholdPercent config) in
  let send := Notifier.sendUndercutAlert net (notifications config) ev
                (listingPrice verdict) (floorPrice verdict) (percentBelow verdict) fl in
  Settings.enablePriceTriggerAlerts settings = false →
  isUndercut_flag verdict = true →
  belowMinFloor settings (floorPrice verdict) = false →
  aboveMaxFloor settings (floorPrice verdict) = false →
  (∃ l, trace (undercutAlerts net config settings ev lp fl) =
        CallIsUndercut c :: trace send ++
        match outcome send with
        | Resolved _ => [WebAddEvent "undercut" l c]
        | Rejected _ => []
        end)
  ∧ outcome (undercutAlerts net config settings ev lp fl) =
    match outcome send with
    | Resolved _ => Resolved Continue
    | Rejected e => Rejected e
    end.
Proof.
  cbv zeta. intros Hmode Hflag Hmin Hmax. unfold undercutAlerts.
  rewrite Hmode. cbn [negb].
  rewrite trace_bind, outcome_bind. cbn [emit trace outcome store app].
  rewrite trace_bind, outcome_bind. cbn [getStore trace outcome store app].
  rewrite Hflag, Hmin, Hmax.
  rewrite trace_bind, outcome_bind.
  destruct (outcome (Notifier.sendUndercutAlert _ _ _ _ _ _ _)).
  - split; [eexists; reflexivity | reflexivity].
  - split; [exists ""; reflexivity | reflexivity].
Qed.

(** The undercut block when the verdict is not flagged. *)
Lemma undercutAlerts_unflagged (ev : ListingEvent) (lp : number) (fl : CollectionFloors) :
  let c := slug (collection (payload ev)) in
  Settings.enablePriceTriggerAlerts settings = false →
  isUndercut_flag (isUndercut fl c ev (undercutThresholdPercent config)) = false →
  undercutAlerts net config settings ev lp fl =
  {| trace := [CallIsUndercut c]; store := fl; outcome := Resolved Continue |}.
Proof.
  cbv zeta. intros Hmode Hflag. unfold undercutAlerts.
  rewrite Hmode. cbn [negb].
  unfold mbind, task_bind. cbn [emit getStore trace outcome store app].
  rewrite Hflag. reflexivity.
Qed.

End HandlerRuns.

(** ** Runs of the notifier *)

Section NotifierRuns.

Context {rt : Runtime}.
Variable net : Network.
Variable config : NotificationConfig.

Lemma sendConsoleNotification_run (message : string) (fl : CollectionFloors) :
  Notifier.sendConsoleNotification message fl =
  {| trace := [ConsoleLog (nl +:+ repeat_str "=" 60); ConsoleLog message;
               ConsoleLog (repeat_str "=" 60 +:+ nl)];
     store := fl;
     outcome := Resolved tt |}.
Proof. reflexivity. Qed.

(** One request: a post, and a rejection unless the status is 2xx. *)
Lemma makeHttpsRequest_posts (p : Effect → bool) (url : string) (data : Body)
    (headers : list (string * string)) (fl : CollectionFloors) :
  (∀ s, p (ConsoleError s) = false) →
  count p (trace (Notifier.makeHttpsRequest net url data headers fl)) =
  match parseURL url with
  | Some u =>
      if p (HttpsPost {| req_hostname := url_hostname u;
                         req_path := url_pathname u +:+ url_search u;
                         req_headers := headers;
                         req_body := data |})
      then 1%nat else 0%nat
  | None => 0%nat
  end.
Proof.
  intros Herr. unfold Notifier.makeHttpsRequest.
  destruct (parseURL url) as [u|]; [|reflexivity].
  rewrite trace_bind. cbn [emit trace outcome store].
  rewrite count_app.
  match goal with
  | |- (_ + count p ?rest = _)%nat => assert (Hrest : count p rest = 0%nat)
  end.
  { destruct (net _) as [code body|msg].
    - destruct (Notifier.status_ok code); [reflexivity|].
      rewrite trace_bind. cbn [emit reject trace outcome store app].
      unfold count. cbn [List.filter]. by rewrite Herr.
    - rewrite trace_bind. cbn [emit reject trace outcome store app].
      unfold count. cbn [List.filter]. by rewrite Herr. }
  rewrite Hrest, Nat.add_0_r. unfold count. cbn [List.filter].
  destruct (p _); reflexivity.
Qed.

Lemma sendDiscordNotification_unconfigured (message : string) (ev : ListingEvent) :
  JS.truthy_ostr (discordWebhook config) = false →
  Notifier.sendDiscordNotification net config message ev = mret tt.
Proof.
  unfold Notifier.sendDiscordNotification, JS.truthy_ostr.
  destruct (discordWebhook config) as [w|]; [|done]. by intros ->.
Qed.

Lemma sendDiscordNotification_posts (message : string) (ev : ListingEvent)
    (fl : CollectionFloors) :
  let t := trace (Notifier.sendDiscordNotification net config message ev fl) in
  count is_discord_post t = (if discordPosts config ev then 1 else 0)%nat
  ∧ count is_telegram_post t = 0%nat
  ∧ count is_console t = 0%nat.
Proof.
  cbv zeta. unfold Notifier.sendDiscordNotification, discordPosts.
  destruct (discordWebhook config) as [w|]; [|done].
  destruct (JS.truthy_str w); [|done]. cbn [andb].
  destruct (toISOString _) as [iso|]; [|done].
  rewrite !makeHttpsRequest_posts by done.
  destruct (parseURL w) as [u|]; done.
Qed.

Lemma sendTelegramNotification_posts (message : string) (fl : CollectionFloors) :
  let t := trace (Notifier.sendTelegramNotification net config message fl) in
  count is_telegram_post t = (if telegramPosts config then 1 else 0)%nat
  ∧ count is_discord_post t = 0%nat
  ∧ count is_console t = 0%nat.
Proof.
  cbv zeta. unfold Notifier.sendTelegramNotification, telegramPosts.
  destruct (telegramBotToken config) as [token|]; [|done].
  destruct (telegramChatId config) as [chatId|]; [|done].
  destruct (JS.truthy_str token); [|done].
  destruct (JS.truthy_str chatId); [|done]. cbn [andb].
  rewrite !makeHttpsRequest_posts by done.
  destruct (parseURL _) as [u|]; done.
Qed.

Lemma telegram_unconfigured :
  JS.truthy_ostr (telegramBotToken config)
    && JS.truthy_ostr (telegramChatId config) = false →
  telegramPosts config = false.
Proof.
  unfold telegramPosts, JS.truthy_ostr.
  destruct (telegramBotToken config) as [token|]; [|done].
  destruct (telegramChatId config) as [chatId|]; [|done].
  by intros ->.
Qed.

Lemma sendTelegramNotification_unconfigured (message : string) :
  JS.truthy_ostr (telegramBotToken config)
    && JS.truthy_ostr (telegramChatId config) = false →
  Notifier.sendTelegramNotification net config message = mret tt.
Proof.
  unfold Notifier.sendTelegramNotification, JS.truthy_ostr.
  destruct (telegramBotToken config) as [token|]; [|done].
  destruct (telegramChatId config) as [chatId|]; [|done].
  by intros ->.
Qed.

(** When every post to the webhook fails, the webhook step rejects. *)
Lemma sendDiscordNotification_fails (message : string) (ev : ListingEvent)
    (fl : CollectionFloors) :
  JS.truthy_ostr (discordWebhook config) = true →
  (∀ req, is_discord_post (HttpsPost req) = true → request_fails (net req) = true) →
  is_resolved (outcome (Notifier.sendDiscordNotification net config message ev fl))
  = false.
Proof.
  intros Hcfg Hnet. unfold Notifier.sendDiscordNotification.
  unfold JS.truthy_ostr in Hcfg.
  destruct (discordWebhook config) as [w|]; [|discriminate].
  rewrite Hcfg. destruct (toISOString _) as [iso|]; [|reflexivity].
  unfold Notifier.makeHttpsRequest.
  destruct (parseURL w) as [u|]; [|reflexivity].
  rewrite outcome_bind. cbn [emit trace outcome store].
  match goal with
  | |- context [net ?req] => specialize (Hnet req eq_refl); destruct (net req)
  end.
  - cbn [request_fails] in Hnet. apply negb_true_iff in Hnet. rewrite Hnet.
    rewrite outcome_bind. reflexivity.
  - rewrite outcome_bind. reflexivity.
Qed.

(** The channels of an alert after its console block: the webhook step,
    then the bot step unless the webhook step rejected. *)
Lemma channels_run (message : string) (ev : ListingEvent) (fl : CollectionFloors) :
  let discord := Notifier.sendDiscordNotification net config message ev fl in
  let telegram := Notifier.sendTelegramNotification net config message fl in
  let run :=
    (Notifier.sendConsoleNotification message;;
     (if JS.truthy_ostr (discordWebhook config)
      then Notifier.sendDiscordNotification net config message ev else mret tt);;
     (if JS.truthy_ostr (telegramBotToken config)
           && JS.truthy_ostr (telegramChatId config)
      then Notifier.sendTelegramNotification net config message else mret tt)) fl in
  count is_console (trace run) = 3%nat
  ∧ count is_discord_post (trace run) = (if discordPosts config ev then 1 else 0)%nat
  ∧ count is_telegram_post (trace run) =
      (if telegramPosts config && is_resolved (outcome discord) then 1 else 0)%nat
  ∧ is_resolved (outcome run) =
      is_resolved (outcome discord) && is_resolved (outcome telegram).
Proof.
  cbv zeta.
  pose proof (sendDiscordNotification_posts message ev fl) as (Hdd & Hdt & Hdc).
  pose proof (sendTelegramNotification_posts message fl) as (Htt & Htd & Htc).
  cbv zeta in *.
  rewrite ?trace_bind, ?outcome_bind, ?store_bind, sendConsoleNotification_run.
  cbn [trace outcome store].
  rewrite ?trace_bind, ?outcome_bind, ?store_bind.
  assert (Hd : (if JS.truthy_ostr (discordWebhook config)
                then Notifier.sendDiscordNotification net config message ev
                else mret tt) = Notifier.sendDiscordNotification net config message ev).
  { destruct (JS.truthy_ostr _) eqn:E; [done|].
    by rewrite sendDiscordNotification_unconfigured. }
  rewrite Hd, sendDiscordNotification_keeps. clear Hd.
  rewrite !count_app, Hdd, Hdt, Hdc.
  destruct (outcome (Notifier.sendDiscordNotification net config message ev fl)).
  - cbn [is_resolved andb].
    destruct (JS.truthy_ostr (telegramBotToken config)
              && JS.truthy_ostr (telegramChatId config)) eqn:E.
    + rewrite Htt, Htd, Htc. rewrite andb_true_r.
      repeat split; destruct (discordPosts config ev); reflexivity.
    + rewrite (telegram_unconfigured E).
      rewrite (sendTelegramNotification_unconfigured _ E).
      repeat split; destruct (discordPosts config ev); reflexivity.
  - cbn [is_resolved andb]. rewrite andb_false_r.
    repeat split; destruct (discordPosts config ev); reflexivity.
Qed.

End NotifierRuns.

(** ** The channels of each alert *)

Section AlertRuns.

Context {rt : Runtime}.
Variable net : Network.
Variable config : NotificationConfig.

Lemma sendUndercutAlert_posts (ev : ListingEvent) (lp fp pb : number)
    (fl : CollectionFloors) :
  posts_as_configured net config ev fl (Notifier.sendUndercutAlert net config ev lp fp pb fl).
Proof.
  unfold Notifier.sendUndercutAlert. eexists. cbv zeta.
  rewrite trace_bind, outcome_bind. cbn [emit trace outcome store].
  change (?e :: ?t) with ([e] ++ t). rewrite !count_app.
  apply channels_run.
Qed.

Lemma sendPriceTriggerAlert_posts (ev : ListingEvent) (lp : number)
    (sym reason : string) (fl : CollectionFloors) :
  posts_as_configured net config ev fl
    (Notifier.sendPriceTriggerAlert net config ev lp sym reason fl).
Proof.
  unfold Notifier.sendPriceTriggerAlert. eexists. cbv zeta.
  rewrite trace_bind, outcome_bind. cbn [emit trace outcome store].
  change (?e :: ?t) with ([e] ++ t). rewrite !count_app.
  apply channels_run.
Qed.

Lemma sendFloorUpdateAlert_run (c : string) (name : option string)
    (newFloor : number) (sym : string) (fl : CollectionFloors) :
  let run := Notifier.sendFloorUpdateAlert c name newFloor sym fl in
  count is_console (trace run) = 3%nat
  ∧ count is_discord_post (trace run) = 0%nat
  ∧ count is_telegram_post (trace run) = 0%nat
  ∧ count is_floor_update_alert (trace run) = 1%nat
  ∧ outcome run = Resolved tt.
Proof. cbv zeta. repeat split. Qed.

(** With a failing webhook, an alert that posts is rejected before the bot
    is tried. *)
Lemma failing_webhook_rejects (ev : ListingEvent) (fl : CollectionFloors)
    (run : Run unit) :
  JS.truthy_ostr (discordWebhook config) = true →
  (∀ req, is_discord_post (HttpsPost req) = true → request_fails (net req) = true) →
  posts_as_configured net config ev fl run →
  is_resolved (outcome run) = false ∧ count is_telegram_post (trace run) = 0%nat.
Proof.
  intros Hcfg Hnet (message & _ & _ & Htel & Hout). cbv zeta in *.
  rewrite (sendDiscordNotification_fails net config message ev fl Hcfg Hnet) in *.
  rewrite andb_false_r in Htel. done.
Qed.

End AlertRuns.

(** ** Filters, failures and channels *)

Section Enforcement.

Context {rt : Runtime}.
Variable net : Network.
Variable config : BotConfig.
Variable settings : Settings.BotSettings.

(** The handler when a floor-price filter applies to a flagged event. *)
Lemma handler_filtered (ev : ListingEvent) (fl : CollectionFloors) :
  let c := slug (collection (payload ev)) in
  let verdict := isUndercut fl c ev (undercutThresholdPercent config) in
  let r := handleListingEvent net config settings ev fl in
  Settings.enablePriceTriggerAlerts settings = false →
  isUndercut_flag verdict = true →
  belowMinFloor settings (floorPrice verdict)
    || aboveMaxFloor settings (floorPrice verdict) = true →
  (∃ l1 l2, trace r = [ConsoleLog l1; WebAddEvent "listing" l2 c; CallIsUndercut c])
  ∧ store r = fl
  ∧ outcome r = Resolved tt.
Proof.
  cbv zeta. intros Hmode Hflag Hout. split; [|split].
  - destruct (handler_trace net config settings ev fl) as (l1 & l2 & ->).
    exists l1, l2. cbv zeta.
    rewrite priceTriggerAlerts_off by done.
    rewrite (undercutAlerts_filtered net config settings ev _ fl Hmode Hflag Hout).
    reflexivity.
  - rewrite handler_store. cbv zeta.
    rewrite priceTriggerAlerts_off by done.
    rewrite (undercutAlerts_filtered net config settings ev _ fl Hmode Hflag Hout).
    reflexivity.
  - rewrite handler_outcome. cbv zeta.
    rewrite priceTriggerAlerts_off by done.
    rewrite (undercutAlerts_filtered net config settings ev _ fl Hmode Hflag Hout).
    reflexivity.
Qed.

(** A bound above zero is truthy. *)
Lemma positive_truthy (m : number) : JS.gt m JS.zero = true → JS.truthy m = true.
Proof. destruct m as [s|s| |s mm e]; try destruct s; done. Qed.

(** A bound that is absent or zero filters nothing. *)
Lemma no_bound_min (fp : number) :
  no_bound (Settings.minFloorPrice settings) = true →
  belowMinFloor settings fp = false.
Proof.
  unfold no_bound, belowMinFloor.
  destruct (Settings.minFloorPrice settings) as [[]|]; done.
Qed.

Lemma no_bound_max (fp : number) :
  no_bound (Settings.maxFloorPrice settings) = true →
  aboveMaxFloor settings fp = false.
Proof.
  unfold no_bound, aboveMaxFloor.
  destruct (Settings.maxFloorPrice settings) as [[]|]; done.
Qed.

(** The undercut alerts of the handler when the verdict is flagged and no
    filter applies. *)
Lemma handler_undercut_sent (ev : ListingEvent) (fl : CollectionFloors) :
  let c := slug (collection (payload ev)) in
  let verdict := isUndercut fl c ev (undercutThresholdPercent config) in
  Settings.enablePriceTriggerAlerts settings = false →
  isUndercut_flag verdict = true →
  belowMinFloor settings (floorPrice verdict) = false →
  aboveMaxFloor settings (floorPrice verdict) = false →
  count is_undercut_alert (trace (handleListingEvent net config settings ev fl)) = 1%nat.
Proof.
  cbv zeta. intros Hmode Hflag Hmin Hmax.
  destruct (handler_trace net config settings ev fl) as (l1 & l2 & ->).
  cbv zeta. rewrite priceTriggerAlerts_off by done.
  destruct (undercutAlerts_sent net config settings ev (normalizedPrice ev) fl
              Hmode Hflag Hmin Hmax) as [(l & ->) ->].
  cbn [mret task_ret trace outcome app].
  change (ConsoleLog l1 :: WebAddEvent "listing" l2 ?c :: CallIsUndercut ?c' :: ?t)
    with ([ConsoleLog l1; WebAddEvent "listing" l2 c; CallIsUndercut c'] ++ t).
  rewrite !count_app.
  assert (Hsend : ∀ lp fp pb,
            count is_undercut_alert
              (trace (Notifier.sendUndercutAlert net (notifications config) ev lp fp pb fl))
            = 1%nat).
  { intros. unfold Notifier.sendUndercutAlert. rewrite trace_bind.
    cbn [emit trace outcome store]. change (?e :: ?t) with ([e] ++ t).
    rewrite count_app.
    match goal with
    | |- (_ + count _ (trace (?m fl)) = _)%nat =>
        assert (Hrest : avoids is_undercut_alert m)
    end.
    { repeat first
        [ apply sendConsoleNotification_avoids; silent
        | apply sendDiscordNotification_avoids; silent
        | apply sendTelegramNotification_avoids; silent
        | task_step ]. }
    rewrite (count_avoided _ _ (Hrest fl)). reflexivity. }
  rewrite Hsend.
  destruct (outcome (Notifier.sendUndercutAlert _ _ _ _ _ _ _)); [|reflexivity].
  rewrite (count_avoided is_undercut_alert (trace (floorUpdate settings ev fl))).
  - reflexivity.
  - apply floorUpdate_avoids; silent.
Qed.

End Enforcement.

(** C1. The part of the claim the code keeps, and the part it breaks: when the
    verdict of an event is flagged and its floor price is outside the band of
    [minFloorPrice] and [maxFloorPrice], no undercut alert is produced; the
    handler returns at the filter, so that [updateFloor] is not called and
    the store is the one before the event, also when the event's price is
    below the current floor. *)
Theorem filtered_undercut_skips_floor_update `{rt : Runtime} (net : Network)
    (config : BotConfig) (settings : Settings.BotSettings) (ev : ListingEvent)
    (fl : CollectionFloors) :
  let c := slug (collection (payload ev)) in
  let verdict := isUndercut fl c ev (undercutThresholdPercent config) in
  let r := handleListingEvent net config settings ev fl in
  Settings.enablePriceTriggerAlerts settings = false →
  isUndercut_flag verdict = true →
  belowMinFloor settings (floorPrice verdict)
    || aboveMaxFloor settings (floorPrice verdict) = true →
  count is_undercut_alert (trace r) = 0%nat
  ∧ count is_updateFloor_call (trace r) = 0%nat
  ∧ store r = fl
  ∧ outcome r = Resolved tt.
Proof.
  cbv zeta. intros Hmode Hflag Hout.
  destruct (handler_filtered net config settings ev fl Hmode Hflag Hout)
    as ((l1 & l2 & ->) & -> & ->).
  repeat split.
Qed.

(** C10. A [minFloorPrice] or [maxFloorPrice] of zero is treated as an absent
    bound: the handler runs as it does without the bound, and a flagged event
    whose two bounds are each absent or zero gets its undercut alert. A bound
    above zero is enforced: a flagged event whose floor price is below such a
    [minFloorPrice], or above such a [maxFloorPrice], gets no undercut alert. *)
Theorem zero_floor_bound_is_no_bound `{rt : Runtime} (net : Network)
    (config : BotConfig) (settings : Settings.BotSettings) (ev : ListingEvent)
    (fl : CollectionFloors) (sign : bool) :
  let c := slug (collection (payload ev)) in
  let verdict := isUndercut fl c ev (undercutThresholdPercent config) in
  let t := trace (handleListingEvent net config settings ev fl) in
  handleListingEvent net config
    (Settings.set_minFloorPrice settings (Some (S754_zero sign))) ev fl
  = handleListingEvent net config (Settings.set_minFloorPrice settings None) ev fl
  ∧ handleListingEvent net config
      (Settings.set_maxFloorPrice settings (Some (S754_zero sign))) ev fl
    = handleListingEvent net config (Settings.set_maxFloorPrice settings None) ev fl
  ∧ (Settings.enablePriceTriggerAlerts settings = false →
     isUndercut_flag verdict = true →
     (no_bound (Settings.minFloorPrice settings) = true →
      no_bound (Settings.maxFloorPrice settings) = true →
      count is_undercut_alert t = 1%nat)
     ∧ (∀ m, Settings.minFloorPrice settings = Some m → JS.gt m JS.zero = true →
             JS.lt (floorPrice verdict) m = true →
             count is_undercut_alert t = 0%nat)
     ∧ (∀ m, Settings.maxFloorPrice settings = Some m → JS.gt m JS.zero = true →
             JS.gt (floorPrice verdict) m = true →
             count is_undercut_alert t = 0%nat)).
Proof.
  cbv zeta. split; [reflexivity|]. split; [reflexivity|].
  intros Hmode Hflag. split; [|split].
  - intros Hmin Hmax. apply handler_undercut_sent; try done.
    + by apply no_bound_min.
    + by apply no_bound_max.
  - intros m Hm Hpos Hlt.
    destruct (handler_filtered net config settings ev fl Hmode Hflag)
      as ((l1 & l2 & ->) & _); [|reflexivity].
    unfold belowMinFloor. by rewrite Hm, (positive_truthy m Hpos), Hlt.
  - intros m Hm Hpos Hgt.
    destruct (handler_filtered net config settings ev fl Hmode Hflag)
      as ((l1 & l2 & ->) & _); [|reflexivity].
    unfold aboveMaxFloor. rewrite Hm, (positive_truthy m Hpos), Hgt.
    apply orb_true_r.
Qed.

Section WebhookFailure.

Context {rt : Runtime}.
Variable net : Network.
Variable config : BotConfig.
Hypothesis webhook_configured :
  JS.truthy_ostr (discordWebhook (notifications config)) = true.
Hypothesis webhook_fails :
  ∀ req, is_discord_post (HttpsPost req) = true → request_fails (net req) = true.

Lemma sendUndercutAlert_rejected (ev : ListingEvent) (lp fp pb : number)
    (fl : CollectionFloors) :
  let run := Notifier.sendUndercutAlert net (notifications config) ev lp fp pb fl in
  is_resolved (outcome run) = false ∧ count is_telegram_post (trace run) = 0%nat.
Proof.
  cbv zeta. eapply failing_webhook_rejects; eauto using sendUndercutAlert_posts.
Qed.

Lemma sendPriceTriggerAlert_rejected (ev : ListingEvent) (lp : number)
    (sym reason : string) (fl : CollectionFloors) :
  let run := Notifier.sendPriceTriggerAlert net (notifications config) ev lp sym reason fl in
  is_resolved (outcome run) = false ∧ count is_telegram_post (trace run) = 0%nat.
Proof.
  cbv zeta. eapply failing_webhook_rejects; eauto using sendPriceTriggerAlert_posts.
Qed.

(** Without an alert that posts, the handler's trace shows none. *)
Lemma no_alert_in (t : list Effect) :
  Forall (λ e, is_posting_alert e = false) t → existsb is_posting_alert t = true → False.
Proof. intros H%existsb_avoided. congruence. Qed.

End WebhookFailure.



(** ** The tracker on the heap *)

Section HeapFacts.

Context {rt : Runtime}.

Implicit Types (h : Heap.heap) (t : Heap.Tracker).

Lemma alloc_fresh h (o : Heap.object) : (Heap.alloc h o).1 ∉ dom h.
Proof. unfold Heap.alloc. cbn [fst]. apply is_fresh. Qed.

Lemma alloc_heap h (o : Heap.object) :
  (Heap.alloc h o).2 = <[(Heap.alloc h o).1 := o]> h.
Proof. reflexivity. Qed.

Lemma props_at_insert h (l : Heap.loc) (m : gmap string Heap.loc) :
  Heap.props_at (<[l := Heap.ObjFloors m]> h) l = m.
Proof. unfold Heap.props_at. by rewrite lookup_insert_eq. Qed.

Lemma props_at_insert_ne h (l l' : Heap.loc) (o : Heap.object) :
  l ≠ l' → Heap.props_at (<[l' := o]> h) l = Heap.props_at h l.
Proof. intros Hne. unfold Heap.props_at. by rewrite lookup_insert_ne. Qed.

Lemma extends_refl h : Heap.extends h h.
Proof. by intros l _. Qed.

Lemma extends_insert h h' (l : Heap.loc) (o : Heap.object) :
  Heap.extends h h' → l ∉ dom h → Heap.extends h (<[l := o]> h').
Proof.
  intros Hext Hl l0 Hl0. rewrite lookup_insert_ne; [by apply Hext|].
  intros ->. done.
Qed.

Lemma extends_dom h h' (l : Heap.loc) : Heap.extends h h' → l ∉ dom h' → l ∉ dom h.
Proof.
  intros Hext Hl Hin. apply Hl. apply elem_of_dom.
  rewrite (Hext l Hin). by apply elem_of_dom.
Qed.

Lemma deref_dom h (l : Heap.loc) : is_Some (Heap.deref h l) → l ∈ dom h.
Proof.
  unfold Heap.deref. intros [d Hd]. apply elem_of_dom.
  destruct (h !! l); [done|discriminate].
Qed.

Lemma extends_deref h h' (l : Heap.loc) :
  Heap.extends h h' → is_Some (Heap.deref h l) → Heap.deref h' l = Heap.deref h l.
Proof.
  intros Hext Hl. unfold Heap.deref. by rewrite (Hext l) by by apply deref_dom.
Qed.

Lemma getFloor_view h t (c : string) : Heap.getFloor h t c = Heap.view h t !! c.
Proof. unfold Heap.getFloor, Heap.view. by rewrite lookup_omap. Qed.

(** A heap that keeps the objects of a well-formed tracker shows the same
    store. *)
Lemma extends_getFloor h h' t (c : string) :
  Heap.wf h t → Heap.extends h h' → Heap.getFloor h' t c = Heap.getFloor h t c.
Proof.
  intros [[m Hm] Hrec] Hext. unfold Heap.getFloor, Heap.props_at in *.
  rewrite (Hext (Heap.floors t)) by (apply elem_of_dom; eauto).
  rewrite Hm in *. destruct (m !! c) as [l|] eqn:Hl; [|done]. cbn.
  unfold Heap.deref. rewrite (Hext l); [done|].
  apply deref_dom. eauto.
Qed.

Lemma isUndercut_getFloor h h' t (c : string) (ev : ListingEvent) (th : number) :
  Heap.getFloor h' t c = Heap.getFloor h t c →
  Heap.isUndercut h' t c ev th = Heap.isUndercut h t c ev th.
Proof. unfold Heap.isUndercut. by intros ->. Qed.

(** The methods on the heap read what the methods on stores read. *)
Lemma isUndercut_view h t (c : string) (ev : ListingEvent) (th : number) :
  Heap.isUndercut h t c ev th = isUndercut (Heap.view h t) c ev th.
Proof. unfold Heap.isUndercut, isUndercut, getFloor. by rewrite getFloor_view. Qed.

Lemma newTracker_wf h :
  Heap.wf (Heap.newTracker h).2 (Heap.newTracker h).1
  ∧ Heap.view (Heap.newTracker h).2 (Heap.newTracker h).1 = ∅.
Proof.
  unfold Heap.newTracker, Heap.alloc, Heap.wf, Heap.view, Heap.props_at.
  cbn [fst snd Heap.floors]. rewrite lookup_insert_eq. split; [split|].
  - eauto.
  - intros k l. by rewrite lookup_empty.
  - apply omap_empty.
Qed.

(** [updateFloor] on the heap does to the store what [updateFloor] on
    stores does, and keeps the tracker well formed. *)
Lemma updateFloor_view h t (c : string) (ev : ListingEvent) :
  Heap.wf h t →
  let res := Heap.updateFloor h t c ev in
  res.1 = (updateFloor (Heap.view h t) c ev).1
  ∧ Heap.view res.2 t = (updateFloor (Heap.view h t) c ev).2
  ∧ Heap.wf res.2 t.
Proof.
  intros Hwf. cbv zeta. unfold Heap.updateFloor, updateFloor.
  rewrite getFloor_view.
  assert (Hreplace :
    let res := (let '(l, h') := Heap.alloc h (Heap.ObjRecord (recordOf ev)) in
                (true, <[Heap.floors t :=
                         Heap.ObjFloors (<[c := l]> (Heap.props_at h (Heap.floors t)))]> h')) in
    res.1 = true
    ∧ Heap.view res.2 t = <[c := recordOf ev]> (Heap.view h t)
    ∧ Heap.wf res.2 t).
  { destruct Hwf as [[m Hm] Hrec]. unfold Heap.alloc. cbn [fst snd].
    set (l := fresh (dom h)).
    assert (Hl : l ∉ dom h) by apply is_fresh.
    assert (Hne : Heap.floors t ≠ l).
    { intros Heq. apply Hl. rewrite <- Heq. apply elem_of_dom. eauto. }
    assert (Hderef : ∀ l0, is_Some (Heap.deref h l0) →
              Heap.deref (<[Heap.floors t := Heap.ObjFloors
                               (<[c := l]> (Heap.props_at h (Heap.floors t)))]>
                          (<[l := Heap.ObjRecord (recordOf ev)]> h)) l0
              = Heap.deref h l0).
    { intros l0 Hl0. pose proof (deref_dom h l0 Hl0) as Hdom.
      unfold Heap.deref in *.
      rewrite lookup_insert_ne.
      - rewrite lookup_insert_ne; [done|]. intros <-. done.
      - intros <-. rewrite Hm in Hl0. by destruct Hl0. }
    assert (Hnew : Heap.deref (<[Heap.floors t := Heap.ObjFloors
                                   (<[c := l]> (Heap.props_at h (Heap.floors t)))]>
                                (<[l := Heap.ObjRecord (recordOf ev)]> h)) l
                   = Some (recordOf ev)).
    { unfold Heap.deref. rewrite lookup_insert_ne by done.
      by rewrite lookup_insert_eq. }
    split; [done|]. split.
    - unfold Heap.view at 1. rewrite props_at_insert.
      apply map_eq. intros k. rewrite lookup_omap.
      destruct (decide (k = c)) as [->|Hk].
      + rewrite !lookup_insert_eq. cbn. exact Hnew.
      + rewrite !lookup_insert_ne by done.
        unfold Heap.view. rewrite lookup_omap.
        destruct (Heap.props_at h (Heap.floors t) !! k) as [l0|] eqn:Hl0; [|done].
        cbn. apply Hderef. eauto.
    - split.
      + rewrite lookup_insert_eq. eauto.
      + intros k l0. rewrite props_at_insert.
        destruct (decide (k = c)) as [->|Hk].
        * rewrite lookup_insert_eq. intros [= <-]. rewrite Hnew. eauto.
        * rewrite lookup_insert_ne by done. intros Hl0.
          rewrite Hderef; eauto. }
  cbv zeta in Hreplace.
  destruct (Heap.view h t !! c) as [cur|]; [|exact Hreplace].
  destruct (JS.lt (normalizedPrice ev) (price cur)); [exact Hreplace|].
  split; [done|]. split; [done | exact Hwf].
Qed.

Lemma getAllFloors_extends h t :
  Heap.extends h (Heap.getAllFloors h t).2
  ∧ ((Heap.getAllFloors h t).1 ∉ dom h)
  ∧ Heap.props_at (Heap.getAllFloors h t).2 (Heap.getAllFloors h t).1
    = Heap.props_at h (Heap.floors t).
Proof.
  unfold Heap.getAllFloors. split; [|split].
  - rewrite alloc_heap. apply extends_insert; [apply extends_refl | apply alloc_fresh].
  - apply alloc_fresh.
  - rewrite alloc_heap. apply props_at_insert.
Qed.

(** A mutation of the snapshot's dictionary keeps every object that existed
    before the snapshot was taken. *)
Lemma mutate_extends h h' (snap : Heap.loc) (m : Heap.Mutation) :
  snap ∉ dom h → Heap.extends h h' → Heap.top_level m = true →
  Heap.extends h (Heap.mutate snap h' m).
Proof.
  intros Hsnap Hext Htop. destruct m as [key data|key from|key|key change];
    try discriminate; cbn [Heap.mutate].
  - pose proof (alloc_fresh h' (Heap.ObjRecord data)) as Hl.
    unfold Heap.alloc in *. cbn [fst] in Hl.
    apply extends_insert; [|done].
    apply extends_insert; [done|]. by eapply extends_dom.
  - destruct (Heap.props_at h' snap !! from); by apply extends_insert.
  - by apply extends_insert.
Qed.

Lemma mutateAll_extends h h' (snap : Heap.loc) (ms : list Heap.Mutation) :
  snap ∉ dom h → Heap.extends h h' → Forall (λ m, Heap.top_level m = true) ms →
  Heap.extends h (Heap.mutateAll snap h' ms).
Proof.
  intros Hsnap Hext Hms. revert h' Hext.
  induction Hms as [|m ms Hm _ IH]; intros h' Hext; [done|].
  cbn. apply IH. by apply mutate_extends.
Qed.

End HeapFacts.

(** C9, as the code has it. The value [getAllFloors] returns is a new
    dictionary with the tracker's entries: adding, replacing or deleting
    entries of it, in any number, changes nothing of what [getFloor] and
    [isUndercut] report. The records it leads to are the tracker's own: a
    field written through the returned value is the field [getFloor] reads. *)
Theorem getAllFloors_copies_entries_only `{rt : Runtime} (h : Heap.heap)
    (t : Heap.Tracker) (ms : list Heap.Mutation) (c : string) (ev : ListingEvent)
    (th : number) :
  Heap.wf h t →
  Forall (λ m, Heap.top_level m = true) ms →
  let snap := (Heap.getAllFloors h t).1 in
  let h1 := (Heap.getAllFloors h t).2 in
  let h2 := Heap.mutateAll snap h1 ms in
  (Heap.props_at h1 snap !! c ≫= Heap.deref h1) = Heap.getFloor h t c
  ∧ Heap.getFloor h1 t c = Heap.getFloor h t c
  ∧ Heap.getFloor h2 t c = Heap.getFloor h t c
  ∧ Heap.isUndercut h2 t c ev th = Heap.isUndercut h t c ev th
  ∧ ∀ change,
      Heap.getFloor (Heap.mutate snap h1 (Heap.SetField c change)) t c
      = change <$> Heap.getFloor h t c.
Proof.
  intros Hwf Hms. cbv zeta.
  destruct (getAllFloors_extends h t) as (Hext & Hsnap & Hprops).
  assert (H1 : ∀ k, Heap.getFloor (Heap.getAllFloors h t).2 t k = Heap.getFloor h t k).
  { intros k. by apply extends_getFloor. }
  assert (H2 : Heap.getFloor (Heap.mutateAll (Heap.getAllFloors h t).1
                               (Heap.getAllFloors h t).2 ms) t c
               = Heap.getFloor h t c).
  { apply extends_getFloor; [done|]. by apply mutateAll_extends. }
  split; [|split; [|split; [|split]]].
  - rewrite Hprops. unfold Heap.getFloor.
    destruct Hwf as [_ Hrec].
    destruct (Heap.props_at h (Heap.floors t) !! c) as [l|] eqn:Hl; [|done].
    change (Some l ≫= ?f) with (f l). apply extends_deref; eauto.
  - apply H1.
  - exact H2.
  - by apply isUndercut_getFloor.
  - intros change. rewrite <- (H1 c). unfold Heap.getFloor.
    cbn [Heap.mutate]. rewrite Hprops.
    destruct Hwf as [[m Hm] Hrec].
    assert (Hfl : Heap.props_at (Heap.getAllFloors h t).2 (Heap.floors t)
                  = Heap.props_at h (Heap.floors t)).
    { unfold Heap.props_at. rewrite (Hext (Heap.floors t)); [done|].
      apply elem_of_dom. eauto. }
    rewrite Hfl.
    destruct (Heap.props_at h (Heap.floors t) !! c) as [l|] eqn:Hl.
    + destruct (Hrec c l Hl) as [d Hd].
      assert (Hd1 : Heap.deref (Heap.getAllFloors h t).2 l = Some d).
      { rewrite <- Hd. apply extends_deref; eauto. }
      assert (Hobj : (Heap.getAllFloors h t).2 !! l = Some (Heap.ObjRecord d)).
      { unfold Heap.deref in Hd1.
        destruct ((Heap.getAllFloors h t).2 !! l) as [[]|]; congruence. }
      rewrite Hobj.
      assert (Hne : Heap.floors t ≠ l).
      { intros <-. unfold Heap.deref in Hd. rewrite Hm in Hd. discriminate. }
      rewrite props_at_insert_ne by done. rewrite Hfl, Hl.
      change (Some l ≫= ?f) with (f l). rewrite Hd1.
      unfold Heap.deref. by rewrite lookup_insert_eq.
    + rewrite Hfl, Hl. reflexivity.
Qed.

(** * Further properties of the code *)

(** ** The tracker: clearing, replaying, reordering *)

Section TrackerMore.

Context {rt : Runtime}.

Lemma lt_nan_l (a b : number) : JS.is_nan a = true → JS.lt a b = false.
Proof. by destruct a. Qed.

Lemma lt_nan_r (a b : number) : JS.is_nan b = true → JS.lt a b = false.
Proof. destruct b; try discriminate. by destruct a. Qed.

Lemma le_antisym_compare (a b : number) :
  JS.le a b = true → JS.le b a = true → SFcompare a b = Some Eq.
Proof.
  unfold JS.le, SFleb. rewrite (NumOrder.SFcompare_swap a b).
  destruct (SFcompare a b) as [[]|]; simpl; intros; done.
Qed.

Lemma applyEvents_cons (fl : CollectionFloors) (c : string) (ev : ListingEvent)
    (evs : list ListingEvent) :
  applyEvents fl c (ev :: evs) = applyEvents (updateFloor fl c ev).2 c evs.
Proof. reflexivity. Qed.

Lemma applyEvents_app (fl : CollectionFloors) (c : string)
    (evs evs' : list ListingEvent) :
  applyEvents fl c (evs ++ evs') = applyEvents (applyEvents fl c evs) c evs'.
Proof. unfold applyEvents. apply foldl_app. Qed.

Lemma updateFloor_other (fl : CollectionFloors) (c c' : string) (ev : ListingEvent) :
  c' ≠ c → (updateFloor fl c ev).2 !! c' = fl !! c'.
Proof.
  intros Hne. unfold updateFloor. destruct (fl !! c) as [cur|].
  - destruct (JS.lt _ _); cbn [snd]; [by rewrite lookup_insert_ne | done].
  - cbn [snd]. by rewrite lookup_insert_ne.
Qed.

(** An event no lower than the floor changes nothing. *)
Lemma updateFloor_refused (fl : CollectionFloors) (c : string) (ev : ListingEvent)
    (cur : FloorData) :
  fl !! c = Some cur → JS.lt (normalizedPrice ev) (price cur) = false →
  updateFloor fl c ev = (false, fl).
Proof. intros Hcur Hlt. unfold updateFloor. by rewrite Hcur, Hlt. Qed.

(** After any events, none of them is below the floor. *)
Lemma applyEvents_none_lower (fl : CollectionFloors) (c : string)
    (evs : list ListingEvent) (e : ListingEvent) :
  e ∈ evs →
  ∃ r, applyEvents fl c evs !! c = Some r
       ∧ JS.lt (normalizedPrice e) (price r) = false.
Proof.
  revert e. induction evs as [|ev evs IH] using rev_ind; intros e He.
  - by apply elem_of_nil in He.
  - rewrite applyEvents_snoc.
    apply elem_of_app in He as [He | He%list_elem_of_singleton].
    + destruct (IH e He) as (r & Hr & Hlt).
      unfold updateFloor. rewrite Hr.
      destruct (JS.lt (normalizedPrice ev) (price r)) eqn:Hev; cbn [snd].
      * rewrite lookup_insert_eq. eexists. split; [done|].
        rewrite price_recordOf.
        destruct (JS.lt (normalizedPrice e) (normalizedPrice ev)) eqn:Hee; [|done].
        by rewrite (NumOrder.lt_trans _ _ _ Hee Hev) in Hlt.
      * eauto.
    + subst e. unfold updateFloor.
      destruct (applyEvents fl c evs !! c) as [r|] eqn:Hr.
      * destruct (JS.lt (normalizedPrice ev) (price r)) eqn:Hev; cbn [snd].
        -- rewrite lookup_insert_eq. eexists. split; [done|].
           apply NumOrder.lt_irrefl.
        -- eauto.
      * cbn [snd]. rewrite lookup_insert_eq. eexists. split; [done|].
        apply NumOrder.lt_irrefl.
Qed.

End TrackerMore.


(** X2. Events the tracker has already seen change nothing when they arrive
    again, in any order and any number of times. *)
Theorem replayed_events_change_nothing `{rt : Runtime} (fl : CollectionFloors)
    (c : string) (evs again : list ListingEvent) :
  (∀ e, e ∈ again → e ∈ evs) →
  applyEvents (applyEvents fl c evs) c again = applyEvents fl c evs
  ∧ Forall (λ e, (updateFloor (applyEvents fl c evs) c e).1 = false) again.
Proof.
  intros Hsub. induction again as [|e again IH].
  - by split.
  - destruct (applyEvents_none_lower fl c evs e) as (r & Hr & Hlt).
    { apply Hsub. by left. }
    pose proof (updateFloor_refused _ c e r Hr Hlt) as Hno.
    destruct IH as [IH1 IH2].
    { intros e' He'. apply Hsub. by right. }
    split.
    + rewrite applyEvents_cons, Hno. exact IH1.
    + constructor; [by rewrite Hno | exact IH2].
Qed.

(** X3. The floor price does not depend on the order in which the events
    arrive: two orders of the same events, with prices that are numbers,
    leave prices that compare equal. *)
Theorem floor_price_ignores_order `{rt : Runtime} (fl : CollectionFloors) (c : string)
    (evs evs' : list ListingEvent) :
  getFloor fl c = None →
  Forall (λ e, JS.is_nan (normalizedPrice e) = false) evs →
  evs ≡ₚ evs' →
  match getFloor (applyEvents fl c evs) c, getFloor (applyEvents fl c evs') c with
  | Some r, Some r' => SFcompare (price r) (price r') = Some Eq
  | None, None => evs = [] ∧ evs' = []
  | _, _ => False
  end.
Proof.
  intros Hnone Hnan Hperm.
  assert (Hnan' : Forall (λ e, JS.is_nan (normalizedPrice e) = false) evs').
  { by rewrite <- Hperm. }
  pose proof (applyEvents_minimum fl c evs Hnone Hnan) as H1.
  pose proof (applyEvents_minimum fl c evs' Hnone Hnan') as H2.
  destruct (getFloor (applyEvents fl c evs) c) as [r|],
           (getFloor (applyEvents fl c evs') c) as [r'|].
  - destruct H1 as [(e & He & ->) Hle], H2 as [(e' & He' & ->) Hle'].
    rewrite !price_recordOf. apply le_antisym_compare.
    + apply Hle. by rewrite Hperm.
    + apply Hle'. by rewrite <- Hperm.
  - subst evs'. apply Permutation_nil_r in Hperm. subst evs.
    by destruct H1 as [(e & He%elem_of_nil & _) _].
  - subst evs. apply Permutation_nil_l in Hperm. subst evs'.
    by destruct H2 as [(e & He%elem_of_nil & _) _].
  - done.
Qed.

(** X4. Collections do not interfere: the events of one collection leave the
    records of the others as they are, and updates of two collections give
    the same store and the same results in either order. *)
Theorem collections_are_independent `{rt : Runtime} (fl : CollectionFloors)
    (c c' : string) (ev ev' : ListingEvent) (evs : list ListingEvent) :
  c ≠ c' →
  getFloor (applyEvents fl c evs) c' = getFloor fl c'
  ∧ (updateFloor (updateFloor fl c ev).2 c' ev').1 = (updateFloor fl c' ev').1
  ∧ (updateFloor (updateFloor fl c' ev').2 c ev).1 = (updateFloor fl c ev).1
  ∧ (updateFloor (updateFloor fl c ev).2 c' ev').2
    = (updateFloor (updateFloor fl c' ev').2 c ev).2.
Proof.
  intros Hne. assert (Hne' : c' ≠ c) by congruence.
  assert (Hfst : ∀ fl1 fl2 k e, fl1 !! k = fl2 !! k →
                   (updateFloor fl1 k e).1 = (updateFloor fl2 k e).1).
  { intros fl1 fl2 k e Hk. unfold updateFloor. rewrite Hk.
    destruct (fl2 !! k) as [cur|]; [|done]. by destruct (JS.lt _ _). }
  split; [|split; [|split]].
  - unfold getFloor. induction evs as [|e evs IH] using rev_ind; [done|].
    rewrite applyEvents_snoc, updateFloor_other by exact Hne'. exact IH.
  - apply Hfst. by apply updateFloor_other.
  - apply Hfst. by apply updateFloor_other.
  - unfold updateFloor at 1 3.
    rewrite (updateFloor_other fl c c' ev Hne'), (updateFloor_other fl c' c ev' Hne).
    unfold updateFloor.
    destruct (fl !! c) as [cur|], (fl !! c') as [cur'|];
      repeat match goal with
        | |- context [JS.lt ?a ?b] => destruct (JS.lt a b)
        end; cbn [snd]; try done; by rewrite insert_insert_ne.
Qed.

(** X5. A price that is not a number: an event with such a price never
    replaces a record, and a record with such a price is never replaced,
    whatever events follow. *)
Theorem nan_price_is_never_lower `{rt : Runtime} (fl : CollectionFloors) (c : string)
    (cur : FloorData) (ev : ListingEvent) (evs : list ListingEvent) :
  getFloor fl c = Some cur →
  (JS.is_nan (normalizedPrice ev) = true → updateFloor fl c ev = (false, fl))
  ∧ (JS.is_nan (price cur) = true → applyEvents fl c evs = fl).
Proof.
  unfold getFloor. intros Hcur. split.
  - intros Hnan. apply (updateFloor_refused fl c ev cur Hcur). by apply lt_nan_l.
  - intros Hnan. induction evs as [|e evs IH]; [done|].
    rewrite applyEvents_cons.
    rewrite (updateFloor_refused fl c e cur Hcur); [exact IH|]. by apply lt_nan_r.
Qed.

(** X6. [isUndercut] never flags an event when the listing price, the floor
    price or the threshold is not a number. *)
Theorem isUndercut_not_a_number `{rt : Runtime} (fl : CollectionFloors) (c : string)
    (ev : ListingEvent) (thresholdPercent : number) :
  JS.is_nan (normalizedPrice ev) = true
  ∨ JS.is_nan thresholdPercent = true
  ∨ (∃ cur, getFloor fl c = Some cur ∧ JS.is_nan (price cur) = true) →
  isUndercut_flag (isUndercut fl c ev thresholdPercent) = false.
Proof.
  unfold isUndercut. intros H.
  destruct (getFloor fl c) as [cur|]; [|done]. cbn [isUndercut_flag].
  unfold JS.ge, SFleb.
  destruct H as [H | [H | (cur' & [= <-] & H)]].
  - destruct (normalizedPrice ev); try discriminate.
    destruct (price cur) as [s|s| |s m e]; try destruct s; by destruct thresholdPercent.
  - destruct thresholdPercent; try discriminate. done.
  - destruct (price cur); try discriminate. by destruct thresholdPercent.
Qed.

(** ** Snapshots and later updates *)

Section SnapshotFacts.

Context {rt : Runtime}.

Implicit Types (h : Heap.heap) (t : Heap.Tracker).

Lemma extends_wf h h' t : Heap.wf h t → Heap.extends h h' → Heap.wf h' t.
Proof.
  intros [[m Hm] Hrec] Hext.
  assert (Hfl : h' !! Heap.floors t = Some (Heap.ObjFloors m)).
  { rewrite (Hext (Heap.floors t)); [done|]. apply elem_of_dom. eauto. }
  split; [eauto|]. intros k l. unfold Heap.props_at in *. rewrite Hfl, Hm in *.
  intros Hl. rewrite (extends_deref h h'); eauto.
Qed.

Lemma extends_view h h' t : Heap.wf h t → Heap.extends h h' → Heap.view h' t = Heap.view h t.
Proof.
  intros Hwf Hext. apply map_eq. intros k.
  rewrite <- !getFloor_view. by apply extends_getFloor.
Qed.

(** [updateFloor] writes the tracker's dictionary and a new record, and
    nothing else. *)
Lemma updateFloor_keeps_others h t (c : string) (ev : ListingEvent) (l : Heap.loc) :
  l ∈ dom h → l ≠ Heap.floors t → (Heap.updateFloor h t c ev).2 !! l = h !! l.
Proof.
  intros Hl Hne. unfold Heap.updateFloor, Heap.alloc.
  assert (Hfresh : l ≠ fresh (dom h)).
  { intros ->. by apply (is_fresh (dom h)). }
  destruct (Heap.getFloor h t c) as [cur|].
  - destruct (JS.lt _ _); cbn [snd]; [|done].
    by rewrite !lookup_insert_ne.
  - cbn [snd]. by rewrite !lookup_insert_ne.
Qed.

Lemma applyEvents_heap_snoc h t (c : string) (evs : list ListingEvent)
    (ev : ListingEvent) :
  Observe.applyEvents h t c (evs ++ [ev])
  = (Heap.updateFloor (Observe.applyEvents h t c evs) t c ev).2.
Proof. unfold Observe.applyEvents. by rewrite foldl_app. Qed.

(** The tracker on the heap after events: well formed, with the store the
    tracker on stores has, and with every other object of the heap kept. *)
Lemma applyEvents_heap h t (c : string) (evs : list ListingEvent) :
  Heap.wf h t →
  let h' := Observe.applyEvents h t c evs in
  Heap.wf h' t
  ∧ Heap.view h' t = applyEvents (Heap.view h t) c evs
  ∧ ∀ l, l ∈ dom h → l ≠ Heap.floors t → h' !! l = h !! l.
Proof.
  intros Hwf. cbv zeta. induction evs as [|ev evs IH] using rev_ind.
  - split; [exact Hwf|]. split; [reflexivity | done].
  - destruct IH as (Hwf' & Hview & Hkeep).
    rewrite applyEvents_heap_snoc, applyEvents_snoc.
    destruct (updateFloor_view (Observe.applyEvents h t c evs) t c ev Hwf')
      as (_ & Hv & Hw).
    split; [exact Hw|]. split; [by rewrite Hv, Hview|].
    intros l Hl Hne. rewrite updateFloor_keeps_others; [by apply Hkeep | | done].
    apply elem_of_dom. rewrite Hkeep by done. by apply elem_of_dom.
Qed.

End SnapshotFacts.

(** X7. A value returned by [getAllFloors] is a picture of the store at the
    time of the call: the listing events the tracker handles afterwards change
    the tracker's store and leave what the returned value shows as it was. *)
Theorem snapshot_survives_updates `{rt : Runtime} (h : Heap.heap) (t : Heap.Tracker)
    (c : string) (evs : list ListingEvent) :
  Heap.wf h t →
  let snap := (Heap.getAllFloors h t).1 in
  let h1 := (Heap.getAllFloors h t).2 in
  let h2 := Observe.applyEvents h1 t c evs in
  Observe.contents h1 snap = Heap.view h t
  ∧ Observe.contents h2 snap = Heap.view h t
  ∧ Heap.view h2 t = applyEvents (Heap.view h t) c evs.
Proof.
  intros Hwf. cbv zeta.
  destruct (getAllFloors_extends h t) as (Hext & Hsnap & Hprops).
  pose proof (extends_wf h _ t Hwf Hext) as Hwf1.
  destruct (applyEvents_heap _ t c evs Hwf1) as (_ & Hview & Hkeep).
  cbv zeta in Hview, Hkeep.
  assert (Hsnap1 : (Heap.getAllFloors h t).1 ∈ dom (Heap.getAllFloors h t).2).
  { unfold Heap.getAllFloors. rewrite alloc_heap. apply elem_of_dom.
    rewrite lookup_insert_eq. eauto. }
  assert (Hne : (Heap.getAllFloors h t).1 ≠ Heap.floors t).
  { intros Heq. apply Hsnap. rewrite Heq. destruct Hwf as [[m Hm] _].
    apply elem_of_dom. eauto. }
  assert (Hcontents : Observe.contents (Heap.getAllFloors h t).2 (Heap.getAllFloors h t).1
                      = Heap.view h t).
  { unfold Observe.contents, Heap.view. rewrite Hprops.
    apply map_eq. intros k. rewrite !lookup_omap.
    destruct (Heap.props_at h (Heap.floors t) !! k) as [l|] eqn:Hl; [|done].
    change (Some l ≫= ?f) with (f l). destruct Hwf as [_ Hrec].
    apply extends_deref; eauto. }
  split; [exact Hcontents|]. split.
  - rewrite <- Hcontents. unfold Observe.contents.
    assert (Hp : Heap.props_at (Observe.applyEvents (Heap.getAllFloors h t).2 t c evs)
                   (Heap.getAllFloors h t).1
                 = Heap.props_at (Heap.getAllFloors h t).2 (Heap.getAllFloors h t).1).
    { unfold Heap.props_at. by rewrite Hkeep. }
    rewrite Hp, Hprops. apply map_eq. intros k. rewrite !lookup_omap.
    destruct (Heap.props_at h (Heap.floors t) !! k) as [l|] eqn:Hl; [|done].
    change (Some l ≫= ?f) with (f l). destruct Hwf as [[m Hm] Hrec].
    unfold Heap.deref. rewrite Hkeep; [done| |].
    + apply elem_of_dom. rewrite (Hext l); [|apply deref_dom; eauto].
      apply elem_of_dom, deref_dom. eauto.
    + intros ->. destruct (Hrec k _ Hl) as [d Hd].
      unfold Heap.deref in Hd. by rewrite Hm in Hd.
  - rewrite Hview. f_equal. by apply extends_view.
Qed.

(** ** The notifier: one request, no channel, one message *)

Section NotifierMore.

Context {rt : Runtime}.
Variable net : Network.
Variable config : NotificationConfig.

Lemma status_ok_range (statusCode : option N) :
  Notifier.status_ok statusCode = true
  ↔ ∃ c, statusCode = Some c ∧ (200 ≤ c < 300)%N.
Proof.
  unfold Notifier.status_ok. destruct statusCode as [c|].
  - rewrite !andb_true_iff, negb_true_iff, N.eqb_neq, N.leb_le, N.ltb_lt. split.
    + intros [[_ H1] H2]. eauto.
    + intros (c' & [= <-] & H1 & H2). repeat split; lia.
  - split; [discriminate|]. by intros (c & ? & _).
Qed.

(** Every text a request posts is a text of its body. *)
Lemma makeHttpsRequest_texts (message url : string) (data : Body)
    (headers : list (string * string)) (fl : CollectionFloors) :
  (∀ host path hs txt,
      txt ∈ Observe.post_texts
              (HttpsPost {| req_hostname := host; req_path := path;
                            req_headers := hs; req_body := data |}) →
      txt = message) →
  Forall (λ e, ∀ txt, txt ∈ Observe.post_texts e → txt = message)
    (trace (Notifier.makeHttpsRequest net url data headers fl)).
Proof.
  intros Hdata. unfold Notifier.makeHttpsRequest.
  destruct (parseURL url) as [u|]; [|constructor].
  rewrite trace_bind. cbn [emit trace outcome store].
  constructor; [apply Hdata|].
  destruct (net _) as [code body|msg].
  - destruct (Notifier.status_ok code); [constructor|].
    rewrite trace_bind. cbn [emit reject trace outcome store app].
    constructor; [|constructor]. intros txt Htxt. by apply elem_of_nil in Htxt.
  - rewrite trace_bind. cbn [emit reject trace outcome store app].
    constructor; [|constructor]. intros txt Htxt. by apply elem_of_nil in Htxt.
Qed.

Lemma sendDiscordNotification_texts (message : string) (ev : ListingEvent)
    (fl : CollectionFloors) :
  Forall (λ e, ∀ txt, txt ∈ Observe.post_texts e → txt = message)
    (trace (Notifier.sendDiscordNotification net config message ev fl)).
Proof.
  unfold Notifier.sendDiscordNotification.
  destruct (discordWebhook config) as [w|]; [|constructor].
  destruct (JS.truthy_str w); [|constructor].
  destruct (toISOString _) as [iso|]; [|constructor].
  apply makeHttpsRequest_texts. intros host path hs txt.
  cbn [Observe.post_texts List.map description]. by intros ->%list_elem_of_singleton.
Qed.

Lemma sendTelegramNotification_texts (message : string) (fl : CollectionFloors) :
  Forall (λ e, ∀ txt, txt ∈ Observe.post_texts e → txt = message)
    (trace (Notifier.sendTelegramNotification net config message fl)).
Proof.
  unfold Notifier.sendTelegramNotification.
  destruct (telegramBotToken config) as [token|]; [|constructor].
  destruct (telegramChatId config) as [chatId|]; [|constructor].
  destruct (_ && _); [|constructor].
  apply makeHttpsRequest_texts. intros host path hs txt.
  cbn [Observe.post_texts]. by intros ->%list_elem_of_singleton.
Qed.

(** The channels of an alert carry the message of its console block. *)
Lemma channels_texts (message : string) (ev : ListingEvent) (fl : CollectionFloors) :
  let run :=
    (Notifier.sendConsoleNotification message;;
     (if JS.truthy_ostr (discordWebhook config)
      then Notifier.sendDiscordNotification net config message ev else mret tt);;
     (if JS.truthy_ostr (telegramBotToken config)
           && JS.truthy_ostr (telegramChatId config)
      then Notifier.sendTelegramNotification net config message else mret tt)) fl in
  ConsoleLog message ∈ trace run
  ∧ Forall (λ e, ∀ txt, txt ∈ Observe.post_texts e → txt = message) (trace run).
Proof.
  cbv zeta. rewrite trace_bind, sendConsoleNotification_run.
  cbn [trace outcome store]. split.
  - apply elem_of_app. left. set_solver.
  - apply Forall_app. split.
    + repeat constructor; intros txt Htxt; by apply elem_of_nil in Htxt.
    + rewrite trace_bind. apply Forall_app. split.
      * destruct (JS.truthy_ostr _); [apply sendDiscordNotification_texts | constructor].
      * destruct (outcome _); [|constructor].
        destruct (_ && _); [apply sendTelegramNotification_texts | constructor].
Qed.

End NotifierMore.

(** X8. A request is one attempt: when the URL parses, it is posted exactly
    once whatever the answer; the promise resolves exactly when the answer
    carries a status from 200 to 299; otherwise it rejects and one line is
    written to the error console. When the URL does not parse, nothing is
    posted or logged and the promise rejects. The store is never touched. *)
Theorem request_is_one_attempt `{rt : Runtime} (net : Network) (url : string)
    (data : Body) (headers : list (string * string)) (fl : CollectionFloors) :
  let r := Notifier.makeHttpsRequest net url data headers fl in
  store r = fl
  ∧ match parseURL url with
    | None => trace r = [] ∧ outcome r = Rejected (InvalidURL url)
    | Some u =>
        let req := {| req_hostname := url_hostname u;
                      req_path := url_pathname u +:+ url_search u;
                      req_headers := headers;
                      req_body := data |} in
        count Observe.is_post (trace r) = 1%nat
        ∧ (is_resolved (outcome r) = true
           ↔ ∃ c body, net req = HttpResponse (Some c) body ∧ (200 ≤ c < 300)%N)
        ∧ count Observe.is_error_line (trace r)
          = (if is_resolved (outcome r) then 0 else 1)%nat
    end.
Proof.
  cbv zeta. split; [apply makeHttpsRequest_keeps|].
  unfold Notifier.makeHttpsRequest. destruct (parseURL url) as [u|]; [|done].
  rewrite trace_bind, outcome_bind. cbn [emit trace outcome store].
  destruct (net _) as [code body|msg].
  - destruct (Notifier.status_ok code) eqn:Hok.
    + repeat split; try done. intros _.
      apply status_ok_range in Hok as (c & -> & Hc). eauto.
    + rewrite trace_bind, outcome_bind. cbn [emit reject trace outcome store app].
      repeat split; try done.
      intros (c & body' & [= -> _] & Hc).
      assert (Notifier.status_ok (Some c) = true) by (apply status_ok_range; eauto).
      congruence.
  - rewrite trace_bind, outcome_bind. cbn [emit reject trace outcome store app].
    repeat split; try done. by intros (c & body & ? & _).
Qed.

(** X9. Without a webhook, and without a token or without a chat identifier,
    an undercut alert and a price-trigger alert are written to the console
    only: nothing is posted and the alert resolves, whatever the network. *)
Theorem unconfigured_channels_are_silent `{rt : Runtime} (net : Network)
    (config : NotificationConfig) (ev : ListingEvent) (lp fp pb : number)
    (sym reason : string) (fl : CollectionFloors) :
  JS.truthy_ostr (discordWebhook config) = false →
  JS.truthy_ostr (telegramBotToken config)
    && JS.truthy_ostr (telegramChatId config) = false →
  let undercut := Notifier.sendUndercutAlert net config ev lp fp pb fl in
  let trigger := Notifier.sendPriceTriggerAlert net config ev lp sym reason fl in
  (count Observe.is_post (trace undercut) = 0%nat
   ∧ count is_console (trace undercut) = 3%nat
   ∧ outcome undercut = Resolved tt)
  ∧ (count Observe.is_post (trace trigger) = 0%nat
     ∧ count is_console (trace trigger) = 3%nat
     ∧ outcome trigger = Resolved tt).
Proof.
  intros Hd Ht. cbv zeta.
  unfold Notifier.sendUndercutAlert, Notifier.sendPriceTriggerAlert.
  rewrite Hd, Ht. split; repeat split.
Qed.

(** X10. The channels of an alert say the same thing: the text of every embed
    posted to the webhook and of every message posted to the bot is the
    message written to the console. *)
Theorem channels_carry_one_message `{rt : Runtime} (net : Network)
    (config : NotificationConfig) (ev : ListingEvent) (lp fp pb : number)
    (sym reason : string) (fl : CollectionFloors) :
  let same (run : Run unit) :=
    ∃ message,
      ConsoleLog message ∈ trace run
      ∧ Forall (λ e, ∀ txt, txt ∈ Observe.post_texts e → txt = message) (trace run) in
  same (Notifier.sendUndercutAlert net config ev lp fp pb fl)
  ∧ same (Notifier.sendPriceTriggerAlert net config ev lp sym reason fl).
Proof.
  cbv zeta. split.
  - unfold Notifier.sendUndercutAlert. eexists.
    rewrite trace_bind. cbn [emit trace outcome store].
    destruct (channels_texts net config
                (Notifier.formatMessage (coll_name (collection (payload ev)))
                   (md_name (metadata (item (payload ev)))) lp fp pb
                   (symbol (payment_token (payload ev))) (permalink (item (payload ev))))
                ev fl) as [Hin Hall].
    split.
    + apply elem_of_app. right. exact Hin.
    + apply Forall_app. split; [|exact Hall].
      repeat constructor. intros txt Htxt. by apply elem_of_nil in Htxt.
  - unfold Notifier.sendPriceTriggerAlert.
    match goal with
    | |- context [Notifier.sendConsoleNotification ?m] =>
        destruct (channels_texts net config m ev fl) as [Hin Hall]; exists m
    end.
    rewrite trace_bind. cbn [emit trace outcome store].
    split.
    + apply elem_of_app. right. exact Hin.
    + apply Forall_app. split; [|exact Hall].
      repeat constructor. intros txt Htxt. by apply elem_of_nil in Htxt.
Qed.

(** ** Runs of a sequence of tasks *)

Section TaskRuns.

Context {A B C : Type}.

Lemma bind_emit (e : Effect) (k : unit → Task B) (fl : CollectionFloors) :
  (emit e ≫= k) fl =
  {| trace := e :: trace (k tt fl); store := store (k tt fl);
     outcome := outcome (k tt fl) |}.
Proof. reflexivity. Qed.

Lemma bind_getStore (k : CollectionFloors → Task B) (fl : CollectionFloors) :
  (getStore ≫= k) fl = k fl fl.
Proof. unfold mbind, task_bind. cbn. by destruct (k fl fl). Qed.

Lemma bind_putStore (fl' : CollectionFloors) (k : unit → Task B)
    (fl : CollectionFloors) :
  (putStore fl' ≫= k) fl = k tt fl'.
Proof. unfold mbind, task_bind. cbn. by destruct (k tt fl'). Qed.

Lemma bind_ret (a : A) (k : A → Task B) (fl : CollectionFloors) :
  (mret a ≫= k) fl = k a fl.
Proof. unfold mbind, task_bind. cbn. by destruct (k a fl). Qed.

Lemma bind_assoc (m : Task A) (f : A → Task B) (g : B → Task C)
    (fl : CollectionFloors) :
  ((m ≫= f) ≫= g) fl = (m ≫= λ a, f a ≫= g) fl.
Proof.
  unfold mbind, task_bind. cbv zeta.
  destruct (m fl) as [t s [a|e]]; cbn [trace store outcome]; [|done].
  destruct (f a s) as [t' s' [b|e]]; cbn [trace store outcome]; [|done].
  by rewrite app_assoc.
Qed.

End TaskRuns.

(** ** The handler: what it writes, what it reads *)

Section HandlerMore.

Context {rt : Runtime}.
Variable net : Network.
Variable config : BotConfig.
Variable settings : Settings.BotSettings.

(** The floor-update block after [updateFloor] accepted the event. *)
Lemma floorUpdate_accepted (ev : ListingEvent) (fl : CollectionFloors) :
  let c := slug (collection (payload ev)) in
  let fl' := <[c := recordOf ev]> fl in
  (updateFloor fl c ev).1 = true →
  ∃ l1 l2,
    floorUpdate settings ev fl =
    {| trace :=
         [CallUpdateFloor c; ConsoleLog l1]
         ++ (if floorUpdateAlertsOn settings
             then trace (Notifier.sendFloorUpdateAlert c (coll_name (collection (payload ev)))
                           (normalizedPrice ev) (symbol (payment_token (payload ev))) fl')
             else [])
         ++ [WebAddEvent "floor_update" l2 c; WebUpdateFloors fl'];
       store := fl';
       outcome := Resolved tt |}.
Proof.
  cbv zeta. intros Hupd.
  pose proof (updateFloor_true fl _ ev Hupd) as Hst.
  unfold floorUpdate.
  destruct (updateFloor fl (slug (collection (payload ev))) ev) as [b st] eqn:E.
  cbn [fst snd] in Hupd, Hst. subst b st.
  rewrite bind_emit, bind_getStore, E, bind_putStore. cbv beta iota.
  rewrite bind_getStore. unfold getFloor. rewrite lookup_insert_eq. cbv beta iota.
  rewrite !bind_assoc, bind_emit.
  destruct (floorUpdateAlertsOn settings); eexists _, _; reflexivity.
Qed.

(** The floor-update block after [updateFloor] refused the event. *)
Lemma floorUpdate_refused (ev : ListingEvent) (fl : CollectionFloors) :
  let c := slug (collection (payload ev)) in
  (updateFloor fl c ev).1 = false →
  floorUpdate settings ev fl =
  {| trace := [CallUpdateFloor c]; store := fl; outcome := Resolved tt |}.
Proof.
  cbv zeta. intros Hupd.
  destruct (updateFloor_false fl _ ev Hupd) as [Hst _].
  unfold floorUpdate.
  destruct (updateFloor fl (slug (collection (payload ev))) ev) as [b st] eqn:E.
  cbn [fst snd] in Hupd, Hst. subst b st.
  unfold mbind at 1 2, task_bind at 1 2.
  cbn [emit getStore trace outcome store app]. rewrite E. reflexivity.
Qed.

(** The floor-update block never rejects; it stores what [updateFloor]
    returns, calls it once, sends the floor-update alert when the floor
    was updated and the alerts are on, and shows the new store. *)
Lemma floorUpdate_run (ev : ListingEvent) (fl shown : CollectionFloors) :
  let res := updateFloor fl (slug (collection (payload ev))) ev in
  let r := floorUpdate settings ev fl in
  store r = res.2
  ∧ outcome r = Resolved tt
  ∧ count is_updateFloor_call (trace r) = 1%nat
  ∧ count is_floor_update_alert (trace r)
    = (if res.1 && floorUpdateAlertsOn settings then 1 else 0)%nat
  ∧ count Observe.is_post (trace r) = 0%nat
  ∧ Observe.floors_shown (trace r) shown = (if res.1 then res.2 else shown).
Proof.
  cbv zeta.
  destruct (updateFloor fl (slug (collection (payload ev))) ev).1 eqn:Hupd.
  - destruct (floorUpdate_accepted ev fl Hupd) as (l1 & l2 & ->).
    rewrite (updateFloor_true fl _ ev Hupd).
    cbn [trace store outcome andb].
    destruct (floorUpdateAlertsOn settings); repeat split.
  - rewrite (floorUpdate_refused ev fl Hupd).
    destruct (updateFloor_false fl _ ev Hupd) as [-> _].
    repeat split.
Qed.

Lemma isUndercut_nan_price (ev : ListingEvent) (fl : CollectionFloors) (c : string)
    (th : number) :
  JS.is_nan (normalizedPrice ev) = true →
  isUndercut_flag (isUndercut fl c ev th) = false.
Proof.
  intros H. unfold isUndercut. destruct (getFloor fl c) as [cur|]; [|done].
  cbn [isUndercut_flag]. unfold JS.ge, SFleb.
  destruct (normalizedPrice ev); try discriminate.
  destruct (price cur) as [s|s| |s m e]; try destruct s; by destruct th.
Qed.

Lemma isUndercut_no_floor (ev : ListingEvent) (fl : CollectionFloors) (c : string)
    (th : number) :
  getFloor fl c = None → isUndercut_flag (isUndercut fl c ev th) = false.
Proof. unfold isUndercut. by intros ->. Qed.

Lemma priceTrigger_nan (lp : number) :
  JS.is_nan lp = true → priceTrigger settings lp = (false, "").
Proof.
  intros H. unfold priceTrigger, JS.gt, JS.lt.
  destruct lp; try discriminate.
  destruct (Settings.priceAlertMin settings) as [mn|],
           (Settings.priceAlertMax settings) as [mx|];
    try destruct mn; try destruct mx; reflexivity.
Qed.

(** The price-trigger block without an alert. *)
Lemma priceTriggerAlerts_quiet (ev : ListingEvent) (lp : number) :
  (priceTrigger settings lp).1 = false →
  priceTriggerAlerts net config settings ev lp = mret tt.
Proof.
  unfold priceTriggerAlerts. destruct (priceTrigger settings lp) as [[] reason];
    [discriminate|]. intros _. by destruct (Settings.enablePriceTriggerAlerts settings).
Qed.

(** A handler whose alert blocks send nothing: the two listing lines, the
    verdict call in the undercut mode, and the floor-update block. *)
Lemma handler_quiet (ev : ListingEvent) (fl : CollectionFloors) :
  let c := slug (collection (payload ev)) in
  let r := handleListingEvent net config settings ev fl in
  priceTriggerAlerts net config settings ev (normalizedPrice ev) = mret tt →
  (Settings.enablePriceTriggerAlerts settings = true
   ∨ isUndercut_flag (isUndercut fl c ev (undercutThresholdPercent config)) = false) →
  count is_posting_alert (trace r) = 0%nat
  ∧ count Observe.is_post (trace r) = 0%nat
  ∧ count is_updateFloor_call (trace r) = 1%nat
  ∧ count is_floor_update_alert (trace r)
    = (if (updateFloor fl c ev).1 && floorUpdateAlertsOn settings then 1 else 0)%nat
  ∧ outcome r = Resolved tt
  ∧ store r = (updateFloor fl c ev).2.
Proof.
  cbv zeta. intros Hpta Hmode.
  destruct (floorUpdate_run ev fl fl) as (Hst & Hout & Hcall & Halert & Hpost & _).
  cbv zeta in *.
  rewrite handler_outcome, handler_store.
  destruct (handler_trace net config settings ev fl) as (l1 & l2 & ->).
  cbv zeta. rewrite Hpta. cbn [mret task_ret trace outcome store app].
  assert (Huca : ∃ tu, undercutAlerts net config settings ev (normalizedPrice ev) fl
                       = {| trace := tu; store := fl; outcome := Resolved Continue |}
                       ∧ (tu = [] ∨ tu = [CallIsUndercut (slug (collection (payload ev)))])).
  { destruct (Settings.enablePriceTriggerAlerts settings) eqn:Hen.
    - exists []. split; [|by left]. by rewrite undercutAlerts_off.
    - destruct Hmode as [Hmode|Hflag]; [discriminate|].
      eexists. split; [|by right].
      by apply undercutAlerts_unflagged. }
  destruct Huca as (tu & -> & Htu). cbn [trace outcome store].
  change (ConsoleLog l1 :: WebAddEvent "listing" l2 ?c :: ?t)
    with ([ConsoleLog l1; WebAddEvent "listing" l2 c] ++ t).
  rewrite !count_app, Hcall, Halert, Hpost, Hst, Hout.
  assert (Hfu : count is_posting_alert (trace (floorUpdate settings ev fl)) = 0%nat).
  { apply count_avoided, floorUpdate_avoids; silent. }
  rewrite Hfu.
  destruct Htu as [-> | ->]; repeat split.
Qed.

End HandlerMore.


(** X12. Unless the handler rejects or returns at a floor-price filter, the
    floor is maintained: a handler that resolves, in the price-trigger mode
    or for an event that is not flagged or passes both filters, has called
    [updateFloor] once and holds the store it returned. *)
Theorem resolved_handler_maintains_floor `{rt : Runtime} (net : Network)
    (config : BotConfig) (settings : Settings.BotSettings) (ev : ListingEvent)
    (fl : CollectionFloors) :
  let c := slug (collection (payload ev)) in
  let verdict := isUndercut fl c ev (undercutThresholdPercent config) in
  let r := handleListingEvent net config settings ev fl in
  is_resolved (outcome r) = true →
  Settings.enablePriceTriggerAlerts settings = true
  ∨ isUndercut_flag verdict = false
  ∨ belowMinFloor settings (floorPrice verdict)
    || aboveMaxFloor settings (floorPrice verdict) = false →
  store r = (updateFloor fl c ev).2
  ∧ count is_updateFloor_call (trace r) = 1%nat.
Proof.
  cbv zeta. rewrite handler_outcome, handler_store.
  destruct (handler_trace net config settings ev fl) as (l1 & l2 & ->).
  cbv zeta. intros Hres Hcase.
  destruct (floorUpdate_run settings ev fl fl) as (Hst & _ & Hcall & _).
  cbv zeta in Hst, Hcall.
  change (ConsoleLog l1 :: WebAddEvent "listing" l2 ?c :: ?t)
    with ([ConsoleLog l1; WebAddEvent "listing" l2 c] ++ t).
  assert (Hpta : count is_updateFloor_call
                   (trace (priceTriggerAlerts net config settings ev
                             (normalizedPrice ev) fl)) = 0%nat).
  { apply count_avoided, priceTriggerAlerts_avoids; silent. }
  assert (Huca : count is_updateFloor_call
                   (trace (undercutAlerts net config settings ev
                             (normalizedPrice ev) fl)) = 0%nat).
  { apply count_avoided, undercutAlerts_avoids; silent. }
  rewrite !count_app, Hpta.
  destruct (outcome (priceTriggerAlerts _ _ _ _ _ _)); [|discriminate].
  rewrite !count_app, Huca.
  destruct (Settings.enablePriceTriggerAlerts settings) eqn:Hmode.
  - rewrite undercutAlerts_off in * by done.
    cbn [mret task_ret trace outcome store] in *. by rewrite Hcall, Hst.
  - destruct Hcase as [Hcase | [Hflag | Hband]]; [discriminate| |].
    + rewrite (undercutAlerts_unflagged net config settings ev _ fl Hmode Hflag) in *.
      cbn [trace outcome store] in *. by rewrite Hcall, Hst.
    + destruct (isUndercut_flag (isUndercut fl (slug (collection (payload ev))) ev
                  (undercutThresholdPercent config))) eqn:Hflag.
      * apply orb_false_iff in Hband as [Hmin Hmax].
        destruct (undercutAlerts_sent net config settings ev (normalizedPrice ev) fl
                    Hmode Hflag Hmin Hmax) as [_ Hout].
        rewrite Hout in *.
        destruct (outcome (Notifier.sendUndercutAlert _ _ _ _ _ _ _)); [|discriminate].
        by rewrite Hcall, Hst.
      * rewrite (undercutAlerts_unflagged net config settings ev _ fl Hmode Hflag) in *.
        cbn [trace outcome store] in *. by rewrite Hcall, Hst.
Qed.


(** X14. The handler reads six things of the settings snapshot: the mode
    switch, the two price-trigger bounds, the two floor-price bounds and
    whether floor-update alerts are on. Two snapshots that agree on them give
    the same run; the threshold, the collections and the credentials of the
    snapshot are not read. *)
Theorem handler_reads_six_settings `{rt : Runtime} (net : Network) (config : BotConfig)
    (s1 s2 : Settings.BotSettings) (ev : ListingEvent) (fl : CollectionFloors) :
  Observe.handler_reads s1 = Observe.handler_reads s2 →
  handleListingEvent net config s1 ev fl = handleListingEvent net config s2 ev fl.
Proof.
  unfold Observe.handler_reads. intros [= H1 H2 H3 H4 H5 H6].
  unfold handleListingEvent, priceTriggerAlerts, undercutAlerts, floorUpdate,
    priceTrigger, belowMinFloor, aboveMaxFloor.
  rewrite H1, H2, H3, H4, H5, H6. reflexivity.
Qed.

(** X15. An event whose price is not a number produces no undercut and no
    price-trigger alert in either mode; nothing is posted, the handler
    resolves, and an existing floor record is left as it is. *)
Theorem nan_event_alerts_nobody `{rt : Runtime} (net : Network) (config : BotConfig)
    (settings : Settings.BotSettings) (ev : ListingEvent) (fl : CollectionFloors) :
  let c := slug (collection (payload ev)) in
  let r := handleListingEvent net config settings ev fl in
  JS.is_nan (normalizedPrice ev) = true →
  count is_posting_alert (trace r) = 0%nat
  ∧ count Observe.is_post (trace r) = 0%nat
  ∧ outcome r = Resolved tt
  ∧ (is_Some (getFloor fl c) → store r = fl).
Proof.
  cbv zeta. intros Hnan.
  destruct (handler_quiet net config settings ev fl)
    as (H1 & H2 & _ & _ & H5 & H6).
  { apply priceTriggerAlerts_quiet. by rewrite priceTrigger_nan. }
  { right. by apply isUndercut_nan_price. }
  cbv zeta in *. repeat split; try done.
  intros [cur Hcur]. rewrite H6.
  rewrite (updateFloor_refused fl _ ev cur Hcur); [done|]. by apply lt_nan_l.
Qed.

(** X16. The price-trigger mode without bounds: with
    [enablePriceTriggerAlerts] set and neither [priceAlertMin] nor
    [priceAlertMax] configured, no event produces an undercut or a
    price-trigger alert and nothing is posted; the floor is still updated. *)
Theorem triggers_without_bounds_are_silent `{rt : Runtime} (net : Network)
    (config : BotConfig) (settings : Settings.BotSettings) (ev : ListingEvent)
    (fl : CollectionFloors) :
  let c := slug (collection (payload ev)) in
  let r := handleListingEvent net config settings ev fl in
  Settings.enablePriceTriggerAlerts settings = true →
  Settings.priceAlertMin settings = None →
  Settings.priceAlertMax settings = None →
  count is_posting_alert (trace r) = 0%nat
  ∧ count Observe.is_post (trace r) = 0%nat
  ∧ outcome r = Resolved tt
  ∧ store r = (updateFloor fl c ev).2.
Proof.
  cbv zeta. intros Hmode Hmin Hmax.
  destruct (handler_quiet net config settings ev fl)
    as (H1 & H2 & _ & _ & H5 & H6).
  { apply priceTriggerAlerts_quiet. unfold priceTrigger. by rewrite Hmin, Hmax. }
  { by left. }
  done.
Qed.

(** ** The dashboard and the life cycle *)

Section DashboardFacts.

Context {rt : Runtime}.

Lemma length_last_n {A : Type} (n : nat) (l : list A) :
  (length (Observe.last_n n l) ≤ n)%nat.
Proof. unfold Observe.last_n. rewrite length_drop. lia. Qed.

Lemma last_n_short {A : Type} (n : nat) (l : list A) :
  (length l ≤ n)%nat → Observe.last_n n l = l.
Proof.
  intros H. unfold Observe.last_n.
  replace (length l - n)%nat with 0%nat by lia. reflexivity.
Qed.

(** Cutting before appending does not change what a later cut keeps. *)
Lemma last_n_app_last_n {A : Type} (n : nat) (l r : list A) :
  Observe.last_n n (Observe.last_n n l ++ r) = Observe.last_n n (l ++ r).
Proof.
  destruct (decide (length l ≤ n)%nat) as [Hle|Hgt].
  - by rewrite (last_n_short n l Hle).
  - unfold Observe.last_n. rewrite !length_app, length_drop.
    replace (length l - (length l - n) + length r - n)%nat with (length r) by lia.
    replace (length l + length r - n)%nat with ((length l - n) + length r)%nat by lia.
    rewrite <- (drop_drop (l ++ r) (length r) (length l - n)).
    f_equal. rewrite drop_app_le by lia. reflexivity.
Qed.

Lemma addEvent_lastEvents (now : number) (type message collection : string)
    (s : WebServer.BotStatus) :
  (length (WebServer.lastEvents s) ≤ 100)%nat →
  WebServer.lastEvents (WebServer.addEvent now type message collection s)
  = Observe.last_n 100
      (WebServer.lastEvents s ++
       [{| WebServer.ev_type := type;
           WebServer.ev_message := message;
           WebServer.ev_collection := collection;
           WebServer.ev_timestamp := now |}]).
Proof.
  intros Hlen. unfold WebServer.addEvent, Observe.last_n.
  cbn [WebServer.lastEvents]. rewrite length_app. cbn [length].
  destruct (100 <? length (WebServer.lastEvents s) + 1)%nat eqn:E.
  - apply Nat.ltb_lt in E.
    replace (length (WebServer.lastEvents s) + 1 - 100)%nat with 1%nat by lia.
    reflexivity.
  - apply Nat.ltb_ge in E.
    replace (length (WebServer.lastEvents s) + 1 - 100)%nat with 0%nat by lia.
    reflexivity.
Qed.

Lemma replay_lastEvents (now : nat → number) (t : list Effect) :
  ∀ (k : nat) (s : WebServer.BotStatus),
    (length (WebServer.lastEvents s) ≤ 100)%nat →
    WebServer.lastEvents (WebServer.replay now k t s)
    = Observe.last_n 100 (WebServer.lastEvents s ++ Observe.pushed_events now k t).
Proof.
  induction t as [|e t IH]; intros k s Hlen.
  - cbn. by rewrite app_nil_r, last_n_short.
  - destruct e; cbn [WebServer.replay Observe.pushed_events]; try by apply IH.
    + rewrite IH.
      * rewrite addEvent_lastEvents by done.
        rewrite last_n_app_last_n. by rewrite <- app_assoc.
      * rewrite addEvent_lastEvents by done. apply length_last_n.
    + rewrite IH; [reflexivity | exact Hlen].
Qed.

Lemma replay_floors (now : nat → number) (t : list Effect) :
  ∀ (k : nat) (s : WebServer.BotStatus),
    WebServer.status_floors (WebServer.replay now k t s)
    = Observe.floors_shown t (WebServer.status_floors s).
Proof.
  induction t as [|e t IH]; intros k s; [done|].
  destruct e; cbn [WebServer.replay]; rewrite IH; reflexivity.
Qed.

Lemma replay_isRunning (now : nat → number) (t : list Effect) :
  ∀ (k : nat) (s : WebServer.BotStatus),
    WebServer.isRunning (WebServer.replay now k t s) = WebServer.isRunning s.
Proof.
  induction t as [|e t IH]; intros k s; [done|].
  destruct e; cbn [WebServer.replay]; rewrite IH; reflexivity.
Qed.

Lemma floors_shown_app (t1 t2 : list Effect) (shown : CollectionFloors) :
  Observe.floors_shown (t1 ++ t2) shown
  = Observe.floors_shown t2 (Observe.floors_shown t1 shown).
Proof. unfold Observe.floors_shown. apply foldl_app. Qed.

Lemma floors_shown_avoided (t : list Effect) (shown : CollectionFloors) :
  Forall (λ e, Observe.is_floors_update e = false) t →
  Observe.floors_shown t shown = shown.
Proof.
  induction 1 as [|e t He _ IH]; [done|].
  destruct e; try discriminate; exact IH.
Qed.

(** The dashboard calls of a handler show the handler's store. *)
Lemma handler_floors_shown (net : Network) (config : BotConfig)
    (settings : Settings.BotSettings) (ev : ListingEvent) (fl : CollectionFloors) :
  let r := handleListingEvent net config settings ev fl in
  Observe.floors_shown (trace r) fl = store r.
Proof.
  cbv zeta. rewrite handler_store.
  destruct (handler_trace net config settings ev fl) as (l1 & l2 & ->).
  cbv zeta.
  change (ConsoleLog l1 :: WebAddEvent "listing" l2 ?c :: ?t)
    with ([ConsoleLog l1; WebAddEvent "listing" l2 c] ++ t).
  assert (Hpta : Forall (λ e, Observe.is_floors_update e = false)
                   (trace (priceTriggerAlerts net config settings ev
                             (normalizedPrice ev) fl))).
  { revert fl. change (avoids Observe.is_floors_update
      (priceTriggerAlerts net config settings ev (normalizedPrice ev))).
    unfold priceTriggerAlerts. handler_auto. }
  assert (Huca : Forall (λ e, Observe.is_floors_update e = false)
                   (trace (undercutAlerts net config settings ev
                             (normalizedPrice ev) fl))).
  { revert fl Hpta. intros fl _. revert fl.
    change (avoids Observe.is_floors_update
      (undercutAlerts net config settings ev (normalizedPrice ev))).
    unfold undercutAlerts. handler_auto. }
  rewrite !floors_shown_app. cbn [Observe.floors_shown foldl].
  fold (Observe.floors_shown
          (trace (priceTriggerAlerts net config settings ev (normalizedPrice ev) fl)) fl).
  rewrite (floors_shown_avoided _ fl Hpta).
  destruct (outcome (priceTriggerAlerts _ _ _ _ _ _)); [|reflexivity].
  rewrite floors_shown_app, (floors_shown_avoided _ fl Huca).
  destruct (outcome (undercutAlerts _ _ _ _ _ _)) as [[]|]; try reflexivity.
  destruct (floorUpdate_run settings ev fl fl) as (Hst & _ & _ & _ & _ & Hshown).
  cbv zeta in Hst, Hshown. rewrite Hshown, Hst.
  destruct (updateFloor fl (slug (collection (payload ev))) ev).1 eqn:Hupd; [done|].
  by destruct (updateFloor_false _ _ _ Hupd) as [-> _].
Qed.

Lemma start_consistent (st : Bot.State) :
  Bot.consistent st → Bot.consistent (Bot.startListening st).2.
Proof.
  intros (Hrun & Hfl & Hlen & Hcl). unfold Bot.startListening.
  destruct (Bot.isListening st) eqn:Hl; cbn [snd].
  - unfold Bot.consistent. by rewrite Hl.
  - unfold Bot.consistent. cbn. rewrite Hcl. repeat split. lia.
Qed.

Lemma stop_consistent (st : Bot.State) :
  Bot.consistent st → Bot.consistent (Bot.stopListening st).2.
Proof.
  intros (Hrun & Hfl & Hlen & Hcl). unfold Bot.stopListening.
  destruct (Bot.isListening st) eqn:Hl; cbn [snd negb].
  - unfold Bot.consistent. cbn. repeat split. lia.
  - unfold Bot.consistent. by rewrite Hl.
Qed.

Lemma listing_consistent (net : Network) (settings : Settings.BotSettings)
    (now : nat → number) (ev : ListingEvent) (st : Bot.State) :
  Bot.consistent st → Bot.consistent (Bot.onItemListed net settings now ev st).
Proof.
  intros (Hrun & Hfl & Hlen & Hcl). unfold Bot.consistent, Bot.onItemListed.
  cbn [Bot.botStatus Bot.isListening Bot.floorTracker Bot.client Bot.config].
  split; [by rewrite replay_isRunning|]. split; [|split; [|done]].
  - rewrite replay_floors, Hfl. apply handler_floors_shown.
  - rewrite replay_lastEvents by done. apply length_last_n.
Qed.

End DashboardFacts.

(** X17. The dashboard keeps the last hundred events: after the [addEvent]
    calls of any trace, on a status holding at most a hundred events, the
    status holds the last hundred of the events held before followed by the
    events pushed, in order, and [GET /api/events] returns the last fifty of
    them. *)
Theorem dashboard_keeps_last_hundred (now : nat → number) (k : nat)
    (t : list Effect) (s : WebServer.BotStatus) :
  (length (WebServer.lastEvents s) ≤ 100)%nat →
  let all := WebServer.lastEvents s ++ Observe.pushed_events now k t in
  let s' := WebServer.replay now k t s in
  WebServer.lastEvents s' = Observe.last_n 100 all
  ∧ (length (WebServer.lastEvents s') ≤ 100)%nat
  ∧ WebServer.recentEvents s' = Observe.last_n 50 all.
Proof.
  intros Hlen. cbv zeta.
  pose proof (replay_lastEvents now t k s Hlen) as Heq.
  split; [exact Heq|]. split.
  - rewrite Heq. apply length_last_n.
  - unfold WebServer.recentEvents. rewrite Heq.
    set (all := WebServer.lastEvents s ++ Observe.pushed_events now k t).
    unfold Observe.last_n. rewrite length_drop, drop_drop. f_equal. lia.
Qed.

(** X18. The dashboard shows the tracker's floors after every listing event:
    when the status showed the store before the event, the status after the
    handler's dashboard calls shows the store after it, also when the handler
    returned at a filter or rejected. *)
Theorem dashboard_shows_the_store `{rt : Runtime} (net : Network) (config : BotConfig)
    (settings : Settings.BotSettings) (now : nat → number) (k : nat)
    (ev : ListingEvent) (fl : CollectionFloors) (s : WebServer.BotStatus) :
  WebServer.status_floors s = fl →
  let r := handleListingEvent net config settings ev fl in
  WebServer.status_floors (WebServer.replay now k (trace r) s) = store r.
Proof.
  intros Hs. cbv zeta. rewrite replay_floors, Hs. apply handler_floors_shown.
Qed.

(** X19. The monitor stays consistent through any sequence of starts, stops
    and listing events after its construction: the dashboard's running flag
    is the listening flag, the dashboard's floors are the tracker's, the
    dashboard holds at most a hundred events, and the current stream client
    carries the subscriptions of the configured collections, once each time
    they are listed, when the monitor listens and none when it does not. *)
Theorem monitor_stays_consistent `{rt : Runtime} (envConfig : BotConfig)
    (settings : Settings.BotSettings) (cs : list Bot.Command) :
  Bot.consistent (Bot.run (Bot.construct envConfig settings) cs).
Proof.
  induction cs as [|c cs IH] using rev_ind.
  - cbn. unfold Bot.consistent. cbn. repeat split. lia.
  - unfold Bot.run in *. rewrite foldl_app. cbn [foldl].
    destruct c as [| |net s now ev]; cbn [Bot.step].
    + by apply start_consistent.
    + by apply stop_consistent.
    + by apply listing_consistent.
Qed.


(** ** Saving settings and loading the configuration *)

Section StringFacts.

Lemma trim_start_fixed (s : string) :
  match s with
  | String a _ => is_space a = false
  | EmptyString => True
  end → trim_start s = s.
Proof. destruct s as [|a s]; [done|]. cbn. by intros ->. Qed.

Lemma trim_start_head (s : string) :
  match trim_start s with
  | String a _ => is_space a = false
  | EmptyString => True
  end.
Proof.
  induction s as [|a s IH]; [done|]. cbn.
  destruct (is_space a) eqn:Ha; [exact IH | exact Ha].
Qed.

(** [trim_end] keeps the first character of what it does not erase. *)
Lemma trim_end_head (a : ascii) (s : string) :
  trim_end (String a s) = "" ∨ ∃ r, trim_end (String a s) = String a r.
Proof.
  cbn. destruct (trim_end s) as [|b r].
  - destruct (is_space a); eauto.
  - eauto.
Qed.

Lemma trim_end_idem (s : string) : trim_end (trim_end s) = trim_end s.
Proof.
  induction s as [|a s IH]; [done|]. cbn.
  destruct (trim_end s) as [|b r] eqn:Hr.
  - destruct (is_space a) eqn:Ha; [done|]. cbn. by rewrite Ha.
  - cbn [trim_end]. fold trim_end. change (trim_end (String b r)) with
      (match trim_end r with
       | EmptyString => if is_space b then "" else String b ""
       | String c r' => String b (String c r')
       end) in IH |- *.
    by rewrite IH.
Qed.

Lemma trim_idem (s : string) : trim (trim s) = trim s.
Proof.
  unfold trim. pose proof (trim_start_head s) as Hhead.
  destruct (trim_start s) as [|a u]; [done|].
  destruct (trim_end_head a u) as [-> | [r Hr]]; [done|].
  rewrite Hr. rewrite (trim_start_fixed (String a r) Hhead).
  by rewrite <- Hr, trim_end_idem.
Qed.

Lemma nonempty_spec (s : string) : Config.nonempty s = true ↔ s ≠ "".
Proof. destruct s; cbn; split; done. Qed.

Lemma filter_nonempty_nil (l : list string) :
  List.filter Config.nonempty l = [] ↔ Forall (λ s, s = "") l.
Proof.
  induction l as [|s l IH]; [by split|]. cbn.
  destruct s as [|a s]; cbn.
  - rewrite IH. split; [by constructor|]. by inversion 1.
  - split; [discriminate|]. by inversion 1.
Qed.

Lemma default_idem {A : Type} (x : A) (o : option A) :
  default (default x o) o = default x o.
Proof. by destruct o. Qed.

End StringFacts.

(** X21. A save is applied before it is written: the manager's settings after
    [saveSettings] are the merged settings whether or not the file could be
    written; a write that fails makes the call throw and [POST /api/settings]
    answer 500, with the merged settings in force all the same. Saving the
    same settings twice is saving them once, and an empty save changes
    nothing. *)
Theorem failed_save_is_still_applied (writeFileSync : Settings.BotSettings → bool)
    (current : Settings.BotSettings) (body : SettingsManager.PartialSettings) :
  let merged := SettingsManager.merge current body in
  let save := SettingsManager.saveSettings writeFileSync current body in
  SettingsManager.getSettings (SettingsManager.settings_after save) = merged
  ∧ SettingsManager.written save = (if writeFileSync merged then Some merged else None)
  ∧ (SettingsManager.result save = SettingsManager.FailedToSave
     ↔ writeFileSync merged = false)
  ∧ SettingsManager.postSettings writeFileSync current body
    = ((if writeFileSync merged then 200 else 500)%N, merged)
  ∧ SettingsManager.merge merged body = merged
  ∧ SettingsManager.merge current
      {| SettingsManager.new_collections := None;
         SettingsManager.new_undercutThresholdPercent := None;
         SettingsManager.new_telegramBotToken := None;
         SettingsManager.new_telegramChatId := None;
         SettingsManager.new_telegramNickname := None;
         SettingsManager.new_discordWebhook := None;
         SettingsManager.new_discordNickname := None;
         SettingsManager.new_minFloorPrice := None;
         SettingsManager.new_maxFloorPrice := None;
         SettingsManager.new_enableNewListingAlerts := None;
         SettingsManager.new_enableSaleAlerts := None;
         SettingsManager.new_enableFloorUpdateAlerts := None;
         SettingsManager.new_priceAlertMin := None;
         SettingsManager.new_priceAlertMax := None;
         SettingsManager.new_enablePriceTriggerAlerts := None |}
    = current.
Proof.
  cbv zeta. unfold SettingsManager.saveSettings, SettingsManager.postSettings,
    SettingsManager.getSettings, SettingsManager.saveSettings.
  split; [by destruct (writeFileSync _)|].
  split; [by destruct (writeFileSync _)|].
  split; [destruct (writeFileSync _); cbn; split; congruence|].
  split; [by destruct (writeFileSync _)|].
  split.
  - unfold SettingsManager.merge. cbn. f_equal; apply default_idem.
  - by destruct current.
Qed.


(** ** The properties on concrete events

    Everything below runs the code on [ref_runtime]. *)

Import Examples.

#[local] Existing Instance ref_runtime.

(** The floor scenario of the design document: listings at 1.0, 1.2 and 0.8
    ETH on an empty store are accepted, refused and accepted. *)
Example floor_scenario :
  let s1 := updateFloor ∅ "apes" l_1_0 in
  let s2 := updateFloor s1.2 "apes" l_1_2 in
  let s3 := updateFloor s2.2 "apes" l_0_8 in
  (s1.1, price <$> getFloor s1.2 "apes") = (true, Some (normalizedPrice l_1_0))
  ∧ (s2.1, price <$> getFloor s2.2 "apes") = (false, Some (normalizedPrice l_1_0))
  ∧ (s3.1, price <$> getFloor s3.2 "apes") = (true, Some (normalizedPrice l_0_8))
  ∧ toFixed (normalizedPrice l_1_0) 1 = "1.0"
  ∧ toFixed (normalizedPrice l_0_8) 1 = "0.8".
Proof. vm_compute. repeat split. Qed.

(** The undercut scenario: against a floor of 1.0 ETH and a threshold of 5%,
    0.94 ETH is an undercut and 0.96 ETH is not; at a threshold of 50%, a
    listing at 0.5 ETH is exactly at the threshold and is an undercut. *)
Example undercut_scenario :
  let v94 := isUndercut floor_1_0 "apes" l_0_94 (JS.of_Z 5) in
  let v96 := isUndercut floor_1_0 "apes" l_0_96 (JS.of_Z 5) in
  let v50 := isUndercut floor_1_0 "apes" l_0_5 (JS.of_Z 50) in
  (isUndercut_flag v94, toFixed (percentBelow v94) 2) = (true, "6.00")
  ∧ (isUndercut_flag v96, toFixed (percentBelow v96) 2) = (false, "4.00")
  ∧ (isUndercut_flag v50, percentBelow v50) = (true, JS.of_Z 50)
  ∧ isUndercut_flag (isUndercut ∅ "apes" l_0_5 (JS.of_Z 0)) = false.
Proof. vm_compute. repeat split. Qed.

(** A first price that is not a number stays the floor: the running minimum
    is a property of events whose prices are numbers. *)
Example nan_floor_is_never_replaced :
  let fl := applyEvents ∅ "apes" [listing "abc"; l_1_0] in
  price <$> getFloor fl "apes" = Some JS.NaN.
Proof. vm_compute. reflexivity. Qed.


(** The price-trigger scenario: with [priceAlertMin = 0.5], a listing at 0.3
    ETH gets one alert, whose reason names the min bound. *)
Lemma price_trigger_reason_max_wins_witness :
  Settings.enablePriceTriggerAlerts (triggers (Some n_0_5) None) = true
  ∧ price_trigger_reasons
      (trace (handleListingEvent net_ok config5 (triggers (Some n_0_5) None) l_0_3 ∅))
    = ["Below 0.5 ETH"].
Proof.
  split; [reflexivity|].
  rewrite (proj1 (price_trigger_reason_max_wins net_ok config5
                    (triggers (Some n_0_5) None) l_0_3 ∅ eq_refl)).
  vm_compute. reflexivity.
Defined.

(** With [priceAlertMin = 0.5] and [priceAlertMax = 0.2], a listing at 0.3 ETH
    crosses both bounds and gets one alert, whose reason names the max bound. *)
Example both_bounds_crossed :
  let t := trace (handleListingEvent net_ok config5
                    (triggers (Some n_0_5) (Some n_0_2)) l_0_3 ∅) in
  price_trigger_reasons t = ["Above 0.2 ETH"]
  ∧ count is_price_trigger_alert t = 1%nat
  ∧ count is_undercut_alert t = 0%nat.
Proof. vm_compute. repeat split. Qed.

(** The input on which the handler leaves the floor stale: a floor of 1.0 ETH,
    [minFloorPrice = 2], a threshold of 5% and a listing at 0.8 ETH. The
    listing is flagged, no alert is sent, and the store still has 1.0 ETH,
    although [updateFloor] accepts the listing. *)
Lemma filtered_undercut_skips_floor_update_witness :
  let settings := Settings.set_minFloorPrice defaults (Some (JS.of_Z 2)) in
  let verdict := isUndercut floor_1_0 "apes" l_0_8 (undercutThresholdPercent config5) in
  let r := handleListingEvent net_ok config5 settings l_0_8 floor_1_0 in
  (Settings.enablePriceTriggerAlerts settings = false
   ∧ isUndercut_flag verdict = true
   ∧ belowMinFloor settings (floorPrice verdict)
       || aboveMaxFloor settings (floorPrice verdict) = true)
  ∧ (count is_undercut_alert (trace r) = 0%nat
     ∧ count is_updateFloor_call (trace r) = 0%nat
     ∧ store r = floor_1_0
     ∧ outcome r = Resolved tt)
  ∧ (updateFloor floor_1_0 "apes" l_0_8).1 = true
  ∧ price <$> getFloor (store r) "apes" = Some (normalizedPrice l_1_0).
Proof.
  cbv zeta.
  assert (H1 : Settings.enablePriceTriggerAlerts
                 (Settings.set_minFloorPrice defaults (Some (JS.of_Z 2))) = false)
    by reflexivity.
  assert (H2 : isUndercut_flag (isUndercut floor_1_0 "apes" l_0_8
                                  (undercutThresholdPercent config5)) = true)
    by (vm_compute; reflexivity).
  assert (H3 : belowMinFloor (Settings.set_minFloorPrice defaults (Some (JS.of_Z 2)))
                 (floorPrice (isUndercut floor_1_0 "apes" l_0_8
                                (undercutThresholdPercent config5)))
               || aboveMaxFloor (Settings.set_minFloorPrice defaults (Some (JS.of_Z 2)))
                    (floorPrice (isUndercut floor_1_0 "apes" l_0_8
                                   (undercutThresholdPercent config5))) = true)
    by (vm_compute; reflexivity).
  split; [repeat split; assumption|].
  split.
  - exact (filtered_undercut_skips_floor_update net_ok config5
             (Settings.set_minFloorPrice defaults (Some (JS.of_Z 2))) l_0_8 floor_1_0
             H1 H2 H3).
  - split; vm_compute; reflexivity.
Defined.




(** An undercut alert on the same configuration is posted to both. *)
Example undercut_alert_posts_to_both :
  let r := handleListingEvent net_ok config5 defaults l_0_94 floor_1_0 in
  count is_console (trace r) = 8%nat
  ∧ count is_discord_post (trace r) = 1%nat
  ∧ count is_telegram_post (trace r) = 1%nat
  ∧ count is_floor_update_alert (trace r) = 1%nat
  ∧ outcome r = Resolved tt.
Proof. vm_compute. repeat split. Qed.

(** C9, as stated, fails: the tracker has a floor of 1.0 ETH; writing [price]
    of the record reached through the value [getAllFloors] returned changes
    the price [getFloor] and [isUndercut] report. *)
Lemma snapshot_record_is_shared :
  let snap := (Heap.getAllFloors heap_1_0 tracker_1_0).1 in
  let h1 := (Heap.getAllFloors heap_1_0 tracker_1_0).2 in
  let h2 := Heap.mutate snap h1 (Heap.SetField "apes" (set_price JS.zero)) in
  price <$> Heap.getFloor heap_1_0 tracker_1_0 "apes" = Some (normalizedPrice l_1_0)
  ∧ price <$> Heap.getFloor h1 tracker_1_0 "apes" = Some (normalizedPrice l_1_0)
  ∧ price <$> Heap.getFloor h2 tracker_1_0 "apes" = Some JS.zero
  ∧ Heap.getFloor h2 tracker_1_0 "apes" ≠ Heap.getFloor heap_1_0 tracker_1_0 "apes"
  ∧ floorPrice (Heap.isUndercut h2 tracker_1_0 "apes" l_0_8 (JS.of_Z 5))
    ≠ floorPrice (Heap.isUndercut heap_1_0 tracker_1_0 "apes" l_0_8 (JS.of_Z 5)).
Proof.
  vm_compute. repeat split; discriminate.
Qed.

Lemma tracker_1_0_wf : Heap.wf heap_1_0 tracker_1_0.
Proof.
  unfold heap_1_0, tracker_1_0.
  apply (updateFloor_view (Heap.newTracker ∅).2 (Heap.newTracker ∅).1 "apes" l_1_0).
  apply newTracker_wf.
Defined.

Lemma getAllFloors_copies_entries_only_witness :
  let ms := [Heap.DeleteProperty "apes";
             Heap.SetProperty "punks" (recordOf l_0_8);
             Heap.CopyProperty "apes" "punks"] in
  let snap := (Heap.getAllFloors heap_1_0 tracker_1_0).1 in
  let h1 := (Heap.getAllFloors heap_1_0 tracker_1_0).2 in
  let h2 := Heap.mutateAll snap h1 ms in
  Heap.wf heap_1_0 tracker_1_0
  ∧ Forall (λ m, Heap.top_level m = true) ms
  ∧ (price <$> (Heap.props_at h2 snap !! "apes" ≫= Heap.deref h2))
    = Some (normalizedPrice l_0_8)
  ∧ Heap.getFloor h2 tracker_1_0 "apes" = Heap.getFloor heap_1_0 tracker_1_0 "apes"
  ∧ Heap.getFloor h2 tracker_1_0 "punks" = Heap.getFloor heap_1_0 tracker_1_0 "punks".
Proof.
  cbv zeta.
  assert (H2 : Forall (λ m, Heap.top_level m = true)
                 [Heap.DeleteProperty "apes";
                  Heap.SetProperty "punks" (recordOf l_0_8);
                  Heap.CopyProperty "apes" "punks"]).
  { repeat constructor. }
  split; [exact tracker_1_0_wf|]. split; [exact H2|].
  split; [vm_compute; reflexivity|].
  split.
  - exact (proj1 (proj2 (proj2 (getAllFloors_copies_entries_only heap_1_0 tracker_1_0
             _ "apes" l_0_8 (JS.of_Z 5) tracker_1_0_wf H2)))).
  - exact (proj1 (proj2 (proj2 (getAllFloors_copies_entries_only heap_1_0 tracker_1_0
             _ "punks" l_0_8 (JS.of_Z 5) tracker_1_0_wf H2)))).
Defined.

(** ** The further properties on concrete inputs *)

Import Examples MoreExamples.

#[local] Existing Instance ref_runtime.

(** The configuration of an environment whose list of collections has blanks
    around and between the slugs. *)
Example loadConfig_scenario :
  match Config.loadConfig env with
  | inr cfg => collections cfg = ["apes"; "punks"]
  | inl _ => False
  end
  ∧ Config.loadConfig (delete "OPENSEA_API_KEY" env)
    = inl "OPENSEA_API_KEY is required in .env file"
  ∧ Config.loadConfig (<["COLLECTIONS" := " , "]> env)
    = inl "At least one collection slug is required".
Proof. vm_compute. repeat split. Qed.

Lemma replayed_events_change_nothing_witness :
  (∀ e, e ∈ [l_0_8; l_1_0; l_0_8] → e ∈ [l_1_0; l_0_8])
  ∧ applyEvents (applyEvents ∅ "apes" [l_1_0; l_0_8]) "apes" [l_0_8; l_1_0; l_0_8]
    = applyEvents ∅ "apes" [l_1_0; l_0_8].
Proof.
  assert (H : ∀ e, e ∈ [l_0_8; l_1_0; l_0_8] → e ∈ [l_1_0; l_0_8]).
  { intros e. rewrite !elem_of_cons. intros [-> | [-> | [-> | []%elem_of_nil]]]; auto. }
  split; [exact H|].
  exact (proj1 (replayed_events_change_nothing ∅ "apes" [l_1_0; l_0_8]
                  [l_0_8; l_1_0; l_0_8] H)).
Defined.

Lemma floor_price_ignores_order_witness :
  getFloor (∅ : CollectionFloors) "apes" = None
  ∧ Forall (λ e, JS.is_nan (normalizedPrice e) = false) [l_1_0; l_1_2; l_0_8]
  ∧ [l_1_0; l_1_2; l_0_8] ≡ₚ [l_0_8; l_1_0; l_1_2]
  ∧ SFcompare (normalizedPrice l_0_8) (normalizedPrice l_0_8) = Some Eq.
Proof.
  assert (H1 : getFloor (∅ : CollectionFloors) "apes" = None) by reflexivity.
  assert (H2 : Forall (λ e, JS.is_nan (normalizedPrice e) = false)
                 [l_1_0; l_1_2; l_0_8]) by (repeat constructor).
  assert (H3 : [l_1_0; l_1_2; l_0_8] ≡ₚ [l_0_8; l_1_0; l_1_2]).
  { symmetry. apply (Permutation_middle [l_1_0; l_1_2] [] l_0_8). }
  split; [exact H1|]. split; [exact H2|]. split; [exact H3|].
  exact (floor_price_ignores_order ∅ "apes" _ _ H1 H2 H3).
Defined.

Lemma collections_are_independent_witness :
  "apes" ≠ "punks"
  ∧ getFloor (applyEvents floor_1_0 "punks" [l_0_8; l_1_2]) "apes"
    = getFloor floor_1_0 "apes".
Proof.
  assert (H : "punks" ≠ "apes") by discriminate.
  split; [discriminate|].
  exact (proj1 (collections_are_independent floor_1_0 "punks" "apes" l_0_8 l_0_8
                  [l_0_8; l_1_2] H)).
Defined.

Lemma nan_price_is_never_lower_witness :
  getFloor floor_bad "apes" = Some (recordOf l_bad)
  ∧ JS.is_nan (normalizedPrice l_bad) = true
  ∧ updateFloor floor_bad "apes" l_bad = (false, floor_bad)
  ∧ applyEvents floor_bad "apes" [l_1_0; l_0_8] = floor_bad.
Proof.
  assert (H1 : getFloor floor_bad "apes" = Some (recordOf l_bad))
    by (vm_compute; reflexivity).
  assert (H2 : JS.is_nan (normalizedPrice l_bad) = true) by (vm_compute; reflexivity).
  split; [exact H1|]. split; [exact H2|].
  destruct (nan_price_is_never_lower floor_bad "apes" (recordOf l_bad) l_bad
              [l_1_0; l_0_8] H1) as [Ha Hb].
  split; [exact (Ha H2) | exact (Hb H2)].
Defined.

Lemma isUndercut_not_a_number_witness :
  JS.is_nan (normalizedPrice l_bad) = true
  ∧ isUndercut_flag (isUndercut floor_1_0 "apes" l_bad (JS.of_Z 0)) = false.
Proof.
  assert (H : JS.is_nan (normalizedPrice l_bad) = true) by (vm_compute; reflexivity).
  split; [exact H|].
  exact (isUndercut_not_a_number floor_1_0 "apes" l_bad (JS.of_Z 0) (or_introl H)).
Defined.

Lemma snapshot_survives_updates_witness :
  let snap := (Heap.getAllFloors heap_1_0 tracker_1_0).1 in
  let h1 := (Heap.getAllFloors heap_1_0 tracker_1_0).2 in
  let h2 := Observe.applyEvents h1 tracker_1_0 "apes" [l_0_8] in
  Heap.wf heap_1_0 tracker_1_0
  ∧ Observe.contents h2 snap = Heap.view heap_1_0 tracker_1_0
  ∧ price <$> Observe.contents h2 snap !! "apes" = Some (normalizedPrice l_1_0)
  ∧ price <$> Heap.getFloor h2 tracker_1_0 "apes" = Some (normalizedPrice l_0_8).
Proof.
  cbv zeta. split; [exact tracker_1_0_wf|]. split.
  - exact (proj1 (proj2 (snapshot_survives_updates heap_1_0 tracker_1_0 "apes"
                           [l_0_8] tracker_1_0_wf))).
  - split; vm_compute; reflexivity.
Defined.

Lemma unconfigured_channels_are_silent_witness :
  JS.truthy_ostr (discordWebhook token_only) = false
  ∧ JS.truthy_ostr (telegramBotToken token_only)
      && JS.truthy_ostr (telegramChatId token_only) = false
  ∧ count Observe.is_post
      (trace (Notifier.sendUndercutAlert net_webhook_500 token_only l_0_94
                (normalizedPrice l_0_94) (normalizedPrice l_1_0) (JS.of_Z 6) ∅)) = 0%nat.
Proof.
  split; [reflexivity|]. split; [reflexivity|].
  exact (proj1 (proj1 (unconfigured_channels_are_silent net_webhook_500 token_only
                         l_0_94 (normalizedPrice l_0_94) (normalizedPrice l_1_0)
                         (JS.of_Z 6) "ETH" "" ∅ eq_refl eq_refl))).
Defined.

Lemma resolved_handler_maintains_floor_witness :
  let r := handleListingEvent net_ok config5 defaults l_0_94 floor_1_0 in
  is_resolved (outcome r) = true
  ∧ count is_undercut_alert (trace r) = 1%nat
  ∧ store r = (updateFloor floor_1_0 "apes" l_0_94).2
  ∧ count is_updateFloor_call (trace r) = 1%nat.
Proof.
  cbv zeta.
  assert (H1 : is_resolved (outcome (handleListingEvent net_ok config5 defaults
                                       l_0_94 floor_1_0)) = true)
    by (vm_compute; reflexivity).
  split; [exact H1|]. split; [vm_compute; reflexivity|].
  apply (resolved_handler_maintains_floor net_ok config5 defaults l_0_94 floor_1_0 H1).
  right. right. vm_compute. reflexivity.
Defined.


Lemma handler_reads_six_settings_witness :
  Observe.handler_reads defaults = Observe.handler_reads defaults'
  ∧ defaults ≠ defaults'
  ∧ handleListingEvent net_ok config5 defaults l_0_94 floor_1_0
    = handleListingEvent net_ok config5 defaults' l_0_94 floor_1_0.
Proof.
  assert (H : Observe.handler_reads defaults = Observe.handler_reads defaults')
    by reflexivity.
  split; [exact H|]. split; [discriminate|].
  exact (handler_reads_six_settings net_ok config5 defaults defaults' l_0_94
           floor_1_0 H).
Defined.

Lemma nan_event_alerts_nobody_witness :
  let r := handleListingEvent net_ok config5 (triggers (Some n_0_5) (Some n_0_2))
             l_bad floor_1_0 in
  JS.is_nan (normalizedPrice l_bad) = true
  ∧ count is_posting_alert (trace r) = 0%nat
  ∧ outcome r = Resolved tt
  ∧ store r = floor_1_0.
Proof.
  cbv zeta.
  assert (H : JS.is_nan (normalizedPrice l_bad) = true) by (vm_compute; reflexivity).
  split; [exact H|].
  destruct (nan_event_alerts_nobody net_ok config5 (triggers (Some n_0_5) (Some n_0_2))
              l_bad floor_1_0 H) as (H1 & _ & H3 & H4).
  split; [exact H1|]. split; [exact H3|]. apply H4. vm_compute. eauto.
Defined.

Lemma triggers_without_bounds_are_silent_witness :
  let r := handleListingEvent net_ok config5 (triggers None None) l_0_5 floor_1_0 in
  Settings.enablePriceTriggerAlerts (triggers None None) = true
  ∧ count is_posting_alert (trace r) = 0%nat
  ∧ store r = (updateFloor floor_1_0 "apes" l_0_5).2.
Proof.
  cbv zeta. split; [reflexivity|].
  destruct (triggers_without_bounds_are_silent net_ok config5 (triggers None None)
              l_0_5 floor_1_0 eq_refl eq_refl eq_refl) as (H1 & _ & _ & H4).
  split; [exact H1 | exact H4].
Defined.

Lemma dashboard_keeps_last_hundred_witness :
  let t := trace (handleListingEvent net_ok config5 defaults l_0_94 floor_1_0) in
  (length (WebServer.lastEvents WebServer.initialStatus) ≤ 100)%nat
  ∧ WebServer.ev_type <$> WebServer.lastEvents (WebServer.replay clock 0 t
                                                    WebServer.initialStatus)
    = ["listing"; "undercut"; "floor_update"].
Proof.
  cbv zeta.
  assert (H : (length (WebServer.lastEvents WebServer.initialStatus) ≤ 100)%nat).
  { cbn. lia. }
  split; [exact H|].
  rewrite (proj1 (dashboard_keeps_last_hundred clock 0 _ WebServer.initialStatus H)).
  vm_compute. reflexivity.
Defined.

Lemma dashboard_shows_the_store_witness :
  let r := handleListingEvent net_webhook_500 config5 defaults l_0_94 floor_1_0 in
  let s := WebServer.updateBotStatus
             {| WebServer.set_isRunning := None;
                WebServer.set_collections := None;
                WebServer.set_floors := Some floor_1_0;
                WebServer.set_lastEvents := None |} WebServer.initialStatus in
  WebServer.status_floors s = floor_1_0
  ∧ WebServer.status_floors (WebServer.replay clock 0 (trace r) s) = store r.
Proof.
  cbv zeta.
  assert (H : WebServer.status_floors
                (WebServer.updateBotStatus
                   {| WebServer.set_isRunning := None;
                      WebServer.set_collections := None;
                      WebServer.set_floors := Some floor_1_0;
                      WebServer.set_lastEvents := None |} WebServer.initialStatus)
              = floor_1_0) by reflexivity.
  split; [exact H|].
  exact (dashboard_shows_the_store net_webhook_500 config5 defaults clock 0 l_0_94
           floor_1_0 _ H).
Defined.



